(** * Strategic issue scoring and aggregation of the technical SEO auditor

    A shallow embedding of the decision logic of
    [technical_seo_audit_system_v3.py]: the page classifier and strategic
    scorer ([StrategicSEOScorer]), the issue detector
    ([TechnicalSEOAuditor._analyze_issues]), the team router
    ([_categorize_issues_by_team]) and the aggregator
    ([_generate_audit_summary]), followed by the properties the
    specification states about them.

    Modelling conventions
    - Python [str] is [string], holding the UTF-8 encoding of the text:
      equality and substring tests on the bytes are those on the code
      points, [len] counts the bytes that begin a code point and [strip]
      takes off the whitespace characters of [str.isspace].  [str.lower]
      maps the letters A-Z and the two code points beyond ASCII whose
      lowercase form holds an ASCII letter; the other letters are left as
      they are, which no test of the program sees: it searches the
      lower-cased text for ASCII patterns only.
    - Python [int] is [Z]; Python [float] is IEEE 754 binary64, given by
      [spec_float] with precision 53 and maximal exponent 1024, every
      operation rounding to nearest-even as the hardware does.
    - A dictionary literal used as a table is an association list read
      with [dict_get]; a dictionary filled while the program runs is a
      [gmap] when it is only looked up, and an association list kept in
      insertion order when it is iterated (Python iterates in insertion
      order).
    - In-place [append] on the shared [issues] list is explicit state
      passing: every pass returns the list extended at its end. *)

From Stdlib Require Import ZArith String Ascii List Bool Lia Permutation Sorted.
From Stdlib Require Import Floats.SpecFloat.
From stdpp Require Import gmap strings list.
Import ListNotations.

Local Open Scope string_scope.
Local Open Scope list_scope.
Local Open Scope Z_scope.

(** ** Python strings *)

Module PyStr.

(** The value of a byte. *)
Definition byte (c : ascii) : N := N_of_ascii c.

Definition is_upper (c : ascii) : bool :=
  let n := N_of_ascii c in (N.leb 65 n && N.leb n 90)%bool.

Definition lower_char (c : ascii) : ascii :=
  if is_upper c then ascii_of_N (N_of_ascii c + 32) else c.

(** [s.lower()], as far as ASCII patterns can tell: the letters A-Z, and
    the two code points beyond ASCII whose lowercase form holds an ASCII
    letter, U+0130 (bytes C4 B0, lowercase [i] and U+0307, bytes CC 87)
    and U+212A (bytes E2 84 AA, lowercase [k]). *)
Fixpoint lower (s : string) : string :=
  match s with
  | EmptyString => EmptyString
  | String c1 s1 =>
      match s1 with
      | EmptyString => String (lower_char c1) EmptyString
      | String c2 s2 =>
          if (N.eqb (byte c1) 196 && N.eqb (byte c2) 176)%bool then
            String "i" (String (ascii_of_N 204) (String (ascii_of_N 135) (lower s2)))
          else
            match s2 with
            | EmptyString => String (lower_char c1) (lower s1)
            | String c3 s3 =>
                if (N.eqb (byte c1) 226 && N.eqb (byte c2) 132 && N.eqb (byte c3) 170)%bool
                then String "k" (lower s3)
                else String (lower_char c1) (lower s1)
            end
      end
  end.

(** [pat in s]: [pat] occurs in [s] as a contiguous substring. *)
Fixpoint contains (pat s : string) : bool :=
  (String.prefix pat s
   || match s with
      | EmptyString => false
      | String _ s' => contains pat s'
      end)%bool.

(** [any(pattern in s for pattern in patterns)] *)
Definition any_in (patterns : list string) (s : string) : bool :=
  existsb (fun pattern => contains pattern s) patterns.

(** [s.count(c)] for a one-character needle. *)
Fixpoint count_char (c : ascii) (s : string) : Z :=
  match s with
  | EmptyString => 0
  | String d s' => (if Ascii.eqb d c then 1 else 0) + count_char c s'
  end.

(** [s.replace(a, b)] for one-character [a] and [b]. *)
Fixpoint replace_char (a b : ascii) (s : string) : string :=
  match s with
  | EmptyString => EmptyString
  | String c s' => String (if Ascii.eqb c a then b else c) (replace_char a b s')
  end.

(** The ASCII characters [str.isspace] accepts: TAB, LF, VT, FF, CR,
    FS, GS, RS, US and the space. *)
Definition is_space (c : ascii) : bool :=
  let n := N_of_ascii c in
  ((N.leb 9 n && N.leb n 13) || (N.leb 28 n && N.leb n 32))%bool.

(** The code points of two bytes [str.isspace] accepts: U+0085 (C2 85)
    and U+00A0 (C2 A0). *)
Definition is_space2 (c1 c2 : ascii) : bool :=
  (N.eqb (byte c1) 194 && (N.eqb (byte c2) 133 || N.eqb (byte c2) 160))%bool.

(** Those of three bytes: U+1680 (E1 9A 80), U+2000 to U+200A (E2 80 80
    to E2 80 8A), U+2028, U+2029 and U+202F (E2 80 A8, A9, AF), U+205F
    (E2 81 9F) and U+3000 (E3 80 80). *)
Definition is_space3 (c1 c2 c3 : ascii) : bool :=
  let n1 := byte c1 in
  let n2 := byte c2 in
  let n3 := byte c3 in
  ((N.eqb n1 225 && N.eqb n2 154 && N.eqb n3 128)
   || (N.eqb n1 226 && N.eqb n2 128
       && ((N.leb 128 n3 && N.leb n3 138)
           || N.eqb n3 168 || N.eqb n3 169 || N.eqb n3 175))
   || (N.eqb n1 226 && N.eqb n2 129 && N.eqb n3 159)
   || (N.eqb n1 227 && N.eqb n2 128 && N.eqb n3 128))%bool.

(** One whitespace character at the head of [l], and what follows it.
    With [backwards] the bytes of [l] are those of a text read from its
    end, so that the bytes of a character come in reverse. *)
Definition drop_space (backwards : bool) (l : list ascii) : option (list ascii) :=
  match l with
  | [] => None
  | c1 :: l1 =>
      if is_space c1 then Some l1
      else
        match l1 with
        | [] => None
        | c2 :: l2 =>
            if (if backwards then is_space2 c2 c1 else is_space2 c1 c2) then Some l2
            else
              match l2 with
              | [] => None
              | c3 :: l3 =>
                  if (if backwards then is_space3 c3 c2 c1 else is_space3 c1 c2 c3)
                  then Some l3
                  else None
              end
        end
  end.

(** [l] without the whitespace characters at its head. *)
Fixpoint lstrip_bytes (backwards : bool) (l : list ascii) : list ascii :=
  match l with
  | [] => []
  | c1 :: l1 =>
      if is_space c1 then lstrip_bytes backwards l1
      else
        match l1 with
        | [] => l
        | c2 :: l2 =>
            if (if backwards then is_space2 c2 c1 else is_space2 c1 c2)
            then lstrip_bytes backwards l2
            else
              match l2 with
              | [] => l
              | c3 :: l3 =>
                  if (if backwards then is_space3 c3 c2 c1 else is_space3 c1 c2 c3)
                  then lstrip_bytes backwards l3
                  else l
              end
        end
  end.

(** [s.strip()]: the whitespace characters are taken off the head, then
    off the end, which is the head of the reversed text. *)
Definition strip (s : string) : string :=
  string_of_list_ascii
    (rev (lstrip_bytes true (rev (lstrip_bytes false (list_ascii_of_string s))))).

(** [sep.join(l)] *)
Fixpoint join (sep : string) (l : list string) : string :=
  match l with
  | [] => EmptyString
  | [x] => x
  | x :: l' => String.append x (String.append sep (join sep l'))
  end.

(** [s.startswith(p)] *)
Definition startswith (s p : string) : bool := String.prefix p s.

(** A byte [10xxxxxx], which continues a character begun before it. *)
Definition is_continuation (c : ascii) : bool :=
  (N.leb 128 (byte c) && N.ltb (byte c) 192)%bool.

(** [len(s)]: the number of code points, one for each byte that does not
    continue a character. *)
Fixpoint len (s : string) : Z :=
  match s with
  | EmptyString => 0
  | String c s' => (if is_continuation c then 0 else 1) + len s'
  end.

(** Truthiness of a string: non-empty. *)
Definition truthy (s : string) : bool :=
  match s with EmptyString => false | _ => true end.

(** [x in l] for a list of strings. *)
Definition mem (x : string) (l : list string) : bool :=
  existsb (String.eqb x) l.

End PyStr.

(** ** Python floats: IEEE 754 binary64 *)

Module PyFloat.

Definition prec : Z := 53.
Definition emax : Z := 1024.

Definition float := spec_float.

Definition add : float -> float -> float := SFadd prec emax.
Definition sub : float -> float -> float := SFsub prec emax.
Definition mul : float -> float -> float := SFmul prec emax.
Definition div : float -> float -> float := SFdiv prec emax.
Definition ltb : float -> float -> bool := SFltb.
Definition leb : float -> float -> bool := SFleb.
Definition eqb : float -> float -> bool := SFeqb.

(** [float(n)] for an integer [n], correctly rounded.  (CPython raises
    [OverflowError] instead of giving an infinity once [|n|] reaches
    [2^1024]; no integer of that size occurs below.) *)
Definition of_Z (n : Z) : float := binary_normalize prec emax n 0 false.

Definition zero : float := S754_zero false.

(** The literal [n/10] written in decimal, e.g. [4.8] is [tenths 48]:
    a decimal literal denotes the double nearest to its value, which is
    what the correctly rounded quotient of the two exact integers is. *)
Definition tenths (n : Z) : float := div (of_Z n) (of_Z 10).

(** Likewise [n/100], e.g. [0.02] is [hundredths 2]. *)
Definition hundredths (n : Z) : float := div (of_Z n) (of_Z 100).

Definition is_finite (x : float) : bool :=
  match x with
  | S754_zero _ | S754_finite _ _ _ => true
  | _ => false
  end.

(** [int(x)]: truncation toward zero.  [int] raises on an infinity or a
    NaN; the only call site applies it to a finite value (see
    [strategic_impact_finite]), and the model returns 0 there. *)
Definition trunc (x : float) : Z :=
  match x with
  | S754_finite s m e =>
      let a := match e with
               | Zneg p => Z.shiftr (Zpos m) (Zpos p)
               | _ => Z.shiftl (Zpos m) e
               end in
      if s then - a else a
  | _ => 0
  end.

(** [round(x)]: the nearest integer, ties to the even one. *)
Definition round (x : float) : Z :=
  match x with
  | S754_finite s m e =>
      let a := match e with
               | Zneg p =>
                   let q := Z.shiftr (Zpos m) (Zpos p) in
                   let r := Zpos m - Z.shiftl q (Zpos p) in
                   let half := Z.shiftl 1 (Zpos p - 1) in
                   match r ?= half with
                   | Lt => q
                   | Gt => q + 1
                   | Eq => if Z.even q then q else q + 1
                   end
               | _ => Z.shiftl (Zpos m) e
               end in
      if s then - a else a
  | _ => 0
  end.

(** [max(0, x)]: Python returns the first maximal argument, so [x] is
    returned only when [x > 0] holds.  The integer [0] is represented by
    the float it equals. *)
Definition max0 (x : float) : float := if ltb zero x then x else zero.

(** Neither negative nor NaN: a zero, a positive finite number or
    [+inf]. *)
Definition nonneg (x : float) : Prop :=
  match x with
  | S754_zero _ | S754_finite false _ _ | S754_infinity false => True
  | _ => False
  end.

End PyFloat.

(** ** Data model *)

(** [CrawlMetrics], as the dictionary [asdict] makes of it. *)
Module CrawlMetrics.
Record t := mk {
  url : string;
  status_code : Z;
  response_time : PyFloat.float;
  title : string;
  meta_description : string;
  h1_tags : list string;
  canonical_url : option string;
  robots_meta : string;
  internal_links : Z;
  external_links : Z;
  images_without_alt : Z;
  page_size : Z
}.
End CrawlMetrics.

(** [GSCMetrics].  Only [url] and the [page_experience_signals] dictionary
    are read by the auditor; the dictionary always carries the five keys
    [get_coverage_issues] stores in it. *)
Module GSCMetrics.
Record t := mk {
  url : string;
  clicks : Z;
  impressions : Z;
  ctr : PyFloat.float;
  position : PyFloat.float;
  domain : string
}.
End GSCMetrics.

(** The dictionary [validate_structured_data] returns: either the
    analysis of the page or [{'url': url, 'error': msg}].  A key the
    dictionary does not carry is [None]. *)
Module SchemaData.
Record t := mk {
  url : option string;
  error : option string;
  json_ld_count : option Z;
  schema_types_found : option (list string)
}.
End SchemaData.

(** [TechnicalSEOIssue].  The free-text fields [description] and
    [recommendation] and the timestamp [date_detected] are payload that no
    branch of the program reads; they are left out. *)
Module Issue.
Record t := mk {
  url : string;
  issue_type : string;
  severity : string;
  category : string;
  status : string;
  impact_score : Z
}.
End Issue.

(** One entry of the [team_categories] dictionary.  The five metric keys
    are added by the last loop of [_categorize_issues_by_team]; until then
    they hold 0 here. *)
Module TeamData.
Record t := mk {
  name : string;
  description : string;
  issues : list Issue.t;
  issue_types : list string;
  total_issues : Z;
  critical_issues : Z;
  high_issues : Z;
  avg_impact : PyFloat.float;
  priority_score : Z
}.
End TeamData.

(** One entry of [critical_business_impact]. *)
Module BusinessImpact.
Record t := mk {
  url : string;
  page_type : string;
  critical_issues : Z;
  business_importance : PyFloat.float
}.
End BusinessImpact.

(** The dictionary [_get_strategic_insights] returns; a value of
    [page_type_breakdown] is the pair of its ['pages'] and ['issues']
    counters. *)
Module Insights.
Record t := mk {
  high_priority_pages_with_issues : Z;
  page_type_breakdown : gmap string (Z * Z);
  critical_business_impact : list BusinessImpact.t
}.
End Insights.

(** The dictionary [_generate_audit_summary] returns.  [seo_score] and
    [avg_response_time] are numbers that may be the integers 0 or 100 or a
    float; they are held as the float of the same value. *)
Module Summary.
Record t := mk {
  total_issues : Z;
  critical_issues : Z;
  high_issues : Z;
  medium_issues : Z;
  low_issues : Z;
  issue_categories : gmap string Z;
  avg_response_time : PyFloat.float;
  error_pages : Z;
  seo_score : PyFloat.float;
  strategic_insights : Insights.t;
  team_breakdown : list (string * TeamData.t)
}.
End Summary.

(** The part of the [audit_results] dictionary the analysis reads. *)
Module AuditResults.
Record t := mk {
  gsc_data : list (string * list GSCMetrics.t);
  crawl_data : list CrawlMetrics.t;
  schema_data : list SchemaData.t;
  issues : list Issue.t
}.
End AuditResults.

(** [d.get(k, dflt)] on a dictionary literal. *)
Fixpoint dict_get {V : Type} (d : list (string * V)) (k : string) (dflt : V) : V :=
  match d with
  | [] => dflt
  | (k', v) :: d' => if String.eqb k k' then v else dict_get d' k dflt
  end.

(** ** Page classifier and strategic scorer *)

Module StrategicSEOScorer.

Definition issue_severity : list (string * Z) :=
  [ ("http_5xx_error", 100);
    ("HTTP Error", 90);
    ("not_indexable", 100);
    ("core_web_vitals_poor", 95);
    ("Blocked by Robots Meta", 100);
    ("Missing Title Tag", 95);
    ("not_mobile_friendly", 90);
    ("no_https", 85);
    ("Thin Content", 85);
    ("Duplicate Title Tags", 80);
    ("Generic Title Tag", 75);
    ("Missing Canonical Tag", 75);
    ("Invalid Canonical URL", 75);
    ("Missing Product Schema", 70);
    ("Slow Response Time", 80);
    ("broken_internal_links", 75);
    ("Missing H1 Tag", 65);
    ("Duplicate Meta Descriptions", 50);
    ("Short Title Tag", 55);
    ("Long Title Tag", 50);
    ("Missing Structured Data", 50);
    ("Insufficient Internal Links", 45);
    ("Missing Organization Schema", 45);
    ("Missing Meta Description", 45);
    ("Large Page Size", 55);
    ("Images Without Alt Text", 40);
    ("Short Meta Description", 25);
    ("Long Meta Description", 25);
    ("Excessive External Links", 30);
    ("Multiple H1 Tags", 30);
    ("long_title", 25);
    ("High Impressions Zero Clicks", 95);
    ("High Traffic Page with Technical Issues", 90);
    ("High Impressions Low CTR", 70);
    ("High Impressions Poor Position", 60);
    ("High Value Page Opportunity", 50) ].

(** [self.page_weights]; [PyFloat.tenths 48] is the literal [4.8]. *)
Definition page_weights : list (string * PyFloat.float) :=
  [ ("homepage", PyFloat.tenths 50);
    ("product", PyFloat.tenths 45);
    ("category", PyFloat.tenths 40);
    ("checkout", PyFloat.tenths 48);
    ("pricing", PyFloat.tenths 45);
    ("contact", PyFloat.tenths 30);
    ("about", PyFloat.tenths 25);
    ("blog", PyFloat.tenths 20);
    ("other", PyFloat.tenths 20) ].

Definition classify_page_type (url : string) : string :=
  let url_lower := PyStr.lower url in
  if (PyStr.any_in ["/"; "/home"; "/index"] url_lower
      && (PyStr.count_char "/" url_lower <=? 3))%bool then "homepage"
  else if PyStr.any_in ["/product"; "/p/"; "photo-blankets"; "photo-books"; "photo-mugs"] url_lower
  then "product"
  else if PyStr.any_in ["/category"; "/c/"; "/canvas-prints"; "/photo-calendars"] url_lower
  then "category"
  else if PyStr.any_in ["/checkout"; "/cart"; "/basket"] url_lower then "checkout"
  else if PyStr.any_in ["/about"; "/company"] url_lower then "about"
  else if PyStr.any_in ["/contact"; "/support"] url_lower then "contact"
  else if PyStr.any_in ["/blog"; "/news"] url_lower then "blog"
  else "other".

(** [self.page_weights.get(page_type, 2.0)] *)
Definition page_weight_of (page_type : string) : PyFloat.float :=
  dict_get page_weights page_type (PyFloat.tenths 20).

(** [base_impact * (page_weight / 2.5)], the float handed to [int]. *)
Definition strategic_impact (issue_type url : string) : PyFloat.float :=
  let base_impact := dict_get issue_severity issue_type 50 in
  let page_type := classify_page_type url in
  let page_weight := page_weight_of page_type in
  PyFloat.mul (PyFloat.of_Z base_impact) (PyFloat.div page_weight (PyFloat.tenths 25)).

Definition get_strategic_impact_score (issue_type url : string) : Z :=
  Z.min 100 (PyFloat.trunc (strategic_impact issue_type url)).

(** The scorer as the specification words it:
    [min(100, round(base * weight / 2.5))]. *)
Definition spec_score (issue_type url : string) : Z :=
  let base := dict_get issue_severity issue_type 50 in
  let weight := page_weight_of (classify_page_type url) in
  Z.min 100 (PyFloat.round
               (PyFloat.div (PyFloat.mul (PyFloat.of_Z base) weight) (PyFloat.tenths 25))).

(** The values [issue_severity.get(issue_type, 50)] can take. *)
Definition severity_values : list Z :=
  [100; 90; 95; 85; 80; 75; 70; 65; 50; 55; 45; 40; 25; 30; 60].

(** The strings [classify_page_type] can return. *)
Definition page_types : list string :=
  ["homepage"; "product"; "category"; "checkout"; "about"; "contact"; "blog"; "other"].

(** The score as a function of the base severity and the page type. *)
Definition score_for (base : Z) (page_type : string) : Z :=
  Z.min 100 (PyFloat.trunc
               (PyFloat.mul (PyFloat.of_Z base)
                            (PyFloat.div (page_weight_of page_type) (PyFloat.tenths 25)))).

(** The exact values of the page weights, in tenths. *)
Definition page_weight_tenths : list (string * Z) :=
  [ ("homepage", 50);
    ("product", 45);
    ("category", 40);
    ("checkout", 48);
    ("pricing", 45);
    ("contact", 30);
    ("about", 25);
    ("blog", 20);
    ("other", 20) ].

(** The score in exact arithmetic: [base * weight / 2.5] is
    [base * tenths / 25], rounded down by the integer division. *)
Definition exact_score (base : Z) (page_type : string) : Z :=
  Z.min 100 (base * dict_get page_weight_tenths page_type 20 / 25).

End StrategicSEOScorer.

(** ** Issue detector *)

Module TechnicalSEOAuditor.
Import StrategicSEOScorer.

(** One [TechnicalSEOIssue(...)] as every rule builds it: the status is
    ['New'] and the impact comes from the scorer. *)
Definition new_issue (url issue_type severity category : string) : Issue.t :=
  Issue.mk url issue_type severity category "New"
           (get_strategic_impact_score issue_type url).

(** The issues an [if] guarding one [issues.append] adds. *)
Definition when (b : bool) (i : Issue.t) : list Issue.t := if b then [i] else [].

Definition generic_patterns : list string :=
  ["untitled"; "new page"; "home page"; "welcome"; "default"; "page"].

(** The body of the first loop of [_analyze_issues] for one crawl
    record: the issues it appends, in order. *)
Definition analyze_crawl_record (crawl_data : CrawlMetrics.t) : list Issue.t :=
  let url := CrawlMetrics.url crawl_data in
  let status_code := CrawlMetrics.status_code crawl_data in
  let response_time := CrawlMetrics.response_time crawl_data in
  let title := CrawlMetrics.title crawl_data in
  let meta_description := CrawlMetrics.meta_description crawl_data in
  let h1_tags := CrawlMetrics.h1_tags crawl_data in
  (* HTTP status *)
  when (400 <=? status_code)
       (new_issue url "HTTP Error"
                  (if 500 <=? status_code then "Critical" else "High") "Crawlability")
  (* performance *)
  ++ when (PyFloat.ltb (PyFloat.tenths 30) response_time)
       (new_issue url "Slow Response Time"
                  (if PyFloat.ltb (PyFloat.tenths 50) response_time then "High" else "Medium")
                  "Performance")
  (* content *)
  ++ when (negb (PyStr.truthy title))
       (new_issue url "Missing Title Tag" "High" "Content")
  ++ when (negb (PyStr.truthy meta_description))
       (new_issue url "Missing Meta Description" "Medium" "Content")
  (* H1 *)
  ++ match h1_tags with
     | [] => [new_issue url "Missing H1 Tag" "Medium" "Content"]
     | _ => when (1 <? Z.of_nat (length h1_tags))
              (new_issue url "Multiple H1 Tags" "Low" "Content")
     end
  (* images *)
  ++ when (0 <? CrawlMetrics.images_without_alt crawl_data)
       (new_issue url "Images Without Alt Text" "Medium" "Content")
  (* page size *)
  ++ when (1024 * 1024 <? CrawlMetrics.page_size crawl_data)
       (new_issue url "Large Page Size" "Medium" "Performance")
  (* thin content *)
  ++ (let content_length :=
        PyStr.len (String.append title
                     (String.append meta_description (PyStr.join " " h1_tags))) in
      when (content_length <? 200)
        (new_issue url "Thin Content" "High" "Content"))
  (* title quality *)
  ++ (if PyStr.truthy title then
        let title_len := PyStr.len title in
        (if title_len <? 30 then [new_issue url "Short Title Tag" "Medium" "Content"]
         else when (70 <? title_len) (new_issue url "Long Title Tag" "Medium" "Content"))
        ++ when (PyStr.any_in generic_patterns (PyStr.lower title))
             (new_issue url "Generic Title Tag" "High" "Content")
      else [])
  (* meta description quality *)
  ++ (if PyStr.truthy meta_description then
        let meta_len := PyStr.len meta_description in
        if meta_len <? 120 then [new_issue url "Short Meta Description" "Low" "Content"]
        else when (170 <? meta_len) (new_issue url "Long Meta Description" "Low" "Content")
      else [])
  (* canonical *)
  ++ match CrawlMetrics.canonical_url crawl_data with
     | None | Some EmptyString =>
         [new_issue url "Missing Canonical Tag" "High" "Technical SEO"]
     | Some canonical_url =>
         when (negb (String.eqb canonical_url url)
               && negb (PyStr.startswith canonical_url "http"))
           (new_issue url "Invalid Canonical URL" "High" "Technical SEO")
     end
  (* links *)
  ++ when (CrawlMetrics.internal_links crawl_data <? 3)
       (new_issue url "Insufficient Internal Links" "Medium" "Technical SEO")
  ++ when (50 <? CrawlMetrics.external_links crawl_data)
       (new_issue url "Excessive External Links" "Low" "Technical SEO")
  (* robots *)
  ++ (if PyStr.truthy (CrawlMetrics.robots_meta crawl_data) then
        let robots_content := PyStr.lower (CrawlMetrics.robots_meta crawl_data) in
        when (PyStr.contains "noindex" robots_content
              && PyStr.contains "nofollow" robots_content)
          (new_issue url "Blocked by Robots Meta" "Critical" "Technical SEO")
      else []).

(** The issue types the rules of [_analyze_issues] emit, pass by pass. *)
Definition crawl_issue_types : list string :=
  [ "HTTP Error"; "Slow Response Time"; "Missing Title Tag"; "Missing Meta Description";
    "Missing H1 Tag"; "Multiple H1 Tags"; "Images Without Alt Text"; "Large Page Size";
    "Thin Content"; "Short Title Tag"; "Long Title Tag"; "Generic Title Tag";
    "Short Meta Description"; "Long Meta Description"; "Missing Canonical Tag";
    "Invalid Canonical URL"; "Insufficient Internal Links"; "Excessive External Links";
    "Blocked by Robots Meta" ].

Definition duplicate_issue_types : list string :=
  [ "Duplicate Title Tags"; "Duplicate Meta Descriptions" ].

Definition schema_issue_types : list string :=
  [ "Missing Structured Data"; "Missing Product Schema"; "Missing Organization Schema" ].

Definition gsc_issue_types : list string :=
  [ "High Impressions Low CTR"; "High Impressions Poor Position";
    "High Impressions Zero Clicks"; "High Value Page Opportunity";
    "High Traffic Page with Technical Issues" ].

(** The detector's rule set. *)
Definition detector_issue_types : list string :=
  crawl_issue_types ++ duplicate_issue_types ++ schema_issue_types ++ gsc_issue_types.

(** The categories of the issues the crawl passes emit. *)
Definition crawl_categories : list string :=
  [ "Crawlability"; "Performance"; "Content"; "Technical SEO" ].

(** First loop: [for crawl_data in audit_results['crawl_data']]. *)
Definition crawl_pass (crawl : list CrawlMetrics.t) (issues : list Issue.t) : list Issue.t :=
  fold_left (fun issues crawl_data => issues ++ analyze_crawl_record crawl_data) crawl issues.

(** The duplicate check on one text: [seen] is [titles_seen] or
    [meta_descriptions_seen], [min_len] the length a text must exceed. *)
Definition track_duplicate (issue_type severity : string) (min_len : Z)
    (url text : string) (seen : gmap string string) (issues : list Issue.t)
    : gmap string string * list Issue.t :=
  if (PyStr.truthy text && (min_len <? PyStr.len text))%bool then
    match seen !! text with
    | Some first_url =>
        (seen, issues ++ map (fun duplicate_url =>
                                new_issue duplicate_url issue_type severity "Content")
                             [url; first_url])
    | None => (<[text := url]> seen, issues)
    end
  else (seen, issues).

(** State of the cross-page loop: [titles_seen],
    [meta_descriptions_seen] and the shared [issues] list. *)
Definition dup_state : Type :=
  gmap string string * gmap string string * list Issue.t.

Definition duplicate_step (st : dup_state) (crawl_data : CrawlMetrics.t) : dup_state :=
  let '(titles_seen, meta_descriptions_seen, issues) := st in
  let url := CrawlMetrics.url crawl_data in
  let title := PyStr.strip (CrawlMetrics.title crawl_data) in
  let meta_desc := PyStr.strip (CrawlMetrics.meta_description crawl_data) in
  let '(titles_seen, issues) :=
    track_duplicate "Duplicate Title Tags" "High" 10 url title titles_seen issues in
  let '(meta_descriptions_seen, issues) :=
    track_duplicate "Duplicate Meta Descriptions" "Medium" 20 url meta_desc
                    meta_descriptions_seen issues in
  (titles_seen, meta_descriptions_seen, issues).

(** Second loop: the cross-page duplicate detection. *)
Definition duplicate_pass (crawl : list CrawlMetrics.t) (issues : list Issue.t) : list Issue.t :=
  snd (fold_left duplicate_step crawl (∅, ∅, issues)).


(** The body of the structured-data loop for one validation result. *)
Definition analyze_schema_data (schema_data : SchemaData.t) : list Issue.t :=
  match SchemaData.url schema_data with
  | Some url =>
      if (PyStr.truthy url
          && negb (PyStr.truthy (default "" (SchemaData.error schema_data))))%bool
      then
        let json_ld_count := default 0 (SchemaData.json_ld_count schema_data) in
        let schema_types := default [] (SchemaData.schema_types_found schema_data) in
        when (json_ld_count =? 0)
             (new_issue url "Missing Structured Data" "Medium" "Technical SEO")
        ++ (let page_type := classify_page_type url in
            when (String.eqb page_type "product" && negb (PyStr.mem "Product" schema_types))
                 (new_issue url "Missing Product Schema" "High" "Technical SEO")
            ++ when (String.eqb page_type "homepage"
                     && negb (PyStr.mem "Organization" schema_types))
                 (new_issue url "Missing Organization Schema" "Medium" "Technical SEO"))
      else []
  | None => []
  end.

(** Third loop: [for schema_data in audit_results['schema_data']]. *)
Definition schema_pass (schema : list SchemaData.t) (issues : list Issue.t) : list Issue.t :=
  fold_left (fun issues schema_data => issues ++ analyze_schema_data schema_data) schema issues.

(** The body of the search-performance loop for one [GSCMetrics]: it
    appends to [issues] and, for the cross-reference, reads it back. *)
Definition analyze_gsc_metric (issues : list Issue.t) (gsc_metric : GSCMetrics.t)
    : list Issue.t :=
  let url := GSCMetrics.url gsc_metric in
  let impressions := GSCMetrics.impressions gsc_metric in
  let clicks := GSCMetrics.clicks gsc_metric in
  let ctr := GSCMetrics.ctr gsc_metric in
  let position := GSCMetrics.position gsc_metric in
  let issues := issues ++
    when ((1000 <? impressions) && PyFloat.ltb ctr (PyFloat.hundredths 2))
         (new_issue url "High Impressions Low CTR" "High" "GSC Performance") in
  let issues := issues ++
    when ((500 <? impressions) && PyFloat.ltb (PyFloat.of_Z 10) position)
         (new_issue url "High Impressions Poor Position" "Medium" "GSC Performance") in
  let issues := issues ++
    when ((1000 <? impressions) && (clicks =? 0))
         (new_issue url "High Impressions Zero Clicks" "Critical" "GSC Performance") in
  let issues := issues ++
    when (10000 <? impressions)
         (new_issue url "High Value Page Opportunity" "Medium" "GSC Performance") in
  let crawl_issues_for_url :=
    List.filter (fun issue => String.eqb (Issue.url issue) url
                              && negb (String.eqb (Issue.category issue) "GSC Performance"))
                issues in
  issues ++
    when (negb (Nat.eqb (length crawl_issues_for_url) 0) && (1000 <? impressions))
         (new_issue url "High Traffic Page with Technical Issues" "Critical"
                    "GSC Performance").

(** Fourth loop: [for domain, gsc_metrics_list in
    audit_results['gsc_data'].items()], then over the list. *)
Definition gsc_pass (gsc : list (string * list GSCMetrics.t)) (issues : list Issue.t)
    : list Issue.t :=
  fold_left (fun issues entry => fold_left analyze_gsc_metric (snd entry) issues) gsc issues.

Definition _analyze_issues (audit_results : AuditResults.t) : list Issue.t :=
  let crawl := AuditResults.crawl_data audit_results in
  let issues := [] in
  let issues := crawl_pass crawl issues in
  let issues := duplicate_pass crawl issues in
  let issues := schema_pass (AuditResults.schema_data audit_results) issues in
  let issues := gsc_pass (AuditResults.gsc_data audit_results) issues in
  issues.

(** *** Team router *)

Definition new_team (name description : string) (issue_types : list string) : TeamData.t :=
  TeamData.mk name description [] issue_types 0 0 0 PyFloat.zero 0.

(** The three [issue_types] lists of the [team_categories] literal. *)
Definition tech_issue_types : list string :=
  [ "HTTP Error"; "Slow Response Time"; "Large Page Size";
    "Missing Canonical Tag"; "Invalid Canonical URL"; "Blocked by Robots Meta";
    "Missing Structured Data"; "Missing Product Schema"; "Missing Organization Schema";
    "Insufficient Internal Links"; "Excessive External Links";
    "High Impressions Zero Clicks"; "High Traffic Page with Technical Issues";
    "missing_canonical"; "crawlability"; "https_issues";
    "server_errors"; "redirect_chains"; "broken_links" ].

Definition marketing_issue_types : list string :=
  [ "Missing Title Tag"; "Short Title Tag"; "Long Title Tag"; "Generic Title Tag";
    "Duplicate Title Tags"; "Missing Meta Description"; "Short Meta Description";
    "Long Meta Description"; "Duplicate Meta Descriptions"; "Missing H1 Tag";
    "Multiple H1 Tags"; "Thin Content";
    "High Impressions Low CTR"; "High Impressions Poor Position";
    "High Value Page Opportunity";
    "duplicate_content"; "keyword_optimization"; "thin_content"; "missing_schema" ].

Definition design_issue_types : list string :=
  [ "Images Without Alt Text"; "not_mobile_friendly"; "poor_ux";
    "mobile_usability"; "touch_targets"; "viewport_issues";
    "image_optimization"; "layout_issues" ].

(** The [team_categories] literal, in its insertion order. *)
Definition team_categories : list (string * TeamData.t) :=
  [ ("tech_team",
     new_team " TECH/DEV TEAM"
       "Server, infrastructure, and technical implementation issues" tech_issue_types);
    ("marketing_team",
     new_team " MARKETING TEAM"
       "Content optimization, meta tags, and SEO strategy" marketing_issue_types);
    ("design_team",
     new_team " DESIGN/UX TEAM"
       "User experience, mobile design, and visual optimization" design_issue_types) ].

(** The test of the inner loop: the issue type is listed verbatim, or a
    lower-cased keyword with underscores turned into spaces occurs in the
    lower-cased issue type. *)
Definition team_matches (issue_type : string) (issue_types : list string) : bool :=
  (PyStr.mem issue_type issue_types
   || PyStr.any_in (map (fun t => PyStr.replace_char "_" " " (PyStr.lower t)) issue_types)
                   (PyStr.lower issue_type))%bool.

(** [data['issues'].append(issue)] *)
Definition append_issue (data : TeamData.t) (issue : Issue.t) : TeamData.t :=
  TeamData.mk (TeamData.name data) (TeamData.description data)
              (TeamData.issues data ++ [issue]) (TeamData.issue_types data)
              (TeamData.total_issues data) (TeamData.critical_issues data)
              (TeamData.high_issues data) (TeamData.avg_impact data)
              (TeamData.priority_score data).

(** The inner [for team, data in team_categories.items()] with its
    [break]: [None] when the loop ends with [categorized] still false. *)
Fixpoint append_to_first_match (issue : Issue.t) (teams : list (string * TeamData.t))
    : option (list (string * TeamData.t)) :=
  match teams with
  | [] => None
  | (team, data) :: rest =>
      if team_matches (Issue.issue_type issue) (TeamData.issue_types data)
      then Some ((team, append_issue data issue) :: rest)
      else option_map (cons (team, data)) (append_to_first_match issue rest)
  end.

(** [team_categories[key]['issues'].append(issue)] *)
Definition append_to_team (key : string) (issue : Issue.t)
    (teams : list (string * TeamData.t)) : list (string * TeamData.t) :=
  map (fun entry => if String.eqb (fst entry) key
                    then (fst entry, append_issue (snd entry) issue) else entry) teams.

Definition categorize_issue (teams : list (string * TeamData.t)) (issue : Issue.t)
    : list (string * TeamData.t) :=
  match append_to_first_match issue teams with
  | Some teams' => teams'
  | None => append_to_team "tech_team" issue teams
  end.

Definition count_severity (sev : string) (issues : list Issue.t) : Z :=
  Z.of_nat (length (List.filter (fun i => String.eqb (Issue.severity i) sev) issues)).

(** [sum(i.impact_score for i in issues)], an integer. *)
Definition sum_impact (issues : list Issue.t) : Z :=
  fold_left (fun acc i => acc + Issue.impact_score i) issues 0.

(** The metrics loop.  [sum(...) / len(...)] divides two integers: the
    quotient is correctly rounded, which for operands below [2^53] is the
    float quotient of the converted operands. *)
Definition team_metrics (data : TeamData.t) : TeamData.t :=
  let team_issues := TeamData.issues data in
  let critical := count_severity "Critical" team_issues in
  let high := count_severity "High" team_issues in
  TeamData.mk (TeamData.name data) (TeamData.description data)
              team_issues (TeamData.issue_types data)
              (Z.of_nat (length team_issues)) critical high
              (match team_issues with
               | [] => PyFloat.zero
               | _ => PyFloat.div (PyFloat.of_Z (sum_impact team_issues))
                                  (PyFloat.of_Z (Z.of_nat (length team_issues)))
               end)
              (critical * 10 + high * 5 + Z.of_nat (length team_issues)).

Definition _categorize_issues_by_team (issues : list Issue.t)
    : list (string * TeamData.t) :=
  map (fun entry => (fst entry, team_metrics (snd entry)))
      (fold_left categorize_issue issues team_categories).

(** The issues of the bucket stored under [key] ([[]] for an unknown key). *)
Definition bucket (key : string) (teams : list (string * TeamData.t)) : list Issue.t :=
  match List.find (fun entry => String.eqb (fst entry) key) teams with
  | Some entry => TeamData.issues (snd entry)
  | None => []
  end.


(** *** Aggregator *)

(** [issue_categories[category] += 1], the key starting at 0. *)
Definition count_category (categories : gmap string Z) (issue : Issue.t) : gmap string Z :=
  let category := Issue.category issue in
  <[category := default 0 (categories !! category) + 1]> categories.

(** [page_issues[issue.url].append(issue)], a new url entering the
    dictionary last. *)
Fixpoint group_issue (page_issues : list (string * list Issue.t)) (issue : Issue.t)
    : list (string * list Issue.t) :=
  match page_issues with
  | [] => [(Issue.url issue, [issue])]
  | (url, url_issues) :: rest =>
      if String.eqb url (Issue.url issue)
      then (url, url_issues ++ [issue]) :: rest
      else (url, url_issues) :: group_issue rest issue
  end.

Definition group_by_url (issues : list Issue.t) : list (string * list Issue.t) :=
  fold_left group_issue issues [].

(** [url in page_issues] *)
Definition has_issues (page_issues : list (string * list Issue.t)) (url : string) : bool :=
  existsb (fun entry => String.eqb (fst entry) url) page_issues.

(** [self.strategic_scorer.page_weights.get(classify_page_type(url), 2.0)] *)
Definition page_weight (url : string) : PyFloat.float :=
  page_weight_of (classify_page_type url).

(** Body of [for url, url_issues in page_issues.items()], on the pair
    [(total_weighted_impact, total_weight)]. *)
Definition weigh_page (totals : PyFloat.float * PyFloat.float)
    (entry : string * list Issue.t) : PyFloat.float * PyFloat.float :=
  let page_impact := sum_impact (snd entry) in
  let weighted_impact := PyFloat.mul (PyFloat.of_Z page_impact) (page_weight (fst entry)) in
  (PyFloat.add (fst totals) weighted_impact,
   PyFloat.add (snd totals) (page_weight (fst entry))).

(** Body of [for page_data in crawl_data], on [total_weight]. *)
Definition weigh_clean_page (page_issues : list (string * list Issue.t))
    (total_weight : PyFloat.float) (page_data : CrawlMetrics.t) : PyFloat.float :=
  let url := CrawlMetrics.url page_data in
  if has_issues page_issues url then total_weight
  else PyFloat.add total_weight (page_weight url).

(** [total_weighted_impact] when the two loops are done. *)
Definition total_weighted_impact (issues : list Issue.t) : PyFloat.float :=
  fst (fold_left weigh_page (group_by_url issues) (PyFloat.zero, PyFloat.zero)).

(** [total_weight] after the loop over the pages with issues. *)
Definition issue_pages_weight (issues : list Issue.t) : PyFloat.float :=
  snd (fold_left weigh_page (group_by_url issues) (PyFloat.zero, PyFloat.zero)).

(** [total_weight] when the two loops are done. *)
Definition total_weight (issues : list Issue.t) (crawl : list CrawlMetrics.t)
    : PyFloat.float :=
  fold_left (weigh_clean_page (group_by_url issues)) crawl (issue_pages_weight issues).

(** The final [if total_weight > 0: ... else: ...]. *)
Definition seo_score_of (total_weighted_impact total_weight : PyFloat.float)
    : PyFloat.float :=
  if PyFloat.ltb PyFloat.zero total_weight then
    let avg_weighted_impact := PyFloat.div total_weighted_impact total_weight in
    PyFloat.max0 (PyFloat.sub (PyFloat.of_Z 100)
                              (PyFloat.div avg_weighted_impact (PyFloat.of_Z 50)))
  else PyFloat.of_Z 100.

(** Body of the loop of [_get_strategic_insights]. *)
Definition insights_step (insights : Insights.t) (entry : string * list Issue.t)
    : Insights.t :=
  let url := fst entry in
  let issues := snd entry in
  let page_type := classify_page_type url in
  let page_weight := page_weight_of page_type in
  let high_priority := PyFloat.leb (PyFloat.tenths 40) page_weight in
  let critical_issues :=
    List.filter (fun issue => String.eqb (Issue.severity issue) "Critical") issues in
  let breakdown := Insights.page_type_breakdown insights in
  let counters := default (0, 0) (breakdown !! page_type) in
  Insights.mk
    (Insights.high_priority_pages_with_issues insights + (if high_priority then 1 else 0))
    (<[page_type := (fst counters + 1, snd counters + Z.of_nat (length issues))]> breakdown)
    (Insights.critical_business_impact insights
     ++ match critical_issues with
        | [] => []
        | _ => if high_priority
               then [BusinessImpact.mk url page_type
                                       (Z.of_nat (length critical_issues)) page_weight]
               else []
        end).

Definition _get_strategic_insights (page_issues : list (string * list Issue.t))
    (crawl_data : list CrawlMetrics.t) : Insights.t :=
  fold_left insights_step page_issues (Insights.mk 0 ∅ []).

(** [sum(c['response_time'] for c in crawl_data) / len(crawl_data)],
    added left to right from 0 (the summation of CPython up to 3.11). *)
Definition avg_response_time (crawl_data : list CrawlMetrics.t) : PyFloat.float :=
  match crawl_data with
  | [] => PyFloat.zero
  | _ => PyFloat.div
           (fold_left PyFloat.add (map CrawlMetrics.response_time crawl_data) PyFloat.zero)
           (PyFloat.of_Z (Z.of_nat (length crawl_data)))
  end.

Definition _generate_audit_summary (audit_results : AuditResults.t) : Summary.t :=
  let issues := AuditResults.issues audit_results in
  let crawl_data := AuditResults.crawl_data audit_results in
  let team_breakdown := _categorize_issues_by_team issues in
  let page_issues := group_by_url issues in
  Summary.mk
    (Z.of_nat (length issues))
    (count_severity "Critical" issues)
    (count_severity "High" issues)
    (count_severity "Medium" issues)
    (count_severity "Low" issues)
    (fold_left count_category issues ∅)
    (avg_response_time crawl_data)
    (Z.of_nat (length (List.filter (fun c => 400 <=? CrawlMetrics.status_code c) crawl_data)))
    (seo_score_of (total_weighted_impact issues) (total_weight issues crawl_data))
    (_get_strategic_insights page_issues crawl_data)
    team_breakdown.

(** *** Vocabulary of the properties *)

(** The urls of the crawl records and of the Search Console records. *)
Definition crawl_urls (audit_results : AuditResults.t) : list string :=
  map CrawlMetrics.url (AuditResults.crawl_data audit_results).

Definition gsc_urls (audit_results : AuditResults.t) : list string :=
  flat_map (fun entry => map GSCMetrics.url (snd entry)) (AuditResults.gsc_data audit_results).

(** [url] receives an issue of type [issue_type]. *)
Definition receives (issue_type url : string) (issues : list Issue.t) : Prop :=
  exists issue, In issue issues /\ Issue.url issue = url /\ Issue.issue_type issue = issue_type.

(** The key of the bucket an issue type is routed to: the first team, in
    the order of [team_categories], whose list matches, and the tech team
    when none does. *)
Definition team_of (issue_type : string) : string :=
  match List.find (fun entry => team_matches issue_type (TeamData.issue_types (snd entry)))
                  team_categories with
  | Some entry => fst entry
  | None => "tech_team"
  end.

(** The issues of [issues] routed to the bucket [key], in order. *)
Definition routed (key : string) (issues : list Issue.t) : list Issue.t :=
  List.filter (fun issue => String.eqb (team_of (Issue.issue_type issue)) key) issues.

(** The text the title duplicate check compares: the stripped title. *)
Definition title_text (crawl_data : CrawlMetrics.t) : string :=
  PyStr.strip (CrawlMetrics.title crawl_data).

(** The guard [if text and len(text) > min_len] of the duplicate check. *)
Definition tracked (min_len : Z) (text : string) : bool :=
  (PyStr.truthy text && (min_len <? PyStr.len text))%bool.

(** The record enters the title check under the text [t]. *)
Definition title_key (t : string) (crawl_data : CrawlMetrics.t) : bool :=
  (tracked 10 (title_text crawl_data) && String.eqb (title_text crawl_data) t)%bool.

(** [issue] is the duplicate-title issue of a record of [crawl] whose
    stripped title, longer than 10 characters, is also the stripped title
    of a record at another position. *)
Definition shares_title (crawl : list CrawlMetrics.t) (issue : Issue.t) : Prop :=
  exists (n m : nat) (c c' : CrawlMetrics.t),
    n <> m /\ crawl !! n = Some c /\ crawl !! m = Some c'
    /\ title_text c = title_text c' /\ 10 < PyStr.len (title_text c)
    /\ issue = new_issue (CrawlMetrics.url c) "Duplicate Title Tags" "High" "Content".

End TechnicalSEOAuditor.

(** ** Vocabulary of the further properties *)

(** Pairs of crawl issue types whose rules test the same field in
    branches of one conditional. *)
Definition exclusive_rules : list (string * string) :=
  [ ("Missing Title Tag", "Short Title Tag"); ("Missing Title Tag", "Long Title Tag");
    ("Missing Title Tag", "Generic Title Tag"); ("Short Title Tag", "Long Title Tag");
    ("Missing Meta Description", "Short Meta Description");
    ("Missing Meta Description", "Long Meta Description");
    ("Short Meta Description", "Long Meta Description");
    ("Missing H1 Tag", "Multiple H1 Tags");
    ("Missing Canonical Tag", "Invalid Canonical URL") ].

(** The values of the enumerated fields of an issue. *)
Definition severities : list string := ["Critical"; "High"; "Medium"; "Low"].

Definition categories : list string :=
  ["Crawlability"; "Performance"; "Content"; "Technical SEO"; "GSC Performance"].

(** What every issue of the detector satisfies: the enumerated fields
    hold values of their enumerations, the status is 'New', the issue type
    is of the rule set, the category is 'GSC Performance' exactly for the
    search-performance types, and the impact is the scorer's for the type
    and the url. *)
Definition well_formed (issue : Issue.t) : Prop :=
  In (Issue.issue_type issue) TechnicalSEOAuditor.detector_issue_types
  /\ In (Issue.severity issue) severities
  /\ In (Issue.category issue) categories
  /\ (Issue.category issue = "GSC Performance"
      <-> In (Issue.issue_type issue) TechnicalSEOAuditor.gsc_issue_types)
  /\ Issue.status issue = "New"
  /\ Issue.impact_score issue
     = StrategicSEOScorer.get_strategic_impact_score (Issue.issue_type issue) (Issue.url issue).

(** ** Python lists and dictionaries used by the collectors *)

(** [d[k] = v] on a dictionary kept in insertion order: an existing key
    keeps its place, a new key enters last. *)
Fixpoint dict_set {V : Type} (d : list (string * V)) (k : string) (v : V)
    : list (string * V) :=
  match d with
  | [] => [(k, v)]
  | (k', v') :: d' =>
      if String.eqb k' k then (k', v) :: d' else (k', v') :: dict_set d' k v
  end.

(** [l.sort(key=key, reverse=True)] and [sorted(l, key=key, reverse=True)]:
    Python's sort is stable, also with [reverse=True], so elements with
    equal keys keep their order; the stable descending order of a list is
    unique and is computed here by insertion. *)
Fixpoint insert_desc {A : Type} (key : A -> Z) (x : A) (l : list A) : list A :=
  match l with
  | [] => [x]
  | y :: l' => if key x <? key y then y :: insert_desc key x l' else x :: l
  end.

Definition sort_desc {A : Type} (key : A -> Z) (l : list A) : list A :=
  fold_right (insert_desc key) [] l.

(** [l[:n]]: the first [n] elements, and all but the last [-n] when [n]
    is negative. *)
Definition slice_to {A : Type} (n : Z) (l : list A) : list A :=
  if n <? 0 then firstn (Z.to_nat (Z.of_nat (length l) + n)) l
  else firstn (Z.to_nat n) l.

(** ** Search Console collector *)

(** One row of the response of [searchanalytics().query]; a key the row
    does not carry is [None]. *)
Module GSCRow.
Record t := mk {
  keys : option (list string);
  clicks : option Z;
  impressions : option Z;
  ctr : option PyFloat.float;
  position : option PyFloat.float
}.
End GSCRow.

Module GoogleSearchConsoleAPI.

(** What [self.service.searchanalytics().query(...).execute()] gives: an
    exception, or a response whose ['rows'] key may be absent. *)
Inductive api_result :=
| ApiError
| ApiResponse (rows : option (list GSCRow.t)).

(** [row.get('keys', [''])[0]]; [None] is the [IndexError] of an empty
    list. *)
Definition page_url_of (row : GSCRow.t) : option string :=
  match default [""] (GSCRow.keys row) with
  | [] => None
  | page_url :: _ => Some page_url
  end.

(** The body of the loop over the rows: the [GSCMetrics] built from one
    row ([url] and the signals dictionary). *)
Definition metrics_of_row (site_url : string) (row : GSCRow.t) : option GSCMetrics.t :=
  match page_url_of row with
  | None => None
  | Some page_url =>
      let clicks := default 0 (GSCRow.clicks row) in
      let impressions := default 0 (GSCRow.impressions row) in
      let ctr :=
        default (if 0 <? impressions
                 then PyFloat.div (PyFloat.of_Z clicks) (PyFloat.of_Z impressions)
                 else PyFloat.zero)
                (GSCRow.ctr row) in
      let position := default PyFloat.zero (GSCRow.position row) in
      Some (GSCMetrics.mk page_url clicks impressions ctr position site_url)
  end.

(** The loop over the rows; an exception in any iteration leaves the
    [try] block. *)
Fixpoint collect_rows (site_url : string) (rows : list GSCRow.t)
    : option (list GSCMetrics.t) :=
  match rows with
  | [] => Some []
  | row :: rows' =>
      match metrics_of_row site_url row with
      | None => None
      | Some metrics =>
          match collect_rows site_url rows' with
          | None => None
          | Some coverage_metrics => Some (metrics :: coverage_metrics)
          end
      end
  end.

(** [get_coverage_issues], as a function of what the query returned.
    Every exception ends in [return []]. *)
Definition get_coverage_issues (response : api_result) (site_url : string)
    (top_pages_limit : Z) : list GSCMetrics.t :=
  match response with
  | ApiError => []
  | ApiResponse rows =>
      match collect_rows site_url (default [] rows) with
      | None => []
      | Some coverage_metrics =>
          slice_to top_pages_limit (sort_desc GSCMetrics.impressions coverage_metrics)
      end
  end.

(** [get_multi_domain_coverage]; [query] is the answer of the service for
    each site. *)
Definition get_multi_domain_coverage (query : string -> api_result)
    (site_urls : list string) (top_pages_per_domain : Z)
    : list (string * list GSCMetrics.t) :=
  fold_left (fun all_coverage_data site_url =>
               dict_set all_coverage_data site_url
                        (get_coverage_issues (query site_url) site_url top_pages_per_domain))
            site_urls [].

End GoogleSearchConsoleAPI.

(** ** Crawler *)

(** What [crawl_url] reads off the response and the parsed page: the
    status code, the time the request took and the size of the content;
    the text of the first [title] tag; the [content] attribute of the
    description tag; the texts of the [h1] tags; the [href] of the
    canonical link; the [content] of the robots tag; the [href] of every
    link that has one, and the [alt] of every image.  [None] stands for a
    tag, or for an attribute, the page does not have. *)
Module Page.
Record t := mk {
  status_code : Z;
  response_time : PyFloat.float;
  content_length : Z;
  title : option string;
  description : option (option string);
  h1 : list string;
  canonical : option (option string);
  robots : option (option string);
  hrefs : list string;
  image_alts : list (option string)
}.
End Page.

Module WebCrawler.

Section Crawl.

(** [urlparse(url).netloc], and [None] where [urlparse] raises. *)
Variable netloc : string -> option string.

(** [_is_internal_link]; [None] when it raises. *)
Definition _is_internal_link (href base_url : string) : option bool :=
  if PyStr.startswith href "http" then
    match netloc href with
    | Some href_netloc =>
        match netloc base_url with
        | Some base_netloc => Some (String.eqb href_netloc base_netloc)
        | None => None
        end
    | None => None
    end
  else Some true.

(** The verdicts of [_is_internal_link] on the links of the page. *)
Fixpoint link_verdicts (hrefs : list string) (base_url : string) : option (list bool) :=
  match hrefs with
  | [] => Some []
  | href :: rest =>
      match _is_internal_link href base_url with
      | Some verdict =>
          match link_verdicts rest base_url with
          | Some verdicts => Some (verdict :: verdicts)
          | None => None
          end
      | None => None
      end
  end.

(** [crawl_url] once the request is made and the page parsed; [fetched]
    is [None] when either raised.  Every exception ends in the handler,
    which returns [None]. *)
Definition crawl_url (url : string) (fetched : option Page.t) : option CrawlMetrics.t :=
  match fetched with
  | None => None
  | Some page =>
      match link_verdicts (Page.hrefs page) url with
      | None => None
      | Some verdicts =>
          Some (CrawlMetrics.mk
                  url
                  (Page.status_code page)
                  (Page.response_time page)
                  (match Page.title page with
                   | Some text => PyStr.strip text
                   | None => ""
                   end)
                  (match Page.description page with
                   | Some content => PyStr.strip (default "" content)
                   | None => ""
                   end)
                  (map PyStr.strip (Page.h1 page))
                  (match Page.canonical page with
                   | Some href => href
                   | None => None
                   end)
                  (match Page.robots page with
                   | Some content => default "" content
                   | None => ""
                   end)
                  (Z.of_nat (length (List.filter (fun verdict => verdict) verdicts)))
                  (Z.of_nat (length (List.filter negb verdicts)))
                  (Z.of_nat (length (List.filter
                                       (fun alt => negb (PyStr.truthy
                                                           (PyStr.strip (default "" alt))))
                                       (Page.image_alts page))))
                  (Page.content_length page))
      end
  end.

End Crawl.

End WebCrawler.

(** The title of the record is as [crawl_url] leaves it, without
    whitespace around it.  [run_comprehensive_audit] fills ['crawl_data']
    with the records [crawl_url] returns and with nothing else. *)
Definition as_crawled (crawl_data : CrawlMetrics.t) : Prop :=
  PyStr.strip (CrawlMetrics.title crawl_data) = CrawlMetrics.title crawl_data.

(** ** Report of the main script *)

Module Report.

(** The grade the script prints for [summary['seo_score']]. *)
Definition grade (score : PyFloat.float) : string :=
  if PyFloat.leb (PyFloat.of_Z 90) score then "A+"
  else if PyFloat.leb (PyFloat.of_Z 80) score then "A"
  else if PyFloat.leb (PyFloat.of_Z 70) score then "B"
  else if PyFloat.leb (PyFloat.of_Z 60) score then "C"
  else "D".

(** The teams that get an entry in [team_exports]: those with
    [total_issues > 0]. *)
Definition team_exports (team_breakdown : list (string * TeamData.t))
    : list (string * TeamData.t) :=
  List.filter (fun entry => 0 <? TeamData.total_issues (snd entry)) team_breakdown.

(** [sorted_teams]: the teams by decreasing priority score. *)
Definition sorted_teams (team_breakdown : list (string * TeamData.t))
    : list (string * TeamData.t) :=
  sort_desc (fun entry => TeamData.priority_score (snd entry)) team_breakdown.

End Report.

(** ** The last steps of an audit run *)

(** Steps 4 and 5 of [run_comprehensive_audit]: the issues of the
    analysis are stored under ['issues'] and the summary is computed from
    the dictionary. *)
Definition analyze_and_summarize (audit_results : AuditResults.t)
    : AuditResults.t * Summary.t :=
  let issues := TechnicalSEOAuditor._analyze_issues audit_results in
  let audit_results :=
    AuditResults.mk (AuditResults.gsc_data audit_results)
                    (AuditResults.crawl_data audit_results)
                    (AuditResults.schema_data audit_results) issues in
  (audit_results, TechnicalSEOAuditor._generate_audit_summary audit_results).

(** ** Vocabulary of the duplicate counts *)



(** The number of issues of one type. *)
Definition count_issue_type (issue_type : string) (issues : list Issue.t) : nat :=
  length (List.filter (fun issue => String.eqb (Issue.issue_type issue) issue_type) issues).


(** * Properties *)

Import StrategicSEOScorer TechnicalSEOAuditor.

(** ** Python strings *)

Lemma drop_space_length (backwards : bool) (l r : list ascii) :
  PyStr.drop_space backwards l = Some r -> (length r < length l)%nat.
Proof.
  unfold PyStr.drop_space.
  destruct l as [| c1 [| c2 [| c3 l3]]]; try discriminate;
    repeat match goal with
           | |- context [if ?b then _ else _] => destruct b
           end;
    intros H; inversion H; subst; simpl; lia.
Qed.

(** Stripping the head takes one whitespace character off at a time. *)
Lemma lstrip_bytes_eq (backwards : bool) (l : list ascii) :
  PyStr.lstrip_bytes backwards l
  = match PyStr.drop_space backwards l with
    | Some r => PyStr.lstrip_bytes backwards r
    | None => l
    end.
Proof.
  destruct l as [| c1 [| c2 [| c3 l3]]]; [reflexivity | | |];
    destruct (PyStr.is_space c1) eqn:E1;
    try destruct (if backwards then PyStr.is_space2 c2 c1 else PyStr.is_space2 c1 c2) eqn:E2;
    try destruct (if backwards then PyStr.is_space3 c3 c2 c1 else PyStr.is_space3 c1 c2 c3)
      eqn:E3;
    cbn [PyStr.lstrip_bytes PyStr.drop_space]; rewrite ?E1, ?E2, ?E3; reflexivity.
Qed.

(** What is left starts with no whitespace character. *)
Lemma lstrip_bytes_head (backwards : bool) (l : list ascii) :
  PyStr.drop_space backwards (PyStr.lstrip_bytes backwards l) = None.
Proof.
  remember (length l) as n eqn:Hn. revert l Hn.
  induction n as [n IH] using lt_wf_ind. intros l ->.
  rewrite lstrip_bytes_eq.
  destruct (PyStr.drop_space backwards l) as [r |] eqn:E; [| exact E].
  exact (IH _ (drop_space_length _ _ _ E) r eq_refl).
Qed.

Lemma lstrip_bytes_id (backwards : bool) (l : list ascii) :
  PyStr.drop_space backwards l = None -> PyStr.lstrip_bytes backwards l = l.
Proof. intros H. rewrite lstrip_bytes_eq, H. reflexivity. Qed.

(** What is left is the end of the text. *)
Lemma lstrip_bytes_suffix (backwards : bool) (l : list ascii) :
  exists p, l = p ++ PyStr.lstrip_bytes backwards l.
Proof.
  remember (length l) as n eqn:Hn. revert l Hn.
  induction n as [n IH] using lt_wf_ind. intros l ->.
  rewrite lstrip_bytes_eq.
  destruct (PyStr.drop_space backwards l) as [r |] eqn:E; [| exists []; reflexivity].
  destruct (IH _ (drop_space_length _ _ _ E) r eq_refl) as [p Hp].
  assert (Hr : exists q, l = q ++ r).
  { revert E. unfold PyStr.drop_space.
    destruct l as [| c1 [| c2 [| c3 l3]]]; try discriminate;
      repeat match goal with
             | |- context [if ?b then _ else _] => destruct b
             end;
      intros H; inversion H; subst;
      first [ exists [c1]; reflexivity | exists [c1; c2]; reflexivity
            | exists [c1; c2; c3]; reflexivity ]. }
  destruct Hr as [q ->]. exists (q ++ p). rewrite <- app_assoc, <- Hp. reflexivity.
Qed.

(** A text that starts with no whitespace character has no beginning
    that starts with one. *)
Lemma drop_space_prefix (x y : list ascii) :
  PyStr.drop_space false (x ++ y) = None -> PyStr.drop_space false x = None.
Proof.
  unfold PyStr.drop_space.
  destruct x as [| c1 [| c2 [| c3 x3]]]; [reflexivity | | |]; cbn [app].
  - destruct (PyStr.is_space c1); [discriminate | reflexivity].
  - destruct (PyStr.is_space c1); [discriminate |].
    destruct y as [| c3 y]; [intros H; exact H |].
    destruct (PyStr.is_space2 c1 c2); [discriminate | reflexivity].
  - destruct (PyStr.is_space c1); [discriminate |].
    destruct (PyStr.is_space2 c1 c2); [discriminate |].
    destruct (PyStr.is_space3 c1 c2 c3); [discriminate | reflexivity].
Qed.

(** [s.strip().strip() == s.strip()] *)
Lemma strip_idempotent (s : string) :
  PyStr.strip (PyStr.strip s) = PyStr.strip s.
Proof.
  unfold PyStr.strip. rewrite list_ascii_of_string_of_list_ascii.
  set (a := PyStr.lstrip_bytes false (list_ascii_of_string s)).
  set (u := PyStr.lstrip_bytes true (rev a)).
  assert (Ha : PyStr.drop_space false a = None) by apply lstrip_bytes_head.
  assert (Hu : PyStr.drop_space true u = None) by apply lstrip_bytes_head.
  destruct (lstrip_bytes_suffix true (rev a)) as [p Hp]. fold u in Hp.
  assert (Hsplit : a = rev u ++ rev p).
  { rewrite <- rev_app_distr, <- Hp, rev_involutive. reflexivity. }
  rewrite Hsplit in Ha. apply drop_space_prefix in Ha.
  rewrite (lstrip_bytes_id false _ Ha), rev_involutive, (lstrip_bytes_id true _ Hu).
  reflexivity.
Qed.

(** The empty text is the only one of length 0 the guard of the duplicate
    check has to tell apart. *)
Lemma len_nonneg (s : string) : 0 <= PyStr.len s.
Proof.
  induction s as [| c s IH]; cbn [PyStr.len]; [lia |].
  destruct (PyStr.is_continuation c); lia.
Qed.

(** Accented letters take two bytes and count once; the no-break space
    and the ideographic space are stripped like the blank. *)
Example len_and_strip_beyond_ascii :
  PyStr.len "Crème brûl" = 10
  /\ PyStr.len "Crème brûlée à la carte" = 23
  /\ PyStr.strip " 　 Crème brûlée 　 " = "Crème brûlée".
Proof. vm_compute. repeat split; reflexivity. Qed.

(** A record [crawl_url] returns is [as_crawled]. *)
Lemma crawl_url_as_crawled (netloc : string -> option string) (url : string)
    (fetched : option Page.t) (crawl_data : CrawlMetrics.t) :
  WebCrawler.crawl_url netloc url fetched = Some crawl_data -> as_crawled crawl_data.
Proof.
  unfold WebCrawler.crawl_url, as_crawled.
  destruct fetched as [page |]; [| discriminate].
  destruct (WebCrawler.link_verdicts netloc (Page.hrefs page) url); [| discriminate].
  intros H. injection H as <-. cbn [CrawlMetrics.title].
  destruct (Page.title page) as [text |]; [apply strip_idempotent | reflexivity].
Qed.

(** ** The strategic scorer *)

Ltac in_list := simpl; repeat first [left; reflexivity | right]; fail.

Lemma dict_get_severity_value (issue_type : string) :
  In (dict_get issue_severity issue_type 50) severity_values.
Proof.
  unfold issue_severity; cbn [dict_get].
  repeat (destruct (String.eqb issue_type _); [in_list |]).
  in_list.
Qed.

Lemma classify_page_type_cases (url : string) :
  In (classify_page_type url) page_types.
Proof.
  unfold classify_page_type.
  repeat match goal with
         | |- context [if ?b then _ else _] => destruct b
         end; in_list.
Qed.

(** The float table holds the doubles nearest to the exact weights. *)
Lemma page_weights_tenths :
  page_weights = map (fun kv => (fst kv, PyFloat.tenths (snd kv))) page_weight_tenths.
Proof. reflexivity. Qed.

Lemma get_strategic_impact_score_eq (issue_type url : string) :
  get_strategic_impact_score issue_type url
  = score_for (dict_get issue_severity issue_type 50) (classify_page_type url).
Proof. reflexivity. Qed.

(** A property of the score checked on every base severity and every page
    type holds of every call of the scorer. *)
Lemma score_for_all (P : Z -> string -> bool) :
  forallb (fun base => forallb (P base) page_types) severity_values = true ->
  forall issue_type url,
    P (dict_get issue_severity issue_type 50) (classify_page_type url) = true.
Proof.
  intros Hall issue_type url.
  rewrite forallb_forall in Hall.
  specialize (Hall _ (dict_get_severity_value issue_type)).
  rewrite forallb_forall in Hall.
  exact (Hall _ (classify_page_type_cases url)).
Qed.

(** [int] is never applied to an infinity or a NaN. *)
Lemma strategic_impact_finite (issue_type url : string) :
  PyFloat.is_finite (strategic_impact issue_type url) = true.
Proof.
  apply (score_for_all
           (fun base page_type =>
              PyFloat.is_finite
                (PyFloat.mul (PyFloat.of_Z base)
                             (PyFloat.div (page_weight_of page_type) (PyFloat.tenths 25))))).
  vm_compute. reflexivity.
Qed.

Lemma score_range (issue_type url : string) :
  0 <= get_strategic_impact_score issue_type url <= 100.
Proof.
  rewrite get_strategic_impact_score_eq.
  pose proof (score_for_all
                (fun base page_type =>
                   (0 <=? score_for base page_type) && (score_for base page_type <=? 100))%bool)
    as H.
  specialize (H ltac:(vm_compute; reflexivity) issue_type url). cbv beta in H.
  apply andb_true_iff in H. destruct H as [H1 H2].
  apply Z.leb_le in H1. apply Z.leb_le in H2. lia.
Qed.

(** C1, counterexample: for the issue type 'Images Without Alt Text'
    (base 40) on a checkout page (weight 4.8) the product is 76.8; the code
    returns 76 where the formula with [round] gives 77. *)
Lemma C1_round_counterexample :
  classify_page_type "https://x.com/a/checkout" = "checkout"
  /\ get_strategic_impact_score "Images Without Alt Text" "https://x.com/a/checkout" = 76
  /\ spec_score "Images Without Alt Text" "https://x.com/a/checkout" = 77.
Proof. vm_compute. repeat split; reflexivity. Qed.

(** C1, amended: for every issue type and url the score is
    [min(100, int(base * (weight / 2.5)))]: the float product is truncated,
    not rounded, and the truncated float equals the exact quotient
    [base * weight / 2.5] rounded down; [base] defaults to 50 and [weight]
    to 2.0. *)
Theorem C1_score_truncates (issue_type url : string) :
  get_strategic_impact_score issue_type url
  = Z.min 100 (PyFloat.trunc (strategic_impact issue_type url))
  /\ get_strategic_impact_score issue_type url
     = Z.min 100 (dict_get issue_severity issue_type 50
                  * dict_get page_weight_tenths (classify_page_type url) 20 / 25).
Proof.
  split; [reflexivity |].
  rewrite get_strategic_impact_score_eq.
  apply Z.eqb_eq.
  apply (score_for_all (fun base page_type => score_for base page_type =? exact_score base page_type)).
  vm_compute. reflexivity.
Qed.

(** C5: for every issue type of the detector's rule set and every url the
    score is an integer of the interval [0, 100]. *)
Theorem C5_score_in_range (issue_type url : string) :
  In issue_type detector_issue_types ->
  0 <= get_strategic_impact_score issue_type url <= 100.
Proof. intros _. apply score_range. Qed.

(** C5 at the issue type 'HTTP Error' on a homepage. *)
Lemma C5_score_in_range_witness :
  0 <= get_strategic_impact_score "HTTP Error" "https://x.com/" <= 100.
Proof. apply C5_score_in_range. in_list. Defined.

Lemma score_monotone (issue_type url_lo url_hi : string) :
  PyFloat.leb (page_weight url_lo) (page_weight url_hi) = true ->
  get_strategic_impact_score issue_type url_lo
  <= get_strategic_impact_score issue_type url_hi.
Proof.
  intros Hle. rewrite !get_strategic_impact_score_eq.
  unfold page_weight in Hle.
  pose proof (dict_get_severity_value issue_type) as Hb.
  pose proof (classify_page_type_cases url_lo) as Hlo.
  pose proof (classify_page_type_cases url_hi) as Hhi.
  revert Hle.
  generalize dependent (classify_page_type url_hi).
  generalize dependent (classify_page_type url_lo).
  generalize dependent (dict_get issue_severity issue_type 50).
  intros base Hb lo Hlo hi Hhi Hle.
  assert (Hall : forallb (fun b => forallb (fun l => forallb (fun h =>
              implb (PyFloat.leb (page_weight_of l) (page_weight_of h))
                    (score_for b l <=? score_for b h)) page_types) page_types)
              severity_values = true) by (vm_compute; reflexivity).
  rewrite forallb_forall in Hall. specialize (Hall _ Hb).
  rewrite forallb_forall in Hall. specialize (Hall _ Hlo).
  rewrite forallb_forall in Hall. specialize (Hall _ Hhi).
  rewrite Hle in Hall. simpl in Hall. apply Z.leb_le. exact Hall.
Qed.

(** C6: the score does not decrease when the page weight of the classified
    page type grows; in particular a url classified [homepage] (5.0) scores
    at least what a url classified [other] (2.0) scores, for the same issue
    type. *)
Theorem C6_score_monotone_in_page_weight (issue_type url_o url_h : string) :
  (classify_page_type url_h = "homepage" /\ classify_page_type url_o = "other")
  \/ PyFloat.leb (page_weight url_o) (page_weight url_h) = true ->
  get_strategic_impact_score issue_type url_o
  <= get_strategic_impact_score issue_type url_h.
Proof.
  intros H. apply score_monotone.
  destruct H as [[Hh Ho] | H]; [| exact H].
  unfold page_weight. rewrite Hh, Ho. vm_compute. reflexivity.
Qed.

(** C6 for 'Thin Content' on a page classified [other] and on a homepage. *)
Lemma C6_score_monotone_witness :
  get_strategic_impact_score "Thin Content" "https://x.com/docs/a/b"
  <= get_strategic_impact_score "Thin Content" "https://x.com/".
Proof.
  apply C6_score_monotone_in_page_weight. left. split; vm_compute; reflexivity.
Defined.

(** ** The page classifier *)

Lemma count_char_contains (c : ascii) (s : string) :
  1 <= PyStr.count_char c s -> PyStr.contains (String c EmptyString) s = true.
Proof.
  induction s as [| d s IH]; simpl PyStr.count_char; [lia |].
  intros H. cbn [PyStr.contains].
  destruct (Ascii.eqb d c) eqn:E.
  - apply Ascii.eqb_eq in E. subst d.
    cbn [String.prefix]. destruct (ascii_dec c c) as [_ | Hne]; [| congruence].
    destruct s; reflexivity.
  - rewrite IH by lia. apply orb_true_r.
Qed.

(** C10, counterexample: a url without any '/' has at most 3 of them and
    is not classified [homepage]; a keyword of a later rule decides. *)
Lemma C10_no_slash_counterexample :
  (PyStr.count_char "/" (PyStr.lower "example.com") <=? 3) = true
  /\ classify_page_type "example.com" = "other"
  /\ (PyStr.count_char "/" (PyStr.lower "photo-books.example.com") <=? 3) = true
  /\ classify_page_type "photo-books.example.com" = "product".
Proof. vm_compute. repeat split; reflexivity. Qed.

(** C10, amended: every url whose lower-cased form contains at least one
    and at most 3 '/' characters is classified [homepage], with weight 5.0,
    whatever keyword of a later rule it contains. *)
Theorem C10_few_slashes_is_homepage (url : string) :
  1 <= PyStr.count_char "/" (PyStr.lower url) <= 3 ->
  classify_page_type url = "homepage"
  /\ page_weight url = PyFloat.tenths 50.
Proof.
  intros [Hlo Hhi].
  assert (Hc : classify_page_type url = "homepage").
  { unfold classify_page_type.
    cbn [PyStr.any_in existsb].
    rewrite (count_char_contains "/" _ Hlo). cbn [orb andb].
    apply Z.leb_le in Hhi. rewrite Hhi. reflexivity. }
  split; [exact Hc |].
  unfold page_weight. rewrite Hc. reflexivity.
Qed.

(** C10 at "https://x.com/contact", which has three '/'. *)
Lemma C10_few_slashes_witness :
  classify_page_type "https://x.com/contact" = "homepage"
  /\ page_weight "https://x.com/contact" = PyFloat.tenths 50.
Proof. apply C10_few_slashes_is_homepage. vm_compute. split; discriminate. Defined.

(** ** Signs of float sums *)

Lemma iter_pos_invariant {A : Type} (P : A -> Prop) (f : A -> A) :
  (forall x, P x -> P (f x)) -> forall p x, P x -> P (SpecFloat.iter_pos f p x).
Proof.
  intros Hf. induction p as [p IH | p IH |]; intros x Hx; simpl; auto.
Qed.

Lemma shr_1_nonneg (mrs : shr_record) : 0 <= shr_m mrs -> 0 <= shr_m (shr_1 mrs).
Proof.
  destruct mrs as [m r s]. simpl.
  destruct m as [| [p | p |] | [p | p |]]; simpl; lia.
Qed.

Lemma shr_fexp_nonneg (m e : Z) (l : location) :
  0 <= m -> 0 <= shr_m (fst (shr_fexp PyFloat.prec PyFloat.emax m e l)).
Proof.
  intros Hm. unfold shr_fexp, shr.
  assert (H0 : 0 <= shr_m (shr_record_of_loc m l)) by (destruct l as [| []]; exact Hm).
  destruct (fexp PyFloat.prec PyFloat.emax (Zdigits2 m + e) - e) as [| p | p]; simpl fst; auto.
  apply iter_pos_invariant; auto using shr_1_nonneg.
Qed.

Lemma round_nearest_even_nonneg (m : Z) (l : location) :
  0 <= m -> 0 <= round_nearest_even m l.
Proof.
  intros Hm. destruct l as [| []]; simpl; try lia.
  destruct (Z.even m); lia.
Qed.

Lemma binary_round_aux_nonneg (m e : Z) (l : location) :
  0 <= m -> PyFloat.nonneg (binary_round_aux PyFloat.prec PyFloat.emax false m e l).
Proof.
  intros Hm. unfold binary_round_aux.
  pose proof (shr_fexp_nonneg m e l Hm) as H1.
  destruct (shr_fexp PyFloat.prec PyFloat.emax m e l) as [mrs' e'].
  simpl fst in H1.
  pose proof (shr_fexp_nonneg _ e' loc_Exact
                (round_nearest_even_nonneg _ (loc_of_shr_record mrs') H1)) as H2.
  destruct (shr_fexp PyFloat.prec PyFloat.emax
              (round_nearest_even (shr_m mrs') (loc_of_shr_record mrs')) e' loc_Exact)
    as [mrs'' e''].
  simpl fst in H2.
  destruct (shr_m mrs'') as [| p | p]; simpl; [exact I | | lia].
  destruct (e'' <=? PyFloat.emax - PyFloat.prec); exact I.
Qed.

(** The sum of two floats that are neither negative nor NaN is neither. *)
Lemma add_nonneg (x y : PyFloat.float) :
  PyFloat.nonneg x -> PyFloat.nonneg y -> PyFloat.nonneg (PyFloat.add x y).
Proof.
  destruct x as [sx | [] | | [] mx ex]; destruct y as [sy | [] | | [] my ey];
    simpl; try tauto; try (destruct sx; tauto); try (destruct sx, sy; tauto).
  intros _ _. unfold PyFloat.add, SFadd.
  cbv zeta. cbn [cond_Zopp Z.add binary_normalize].
  unfold binary_round.
  destruct (shl_align _ _ _) as [mz ez].
  apply binary_round_aux_nonneg. lia.
Qed.

(** A float that is neither negative, NaN nor zero is positive. *)
Lemma nonneg_nonzero_positive (x : PyFloat.float) :
  PyFloat.nonneg x -> PyFloat.eqb x PyFloat.zero = false ->
  PyFloat.ltb PyFloat.zero x = true.
Proof.
  destruct x as [s | [] | | [] m e]; simpl; intros H E;
    try contradiction; try discriminate; reflexivity.
Qed.

Lemma page_weight_of_nonneg (page_type : string) :
  PyFloat.nonneg (page_weight_of page_type).
Proof.
  unfold page_weight_of, page_weights. cbn [dict_get].
  repeat (destruct (String.eqb page_type _); [vm_compute; exact I |]).
  vm_compute. exact I.
Qed.

(** ** The aggregator *)

Lemma has_issues_group_issue (page_issues : list (string * list Issue.t))
    (issue : Issue.t) (url : string) :
  has_issues (group_issue page_issues issue) url
  = (has_issues page_issues url || String.eqb (Issue.url issue) url)%bool.
Proof.
  unfold has_issues.
  induction page_issues as [| [k l] rest IH]; simpl.
  - apply orb_comm.
  - destruct (String.eqb k (Issue.url issue)) eqn:E; simpl.
    + apply String.eqb_eq in E. subst k.
      destruct (String.eqb (Issue.url issue) url); simpl;
        [reflexivity | symmetry; apply orb_false_r].
    + rewrite IH. apply orb_assoc.
Qed.

(** A url is a key of [page_issues] exactly when some issue carries it. *)
Lemma has_issues_group_by_url (issues : list Issue.t) (url : string) :
  has_issues (group_by_url issues) url
  = existsb (fun issue => String.eqb (Issue.url issue) url) issues.
Proof.
  unfold group_by_url.
  assert (H : forall acc,
             has_issues (fold_left group_issue issues acc) url
             = (has_issues acc url
                || existsb (fun issue => String.eqb (Issue.url issue) url) issues)%bool).
  { induction issues as [| i issues IH]; intros acc; simpl.
    - symmetry. apply orb_false_r.
    - rewrite IH, has_issues_group_issue. symmetry. apply orb_assoc. }
  apply H.
Qed.

Lemma weigh_page_nonneg (l : list (string * list Issue.t))
    (totals : PyFloat.float * PyFloat.float) :
  PyFloat.nonneg (snd totals) -> PyFloat.nonneg (snd (fold_left weigh_page l totals)).
Proof.
  revert totals. induction l as [| entry l IH]; intros totals H; simpl; [exact H |].
  apply IH. simpl. apply add_nonneg; [exact H | apply page_weight_of_nonneg].
Qed.

(** [total_weight] is never negative and never a NaN. *)
Lemma total_weight_nonneg (issues : list Issue.t) (crawl : list CrawlMetrics.t) :
  PyFloat.nonneg (total_weight issues crawl).
Proof.
  unfold total_weight.
  assert (H0 : PyFloat.nonneg (issue_pages_weight issues))
    by (apply weigh_page_nonneg; exact I).
  revert H0. generalize (issue_pages_weight issues).
  induction crawl as [| c crawl IH]; intros acc H; simpl; [exact H |].
  apply IH. unfold weigh_clean_page.
  destruct (has_issues _ _); [exact H |].
  apply add_nonneg; [exact H | apply page_weight_of_nonneg].
Qed.

Lemma total_weight_snoc (issues : list Issue.t) (crawl : list CrawlMetrics.t)
    (c : CrawlMetrics.t) :
  total_weight issues (crawl ++ [c])
  = weigh_clean_page (group_by_url issues) (total_weight issues crawl) c.
Proof. unfold total_weight. rewrite fold_left_app. reflexivity. Qed.

(** C2: a crawl record whose url carries no issue adds its page weight to
    [total_weight] (and nothing to [total_weighted_impact], which is
    computed from the issues alone): [total_weight] is the weight
    accumulated over the pages with issues plus, in crawl order, the page
    weight of every such record; and whenever [total_weight] is nonzero the
    summary's [seo_score] is
    [max(0, 100 - (total_weighted_impact / total_weight) / 50)]. *)
Theorem C2_clean_pages_weigh_in (audit_results : AuditResults.t) :
  let issues := AuditResults.issues audit_results in
  let crawl := AuditResults.crawl_data audit_results in
  let clean := fun c =>
    negb (existsb (fun issue => String.eqb (Issue.url issue) (CrawlMetrics.url c)) issues) in
  (forall c, clean c = true ->
             total_weight issues (crawl ++ [c])
             = PyFloat.add (total_weight issues crawl) (page_weight (CrawlMetrics.url c)))
  /\ total_weight issues crawl
     = fold_left PyFloat.add
         (map (fun c => page_weight (CrawlMetrics.url c)) (List.filter clean crawl))
         (issue_pages_weight issues)
  /\ (PyFloat.eqb (total_weight issues crawl) PyFloat.zero = false ->
      Summary.seo_score (_generate_audit_summary audit_results)
      = PyFloat.max0
          (PyFloat.sub (PyFloat.of_Z 100)
             (PyFloat.div
                (PyFloat.div (total_weighted_impact issues) (total_weight issues crawl))
                (PyFloat.of_Z 50)))).
Proof.
  intros issues crawl clean. split; [| split].
  - intros c Hc. rewrite total_weight_snoc. unfold weigh_clean_page.
    rewrite has_issues_group_by_url. unfold clean in Hc.
    apply negb_true_iff in Hc. rewrite Hc. reflexivity.
  - unfold total_weight. generalize (issue_pages_weight issues).
    induction crawl as [| c crawl' IH]; intros acc; simpl; [reflexivity |].
    unfold weigh_clean_page at 2. rewrite has_issues_group_by_url.
    unfold clean at 1.
    destruct (existsb _ issues); simpl; apply IH.
  - intros Hnz. cbn [_generate_audit_summary Summary.seo_score].
    fold issues. fold crawl. unfold seo_score_of.
    rewrite (nonneg_nonzero_positive _ (total_weight_nonneg issues crawl) Hnz).
    reflexivity.
Qed.

(** C2 on a homepage without issues and another page with one issue:
    the weights 5.0 and 2.0 add up to 7.0. *)
Lemma C2_clean_pages_witness :
  let audit_results :=
    AuditResults.mk []
      [ CrawlMetrics.mk "https://x.com/" 200 (PyFloat.tenths 10) "Home" "" [] None "" 5 0 0 100;
        CrawlMetrics.mk "https://x.com/docs/a/b" 200 (PyFloat.tenths 10) "Docs" "" [] None ""
                        5 0 0 100 ]
      []
      [ Issue.mk "https://x.com/docs/a/b" "Thin Content" "High" "Content" "New" 68 ] in
  total_weight (AuditResults.issues audit_results) (AuditResults.crawl_data audit_results)
  = PyFloat.of_Z 7
  /\ Summary.seo_score (_generate_audit_summary audit_results)
     = PyFloat.max0
         (PyFloat.sub (PyFloat.of_Z 100)
            (PyFloat.div (PyFloat.div (PyFloat.of_Z 136) (PyFloat.of_Z 7)) (PyFloat.of_Z 50))).
Proof.
  intros audit_results. split.
  - vm_compute. reflexivity.
  - rewrite (proj2 (proj2 (C2_clean_pages_weigh_in audit_results)))
      by (vm_compute; reflexivity).
    vm_compute. reflexivity.
Defined.

(** C9: with no crawl record and no issue the summary is produced, its
    [seo_score] is 100 and its [total_issues] is 0; every count is 0, the
    guarded averages are 0 and every team bucket is empty. *)
Theorem C9_empty_input_summary (gsc_data : list (string * list GSCMetrics.t))
    (schema_data : list SchemaData.t) :
  let summary := _generate_audit_summary (AuditResults.mk gsc_data [] schema_data []) in
  Summary.seo_score summary = PyFloat.of_Z 100
  /\ Summary.total_issues summary = 0
  /\ (Summary.critical_issues summary, Summary.high_issues summary,
      Summary.medium_issues summary, Summary.low_issues summary) = (0, 0, 0, 0)
  /\ Summary.issue_categories summary = ∅
  /\ Summary.error_pages summary = 0
  /\ Summary.avg_response_time summary = PyFloat.zero
  /\ map (fun entry => (fst entry, TeamData.issues (snd entry),
                        TeamData.avg_impact (snd entry), TeamData.priority_score (snd entry)))
         (Summary.team_breakdown summary)
     = [ ("tech_team", [], PyFloat.zero, 0);
         ("marketing_team", [], PyFloat.zero, 0);
         ("design_team", [], PyFloat.zero, 0) ].
Proof. intros summary. repeat split. Qed.

(** ** The issue detector: what each pass appends *)

Lemma Forall_when (P : Issue.t -> Prop) (b : bool) (i : Issue.t) :
  P i -> Forall P (when b i).
Proof. intros H. destruct b; simpl; auto. Qed.

Ltac forall_pieces :=
  repeat match goal with
         | |- Forall _ (_ ++ _) => apply Forall_app; split
         | |- Forall _ (when _ _) => apply Forall_when
         | |- Forall _ [] => constructor
         | |- Forall _ (_ :: _) => constructor
         | |- Forall _ (if ?b then _ else _) => destruct b
         | |- Forall _ (match ?x with _ => _ end) => destruct x
         end.

(** Every issue the first loop appends for a record carries the record's
    url, a crawl issue type and a crawl category. *)
Lemma analyze_crawl_record_Forall (P : Issue.t -> Prop) (c : CrawlMetrics.t) :
  (forall t sev cat, In t crawl_issue_types -> In cat crawl_categories ->
                     P (new_issue (CrawlMetrics.url c) t sev cat)) ->
  Forall P (analyze_crawl_record c).
Proof.
  intros H. unfold analyze_crawl_record. cbv zeta.
  forall_pieces; apply H; in_list.
Qed.

Lemma crawl_pass_eq (crawl : list CrawlMetrics.t) (issues : list Issue.t) :
  crawl_pass crawl issues = issues ++ flat_map analyze_crawl_record crawl.
Proof.
  unfold crawl_pass. revert issues.
  induction crawl as [| c crawl IH]; intros issues; simpl.
  - symmetry. apply app_nil_r.
  - rewrite IH. symmetry. apply app_assoc.
Qed.

Lemma crawl_pass_Forall (P : Issue.t -> Prop) (crawl : list CrawlMetrics.t)
    (issues : list Issue.t) :
  Forall P issues ->
  (forall c t sev cat, In c crawl -> In t crawl_issue_types -> In cat crawl_categories ->
                       P (new_issue (CrawlMetrics.url c) t sev cat)) ->
  Forall P (crawl_pass crawl issues).
Proof.
  intros H0 H. rewrite crawl_pass_eq. apply Forall_app. split; [exact H0 |].
  apply Forall_flat_map. apply List.Forall_forall. intros c Hc.
  apply analyze_crawl_record_Forall. intros t sev cat. apply H, Hc.
Qed.

Lemma analyze_schema_data_Forall (P : Issue.t -> Prop) (s : SchemaData.t) :
  (forall u t sev, SchemaData.url s = Some u -> In t schema_issue_types ->
                   P (new_issue u t sev "Technical SEO")) ->
  Forall P (analyze_schema_data s).
Proof.
  intros H. unfold analyze_schema_data.
  destruct (SchemaData.url s) as [u |]; [| constructor].
  specialize (H u). cbv zeta.
  forall_pieces; apply H; first [reflexivity | in_list].
Qed.

Lemma schema_pass_eq (schema : list SchemaData.t) (issues : list Issue.t) :
  schema_pass schema issues = issues ++ flat_map analyze_schema_data schema.
Proof.
  unfold schema_pass. revert issues.
  induction schema as [| s schema IH]; intros issues; simpl.
  - symmetry. apply app_nil_r.
  - rewrite IH. symmetry. apply app_assoc.
Qed.

Lemma schema_pass_Forall (P : Issue.t -> Prop) (schema : list SchemaData.t)
    (issues : list Issue.t) :
  Forall P issues ->
  (forall s u t sev, In s schema -> SchemaData.url s = Some u -> In t schema_issue_types ->
                     P (new_issue u t sev "Technical SEO")) ->
  Forall P (schema_pass schema issues).
Proof.
  intros H0 H. rewrite schema_pass_eq. apply Forall_app. split; [exact H0 |].
  apply Forall_flat_map. apply List.Forall_forall. intros s Hs.
  apply analyze_schema_data_Forall. intros u t sev. apply H, Hs.
Qed.

(** The search-performance loop only appends, and what it appends carries
    the url of the [GSCMetrics] at hand, a GSC issue type and the category
    'GSC Performance'. *)
Lemma analyze_gsc_metric_appends (issues : list Issue.t) (g : GSCMetrics.t) :
  exists added,
    analyze_gsc_metric issues g = issues ++ added
    /\ forall P : Issue.t -> Prop,
        (forall t sev, In t gsc_issue_types ->
                       P (new_issue (GSCMetrics.url g) t sev "GSC Performance")) ->
        Forall P added.
Proof.
  unfold analyze_gsc_metric. cbv zeta.
  repeat match goal with
         | |- context [when ?b ?i] =>
             let a := fresh "a" in
             set (a := when b i);
             assert (forall P : Issue.t -> Prop,
                        (forall t sev, In t gsc_issue_types ->
                                       P (new_issue (GSCMetrics.url g) t sev "GSC Performance")) ->
                        Forall P a)
               by (intros P HP; apply Forall_when, HP; in_list);
             clearbody a
         end.
  eexists. split.
  - rewrite <- !app_assoc. reflexivity.
  - intros P HP. repeat (apply Forall_app; split); auto.
Qed.

Lemma gsc_pass_appends (gsc : list (string * list GSCMetrics.t)) (issues : list Issue.t) :
  exists added,
    gsc_pass gsc issues = issues ++ added
    /\ forall P : Issue.t -> Prop,
        (forall entry g t sev, In entry gsc -> In g (snd entry) -> In t gsc_issue_types ->
                               P (new_issue (GSCMetrics.url g) t sev "GSC Performance")) ->
        Forall P added.
Proof.
  unfold gsc_pass.
  assert (Hin : forall metrics issues,
             exists added,
               fold_left analyze_gsc_metric metrics issues = issues ++ added
               /\ forall P : Issue.t -> Prop,
                   (forall g t sev, In g metrics -> In t gsc_issue_types ->
                                    P (new_issue (GSCMetrics.url g) t sev "GSC Performance")) ->
                   Forall P added).
  { induction metrics as [| g metrics IH]; intros iss; simpl.
    - exists []. split; [symmetry; apply app_nil_r | constructor].
    - destruct (analyze_gsc_metric_appends iss g) as (a1 & E1 & H1).
      destruct (IH (analyze_gsc_metric iss g)) as (a2 & E2 & H2).
      exists (a1 ++ a2). split.
      + rewrite E2, E1. symmetry. apply app_assoc.
      + intros P HP. apply Forall_app. split.
        * apply H1. intros t sev. apply HP. left. reflexivity.
        * apply H2. intros g' t sev Hg'. apply HP. right. exact Hg'. }
  revert issues. induction gsc as [| entry gsc IH]; intros issues; simpl.
  - exists []. split; [symmetry; apply app_nil_r | constructor].
  - destruct (Hin (snd entry) issues) as (a1 & E1 & H1).
    destruct (IH (fold_left analyze_gsc_metric (snd entry) issues)) as (a2 & E2 & H2).
    exists (a1 ++ a2). split.
    + rewrite E2, E1. symmetry. apply app_assoc.
    + intros P HP. apply Forall_app. split.
      * apply H1. intros g t sev. apply (HP entry). left. reflexivity.
      * apply H2. intros entry' g t sev He. apply HP. right. exact He.
Qed.

(** *** The cross-page pass *)

Lemma tracked_lt (min_len : Z) (text : string) :
  0 <= min_len -> tracked min_len text = true <-> min_len < PyStr.len text.
Proof.
  intros Hmin. unfold tracked.
  destruct text as [| a text]; cbn [PyStr.truthy andb].
  - cbn [PyStr.len]. split; [discriminate | lia].
  - apply Z.ltb_lt.
Qed.

(** The three outcomes of one duplicate check. *)
Lemma track_duplicate_cases (ty sev : string) (min_len : Z) (url text : string)
    (seen : gmap string string) (issues : list Issue.t) :
  (tracked min_len text = false
   /\ track_duplicate ty sev min_len url text seen issues = (seen, issues))
  \/ (tracked min_len text = true /\ seen !! text = None
      /\ track_duplicate ty sev min_len url text seen issues = (<[text := url]> seen, issues))
  \/ (tracked min_len text = true
      /\ exists first_url,
          seen !! text = Some first_url
          /\ track_duplicate ty sev min_len url text seen issues
             = (seen, issues ++ [new_issue url ty sev "Content";
                                 new_issue first_url ty sev "Content"])).
Proof.
  unfold track_duplicate. fold (tracked min_len text).
  destruct (tracked min_len text); [| left; split; reflexivity].
  right. destruct (seen !! text) as [first_url |] eqn:E.
  - right. split; [reflexivity |]. exists first_url. split; reflexivity.
  - left. repeat split; reflexivity.
Qed.

(** One duplicate check only appends; it keeps the remembered urls among
    the [known] ones and appends issues for [known] urls only. *)
Lemma track_duplicate_appends (known : string -> Prop) (ty sev : string) (min_len : Z)
    (url text : string) (seen : gmap string string) (issues : list Issue.t) :
  known url ->
  map_Forall (fun _ u => known u) seen ->
  exists seen' added,
    track_duplicate ty sev min_len url text seen issues = (seen', issues ++ added)
    /\ map_Forall (fun _ u => known u) seen'
    /\ forall P : Issue.t -> Prop,
        (forall u, known u -> P (new_issue u ty sev "Content")) -> Forall P added.
Proof.
  intros Hu Hseen.
  destruct (track_duplicate_cases ty sev min_len url text seen issues)
    as [[_ ->] | [(_ & _ & ->) | (_ & f & Hf & ->)]].
  - exists seen, []. rewrite app_nil_r. repeat split; [exact Hseen | constructor].
  - exists (<[text := url]> seen), []. rewrite app_nil_r. repeat split.
    + apply map_Forall_insert_2; assumption.
    + constructor.
  - eexists seen, _. repeat split; [exact Hseen |].
    intros P HP. repeat constructor; apply HP; [exact Hu |].
    exact (Hseen _ _ Hf).
Qed.

(** The cross-page loop only appends, and what it appends carries the url
    of a crawl record, a duplicate issue type and the category 'Content'. *)
Lemma duplicate_pass_appends (crawl : list CrawlMetrics.t) (issues : list Issue.t) :
  exists added,
    duplicate_pass crawl issues = issues ++ added
    /\ forall P : Issue.t -> Prop,
        (forall c t sev, In c crawl -> In t duplicate_issue_types ->
                         P (new_issue (CrawlMetrics.url c) t sev "Content")) ->
        Forall P added.
Proof.
  unfold duplicate_pass.
  set (known := fun u : string => exists c, In c crawl /\ CrawlMetrics.url c = u).
  assert (H : forall l (ts ms : gmap string string) iss,
             (forall c, In c l -> In c crawl) ->
             map_Forall (fun _ u => known u) ts -> map_Forall (fun _ u => known u) ms ->
             exists added,
               snd (fold_left duplicate_step l (ts, ms, iss)) = iss ++ added
               /\ forall P : Issue.t -> Prop,
                   (forall c t sev, In c crawl -> In t duplicate_issue_types ->
                                    P (new_issue (CrawlMetrics.url c) t sev "Content")) ->
                   Forall P added).
  { induction l as [| c l IH]; intros ts ms iss Hl Hts Hms.
    - exists []. split; [symmetry; apply app_nil_r | constructor].
    - assert (Hc : known (CrawlMetrics.url c)).
      { exists c. split; [apply Hl; left |]; reflexivity. }
      cbn [fold_left]. unfold duplicate_step at 2.
      destruct (track_duplicate_appends known "Duplicate Title Tags" "High" 10
                  (CrawlMetrics.url c) (PyStr.strip (CrawlMetrics.title c)) ts iss Hc Hts)
        as (ts' & a1 & -> & Hts' & Ha1).
      destruct (track_duplicate_appends known "Duplicate Meta Descriptions" "Medium" 20
                  (CrawlMetrics.url c) (PyStr.strip (CrawlMetrics.meta_description c))
                  ms (iss ++ a1) Hc Hms)
        as (ms' & a2 & -> & Hms' & Ha2).
      destruct (IH ts' ms' ((iss ++ a1) ++ a2) (fun c' H' => Hl c' (or_intror H')) Hts' Hms')
        as (a' & -> & Ha').
      exists (a1 ++ a2 ++ a'). split; [rewrite <- !app_assoc; reflexivity |].
      intros P HP. repeat (apply Forall_app; split).
      + apply Ha1. intros u (c' & Hc' & <-). apply HP; [exact Hc' | in_list].
      + apply Ha2. intros u (c' & Hc' & <-). apply HP; [exact Hc' | in_list].
      + apply Ha', HP. }
  apply (H crawl ∅ ∅ issues); [auto | apply map_Forall_empty | apply map_Forall_empty].
Qed.

Lemma find_snoc {A : Type} (f : A -> bool) (l : list A) (x : A) :
  List.find f (l ++ [x])
  = match List.find f l with
    | Some y => Some y
    | None => if f x then Some x else None
    end.
Proof.
  induction l as [| a l IH]; simpl; [reflexivity |].
  destruct (f a); auto.
Qed.

Lemma find_Some_lookup {A : Type} (f : A -> bool) (l : list A) (x : A) :
  List.find f l = Some x -> exists k, l !! k = Some x /\ f x = true.
Proof.
  intros H. apply find_some in H. destruct H as [Hin Hf].
  apply list_elem_of_In, list_elem_of_lookup_1 in Hin. destruct Hin as [k Hk].
  exists k. split; assumption.
Qed.

Lemma find_None_lookup {A : Type} (f : A -> bool) (l : list A) (k : nat) (x : A) :
  List.find f l = None -> l !! k = Some x -> f x = false.
Proof.
  intros H Hk. apply (find_none f l H).
  apply list_elem_of_In. exact (list_elem_of_lookup_2 l k x Hk).
Qed.

(** A duplicate check adds no issue of another type. *)
Lemma track_duplicate_other_type (ty sev : string) (min_len : Z) (url text : string)
    (seen : gmap string string) (issues : list Issue.t) (i : Issue.t) :
  Issue.issue_type i <> ty ->
  In i (snd (track_duplicate ty sev min_len url text seen issues)) <-> In i issues.
Proof.
  intros Hty.
  destruct (track_duplicate_cases ty sev min_len url text seen issues)
    as [[_ ->] | [(_ & _ & ->) | (_ & f & _ & ->)]]; simpl; try reflexivity.
  rewrite in_app_iff. simpl. split; [| auto].
  intros [H | [<- | [<- | []]]]; [exact H | |]; exfalso; apply Hty; reflexivity.
Qed.

Lemma shares_title_snoc_1 (l : list CrawlMetrics.t) (x : CrawlMetrics.t) (i : Issue.t) :
  shares_title l i -> shares_title (l ++ [x]) i.
Proof.
  intros (n & m & c & c' & Hnm & Hn & Hm & H).
  exists n, m, c, c'. repeat split; try tauto; apply lookup_app_l_Some; assumption.
Qed.

Lemma shares_title_snoc_2 (l : list CrawlMetrics.t) (x : CrawlMetrics.t) (i : Issue.t) :
  shares_title (l ++ [x]) i ->
  shares_title l i
  \/ exists k c,
      l !! k = Some c /\ title_text c = title_text x /\ 10 < PyStr.len (title_text x)
      /\ (i = new_issue (CrawlMetrics.url x) "Duplicate Title Tags" "High" "Content"
          \/ i = new_issue (CrawlMetrics.url c) "Duplicate Title Tags" "High" "Content").
Proof.
  intros (n & m & c & c' & Hnm & Hn & Hm & Ht & Hlen & Hi).
  apply lookup_snoc_Some in Hn. apply lookup_snoc_Some in Hm.
  destruct Hn as [[Hn1 Hn] | [Hn Hxc]]; destruct Hm as [[Hm1 Hm] | [Hm Hxc']].
  - left. exists n, m, c, c'. tauto.
  - subst c'. right. exists n, c. rewrite <- Ht. tauto.
  - subst c. right. exists m, c'. repeat split; auto.
  - exfalso. lia.
Qed.

Lemma shares_title_snoc_3 (l : list CrawlMetrics.t) (x c : CrawlMetrics.t) (k : nat) :
  l !! k = Some c -> title_text c = title_text x -> 10 < PyStr.len (title_text x) ->
  shares_title (l ++ [x])
    (new_issue (CrawlMetrics.url x) "Duplicate Title Tags" "High" "Content")
  /\ shares_title (l ++ [x])
       (new_issue (CrawlMetrics.url c) "Duplicate Title Tags" "High" "Content").
Proof.
  intros Hk Ht Hlen.
  pose proof (lookup_lt_Some _ _ _ Hk) as Hlt.
  assert (Hx : (l ++ [x]) !! length l = Some x)
    by (apply lookup_snoc_Some; right; split; reflexivity).
  assert (Hc : (l ++ [x]) !! k = Some c) by (apply lookup_app_l_Some; exact Hk).
  split.
  - exists (length l), k, x, c. repeat split; auto; lia.
  - exists k, (length l), c, x. rewrite Ht. repeat split; auto; lia.
Qed.

(** The state of the cross-page loop after the records [crawl]:
    [titles_seen] maps a text to the url of the first record that entered
    the check with it, and the duplicate-title issues appended are exactly
    those of the records sharing their text with a record elsewhere. *)
Lemma duplicate_titles_char (crawl : list CrawlMetrics.t) (issues0 : list Issue.t) :
  let st := fold_left duplicate_step crawl (∅, ∅, issues0) in
  (forall t, fst (fst st) !! t = CrawlMetrics.url <$> List.find (title_key t) crawl)
  /\ (forall i, Issue.issue_type i = "Duplicate Title Tags" ->
                In i (snd st) <-> In i issues0 \/ shares_title crawl i).
Proof.
  induction crawl as [| x l IH] using rev_ind.
  - simpl. split.
    + intros t. rewrite lookup_empty. reflexivity.
    + intros i _. split; [auto |].
      intros [H | (n & m & c & c' & _ & Hn & _)]; [exact H | discriminate].
  - rewrite fold_left_app. cbn [fold_left].
    destruct (fold_left duplicate_step l (∅, ∅, issues0)) as [[ts ms] iss].
    cbv zeta in IH. cbn [fst snd] in IH. destruct IH as [IHa IHb].
    cbv zeta. unfold duplicate_step. fold (title_text x).
    assert (Hmeta : forall iss1 i,
               Issue.issue_type i = "Duplicate Title Tags" ->
               In i (snd (track_duplicate "Duplicate Meta Descriptions" "Medium" 20
                            (CrawlMetrics.url x)
                            (PyStr.strip (CrawlMetrics.meta_description x)) ms iss1))
               <-> In i iss1).
    { intros iss1 i Hi. apply track_duplicate_other_type. rewrite Hi. discriminate. }
    destruct (track_duplicate_cases "Duplicate Title Tags" "High" 10
                (CrawlMetrics.url x) (title_text x) ts iss)
      as [[Ht ->] | [(Ht & Hnone & ->) | (Ht & f & Hf & ->)]];
      match goal with
      | |- context [track_duplicate ?ty ?sev ?n ?u ?t ms ?i1] =>
          specialize (Hmeta i1);
          destruct (track_duplicate ty sev n u t ms i1) as [ms' iss2]
      end;
      cbn [fst snd] in *; split.
    + (* the title is not tracked *)
      intros t. rewrite IHa, find_snoc. unfold title_key at 3. rewrite Ht. cbn [andb].
      destruct (List.find (title_key t) l); reflexivity.
    + intros i Hi. rewrite (Hmeta i Hi), (IHb i Hi).
      split; (intros [H | H]; [left; exact H | right]).
      * apply shares_title_snoc_1, H.
      * apply shares_title_snoc_2 in H. destruct H as [H | (k & c & _ & _ & Hlen & _)];
          [exact H |].
        apply (tracked_lt 10) in Hlen; [congruence | lia].
    + (* a tracked title seen for the first time *)
      intros t.
      assert (Hl : List.find (title_key (title_text x)) l = None).
      { specialize (IHa (title_text x)). rewrite Hnone in IHa.
        destruct (List.find _ l); [discriminate | reflexivity]. }
      rewrite find_snoc. destruct (decide (title_text x = t)) as [<- | Hne].
      * rewrite lookup_insert_eq, Hl. unfold title_key. rewrite Ht, String.eqb_refl.
        reflexivity.
      * rewrite lookup_insert_ne by exact Hne. rewrite IHa.
        unfold title_key at 3. apply String.eqb_neq in Hne. rewrite Hne, andb_false_r.
        destruct (List.find (title_key t) l); reflexivity.
    + intros i Hi. rewrite (Hmeta i Hi), (IHb i Hi).
      split; (intros [H | H]; [left; exact H | right]).
      * apply shares_title_snoc_1, H.
      * apply shares_title_snoc_2 in H. destruct H as [H | (k & c & Hk & Hc & Hlen & _)];
          [exact H | exfalso].
        assert (Hl : List.find (title_key (title_text x)) l = None).
        { specialize (IHa (title_text x)). rewrite Hnone in IHa.
          destruct (List.find _ l); [discriminate | reflexivity]. }
        pose proof (find_None_lookup _ _ _ _ Hl Hk) as Hkey.
        unfold title_key in Hkey. rewrite Hc, Ht, String.eqb_refl in Hkey. discriminate.
    + (* a tracked title seen before *)
      intros t. rewrite IHa, find_snoc.
      destruct (List.find (title_key t) l) eqn:El; [reflexivity |].
      unfold title_key. destruct (String.eqb (title_text x) t) eqn:Et.
      * apply String.eqb_eq in Et. subst t.
        specialize (IHa (title_text x)). rewrite Hf, El in IHa. discriminate.
      * rewrite andb_false_r. reflexivity.
    + intros i Hi. rewrite (Hmeta i Hi), in_app_iff, (IHb i Hi).
      pose proof (IHa (title_text x)) as Hfirst. rewrite Hf in Hfirst.
      destruct (List.find (title_key (title_text x)) l) as [c0 |] eqn:E0; [| discriminate].
      injection Hfirst as ->.
      apply find_Some_lookup in E0. destruct E0 as (k0 & Hk0 & Hkey0).
      unfold title_key in Hkey0. apply andb_true_iff in Hkey0. destruct Hkey0 as [_ Hc0].
      apply String.eqb_eq in Hc0.
      assert (Hlen : 10 < PyStr.len (title_text x)) by (apply tracked_lt in Ht; lia).
      destruct (shares_title_snoc_3 l x c0 k0 Hk0 Hc0 Hlen) as [Sx Sc].
      split.
      * intros [[H | H] | [<- | [<- | []]]]; auto.
        right. apply shares_title_snoc_1, H.
      * intros [H | H]; [auto |].
        apply shares_title_snoc_2 in H.
        destruct H as [H | (k & c & Hk & Hc & _ & [-> | ->])]; [auto | simpl; auto |].
        destruct (decide (k = k0)) as [-> | Hne].
        -- rewrite Hk0 in Hk. injection Hk as <-. simpl. auto.
        -- left. right. exists k, k0, c, c0. rewrite Hc, Hc0. tauto.
Qed.

(** *** The whole analysis *)

(** [_analyze_issues] is the concatenation of what its four loops append;
    the second component is the list as the cross-page loop leaves it. *)
Lemma analyze_issues_structure (audit_results : AuditResults.t) :
  let crawl := AuditResults.crawl_data audit_results in
  exists gsc_added,
    _analyze_issues audit_results
    = duplicate_pass crawl (crawl_pass crawl [])
      ++ flat_map analyze_schema_data (AuditResults.schema_data audit_results)
      ++ gsc_added
    /\ forall P : Issue.t -> Prop,
        (forall entry g t sev,
            In entry (AuditResults.gsc_data audit_results) -> In g (snd entry) ->
            In t gsc_issue_types ->
            P (new_issue (GSCMetrics.url g) t sev "GSC Performance")) ->
        Forall P gsc_added.
Proof.
  intros crawl. unfold _analyze_issues. cbv zeta. fold crawl.
  destruct (gsc_pass_appends (AuditResults.gsc_data audit_results)
              (schema_pass (AuditResults.schema_data audit_results)
                 (duplicate_pass crawl (crawl_pass crawl []))))
    as (added & E & H).
  exists added. split; [| exact H].
  rewrite E, schema_pass_eq. symmetry. apply app_assoc.
Qed.

(** A property of every issue the four loops can build holds of every
    issue of the analysis. *)
Lemma analyze_issues_Forall (P : Issue.t -> Prop) (audit_results : AuditResults.t) :
  (forall c t sev cat,
      In c (AuditResults.crawl_data audit_results) ->
      In t (crawl_issue_types ++ duplicate_issue_types) -> In cat crawl_categories ->
      P (new_issue (CrawlMetrics.url c) t sev cat)) ->
  (forall s u t sev,
      In s (AuditResults.schema_data audit_results) -> SchemaData.url s = Some u ->
      In t schema_issue_types -> P (new_issue u t sev "Technical SEO")) ->
  (forall entry g t sev,
      In entry (AuditResults.gsc_data audit_results) -> In g (snd entry) ->
      In t gsc_issue_types -> P (new_issue (GSCMetrics.url g) t sev "GSC Performance")) ->
  Forall P (_analyze_issues audit_results).
Proof.
  intros Hcrawl Hschema Hgsc.
  destruct (analyze_issues_structure audit_results) as (gsc_added & -> & Hg).
  destruct (duplicate_pass_appends (AuditResults.crawl_data audit_results)
              (crawl_pass (AuditResults.crawl_data audit_results) []))
    as (dups & -> & Hd).
  repeat (apply Forall_app; split).
  - apply crawl_pass_Forall; [constructor |].
    intros c t sev cat Hc Ht. apply Hcrawl; [exact Hc |].
    apply in_or_app. left. exact Ht.
  - apply Hd. intros c t sev Hc Ht. apply Hcrawl; [exact Hc | | in_list].
    apply in_or_app. right. exact Ht.
  - apply Forall_flat_map, List.Forall_forall. intros s Hs.
    apply analyze_schema_data_Forall. intros u t sev. apply Hschema, Hs.
  - apply Hg, Hgsc.
Qed.

(** Every issue of the analysis has an issue type of the rule set, the
    impact the scorer gives that type on the issue's url, and an impact in
    [0, 100]. *)
Lemma analyze_issues_impact (audit_results : AuditResults.t) :
  Forall (fun issue =>
            In (Issue.issue_type issue) detector_issue_types
            /\ Issue.impact_score issue
               = get_strategic_impact_score (Issue.issue_type issue) (Issue.url issue)
            /\ 0 <= Issue.impact_score issue <= 100)
         (_analyze_issues audit_results).
Proof.
  apply analyze_issues_Forall.
  - intros c t sev cat _ Ht _.
    assert (Hin : In t detector_issue_types).
    { unfold detector_issue_types. rewrite app_assoc. apply in_or_app. left. exact Ht. }
    unfold new_issue. cbn [Issue.issue_type Issue.impact_score Issue.url].
    split; [exact Hin | split; [reflexivity | apply score_range]].
  - intros s u t sev _ _ Ht.
    assert (Hin : In t detector_issue_types).
    { unfold detector_issue_types. do 2 (apply in_or_app; right).
      apply in_or_app. left. exact Ht. }
    unfold new_issue. cbn [Issue.issue_type Issue.impact_score Issue.url].
    split; [exact Hin | split; [reflexivity | apply score_range]].
  - intros entry g t sev _ _ Ht.
    assert (Hin : In t detector_issue_types).
    { unfold detector_issue_types. do 3 (apply in_or_app; right). exact Ht. }
    unfold new_issue. cbn [Issue.issue_type Issue.impact_score Issue.url].
    split; [exact Hin | split; [reflexivity | apply score_range]].
Qed.

Lemma in_gsc_urls (audit_results : AuditResults.t) (entry : string * list GSCMetrics.t)
    (g : GSCMetrics.t) :
  In entry (AuditResults.gsc_data audit_results) -> In g (snd entry) ->
  In (GSCMetrics.url g) (gsc_urls audit_results).
Proof.
  intros He Hg. unfold gsc_urls. apply in_flat_map. exists entry. split; [exact He |].
  apply in_map. exact Hg.
Qed.

(** C3, counterexample: the audit set is the one url "https://x.com/",
    which is crawled; Search Console reports another page of the site, and
    the analysis emits an issue for that page. *)
Lemma C3_gsc_url_counterexample :
  let urls_to_audit := ["https://x.com/"] in
  let audit_results :=
    AuditResults.mk
      [ ("sc-domain:x.com",
         [ GSCMetrics.mk "https://x.com/landing/a/b" 0 20000 PyFloat.zero (PyFloat.of_Z 3)
                         "sc-domain:x.com" ]) ]
      [ CrawlMetrics.mk "https://x.com/" 200 (PyFloat.tenths 10) "Home" "" [] None "" 5 0 0 100 ]
      [] [] in
  crawl_urls audit_results = urls_to_audit
  /\ In (Issue.mk "https://x.com/landing/a/b" "High Value Page Opportunity" "Medium"
                  "GSC Performance" "New" 40)
        (_analyze_issues audit_results)
  /\ PyStr.mem "https://x.com/landing/a/b" urls_to_audit = false.
Proof. vm_compute. repeat split; auto 20. Qed.

(** C3, amended: when the crawl records and the structured-data results
    carry urls of the audit set, every issue of the crawl, cross-page and
    structured-data passes has a url of the audit set; an issue of the
    search-performance pass (category 'GSC Performance') has the url of a
    Search Console record, whether or not that url is in the audit set. *)
Theorem C3_issue_urls_by_pass (audit_results : AuditResults.t)
    (urls_to_audit : list string) :
  (forall c, In c (AuditResults.crawl_data audit_results) ->
             In (CrawlMetrics.url c) urls_to_audit) ->
  (forall s u, In s (AuditResults.schema_data audit_results) ->
               SchemaData.url s = Some u -> In u urls_to_audit) ->
  forall issue, In issue (_analyze_issues audit_results) ->
    (Issue.category issue <> "GSC Performance" /\ In (Issue.url issue) urls_to_audit)
    \/ (Issue.category issue = "GSC Performance"
        /\ In (Issue.url issue) (gsc_urls audit_results)).
Proof.
  intros Hcrawl Hschema. apply List.Forall_forall. apply analyze_issues_Forall.
  - intros c t sev cat Hc _ Hcat. left. simpl. split; [| apply Hcrawl, Hc].
    intros ->. simpl in Hcat. intuition discriminate.
  - intros s u t sev Hs Hu _. left. simpl. split; [discriminate |].
    exact (Hschema s u Hs Hu).
  - intros entry g t sev He Hg _. right. simpl. split; [reflexivity |].
    exact (in_gsc_urls audit_results entry g He Hg).
Qed.

(** C3 on an audit of one crawled url with a Search Console record for
    another page. *)
Lemma C3_issue_urls_witness :
  let audit_results :=
    AuditResults.mk
      [ ("sc-domain:x.com",
         [ GSCMetrics.mk "https://x.com/landing/a/b" 0 20000 PyFloat.zero (PyFloat.of_Z 3)
                         "sc-domain:x.com" ]) ]
      [ CrawlMetrics.mk "https://x.com/" 503 (PyFloat.tenths 10) "Home" "" [] None "" 5 0 0 100 ]
      [ SchemaData.mk (Some "https://x.com/") None (Some 0) (Some []) ] [] in
  Forall (fun issue =>
            (Issue.category issue <> "GSC Performance"
             /\ In (Issue.url issue) ["https://x.com/"])
            \/ (Issue.category issue = "GSC Performance"
                /\ In (Issue.url issue) (gsc_urls audit_results)))
         (_analyze_issues audit_results).
Proof.
  intros audit_results. apply List.Forall_forall.
  apply (C3_issue_urls_by_pass audit_results ["https://x.com/"]).
  - intros c [<- | []]. left. reflexivity.
  - intros s u [<- | []] [= <-]. left. reflexivity.
Defined.

(** What the first loop appends for a crawled record is in the result. *)
Lemma analyze_crawl_record_kept (audit_results : AuditResults.t) (c : CrawlMetrics.t)
    (issue : Issue.t) :
  In c (AuditResults.crawl_data audit_results) ->
  In issue (analyze_crawl_record c) ->
  In issue (_analyze_issues audit_results).
Proof.
  intros Hc Hi.
  destruct (analyze_issues_structure audit_results) as (gsc_added & -> & _).
  destruct (duplicate_pass_appends (AuditResults.crawl_data audit_results)
              (crawl_pass (AuditResults.crawl_data audit_results) []))
    as (dups & -> & _).
  rewrite crawl_pass_eq.
  do 2 (apply in_or_app; left). simpl.
  apply in_flat_map. exists c. split; assumption.
Qed.

(** A status of 400 or more yields an 'HTTP Error' issue, 'Critical' from
    500 on and 'High' below. *)
Lemma http_error_emitted (audit_results : AuditResults.t) (c : CrawlMetrics.t) :
  In c (AuditResults.crawl_data audit_results) ->
  400 <= CrawlMetrics.status_code c ->
  In (new_issue (CrawlMetrics.url c) "HTTP Error"
                (if 500 <=? CrawlMetrics.status_code c then "Critical" else "High")
                "Crawlability")
     (_analyze_issues audit_results).
Proof.
  intros Hc Hs. apply (analyze_crawl_record_kept audit_results c _ Hc).
  unfold analyze_crawl_record. cbv zeta.
  apply in_or_app. left.
  apply Z.leb_le in Hs. rewrite Hs. left. reflexivity.
Qed.

(** C8: a crawl record with url "https://x.com/" classifies as homepage,
    and with status 503 the analysis emits for it the 'HTTP Error' issue of
    severity 'Critical' and impact 100; so does every status from 500 on,
    and a status in 400-499 gives the same issue with severity 'High'. *)
Theorem C8_http_error_on_homepage (audit_results : AuditResults.t) (c : CrawlMetrics.t) :
  In c (AuditResults.crawl_data audit_results) ->
  CrawlMetrics.url c = "https://x.com/" ->
  classify_page_type (CrawlMetrics.url c) = "homepage"
  /\ (CrawlMetrics.status_code c = 503 ->
      In (Issue.mk "https://x.com/" "HTTP Error" "Critical" "Crawlability" "New" 100)
         (_analyze_issues audit_results))
  /\ (500 <= CrawlMetrics.status_code c ->
      In (Issue.mk "https://x.com/" "HTTP Error" "Critical" "Crawlability" "New" 100)
         (_analyze_issues audit_results))
  /\ (400 <= CrawlMetrics.status_code c < 500 ->
      In (Issue.mk "https://x.com/" "HTTP Error" "High" "Crawlability" "New" 100)
         (_analyze_issues audit_results)).
Proof.
  intros Hc Hurl.
  assert (Hcrit : 500 <= CrawlMetrics.status_code c ->
                  In (Issue.mk "https://x.com/" "HTTP Error" "Critical" "Crawlability" "New" 100)
                     (_analyze_issues audit_results)).
  { intros Hs. pose proof (http_error_emitted audit_results c Hc ltac:(lia)) as H.
    rewrite Hurl in H. apply Z.leb_le in Hs. rewrite Hs in H. exact H. }
  split; [rewrite Hurl; reflexivity |].
  split; [intros Hs; apply Hcrit; lia |].
  split; [exact Hcrit |].
  intros [Hlo Hhi]. pose proof (http_error_emitted audit_results c Hc Hlo) as H.
  rewrite Hurl in H. apply Z.leb_gt in Hhi. rewrite Hhi in H. exact H.
Qed.

(** C8 on the record of the scenario. *)
Lemma C8_http_error_witness :
  let c := CrawlMetrics.mk "https://x.com/" 503 (PyFloat.tenths 10) "Home" "" [] None ""
                           0 0 0 0 in
  In (Issue.mk "https://x.com/" "HTTP Error" "Critical" "Crawlability" "New" 100)
     (_analyze_issues (AuditResults.mk [] [c] [] [])).
Proof.
  intros c.
  destruct (C8_http_error_on_homepage (AuditResults.mk [] [c] [] []) c)
    as (_ & H503 & _); [left; reflexivity | reflexivity |].
  apply H503. reflexivity.
Defined.

(** The duplicate-title issues of the analysis are exactly those of the
    records that share their stripped title with a record elsewhere. *)
Lemma duplicate_title_issues (audit_results : AuditResults.t) (issue : Issue.t) :
  Issue.issue_type issue = "Duplicate Title Tags" ->
  In issue (_analyze_issues audit_results)
  <-> shares_title (AuditResults.crawl_data audit_results) issue.
Proof.
  intros Hty.
  set (other := fun j : Issue.t => Issue.issue_type j <> "Duplicate Title Tags").
  destruct (analyze_issues_structure audit_results) as (gsc_added & -> & Hg).
  assert (Hcrawl : Forall other (crawl_pass (AuditResults.crawl_data audit_results) [])).
  { apply crawl_pass_Forall; [constructor |].
    intros c t sev cat _ Ht _. unfold other. simpl in Ht |- *.
    intuition (subst; discriminate). }
  assert (Hschema : Forall other
                      (flat_map analyze_schema_data (AuditResults.schema_data audit_results))).
  { apply Forall_flat_map, List.Forall_forall. intros s _.
    apply analyze_schema_data_Forall. intros u t sev _ Ht. unfold other. simpl in Ht |- *.
    intuition (subst; discriminate). }
  assert (Hgsc : Forall other gsc_added).
  { apply Hg. intros entry g t sev _ _ Ht. unfold other. simpl in Ht |- *.
    intuition (subst; discriminate). }
  rewrite List.Forall_forall in Hcrawl, Hschema, Hgsc.
  pose proof (proj2 (duplicate_titles_char (AuditResults.crawl_data audit_results)
                       (crawl_pass (AuditResults.crawl_data audit_results) []))
                issue Hty) as Hchar.
  fold (duplicate_pass (AuditResults.crawl_data audit_results)
          (crawl_pass (AuditResults.crawl_data audit_results) [])) in Hchar.
  rewrite !in_app_iff, Hchar. split.
  - intros [[H | H] | [H | H]]; [| exact H | |]; exfalso.
    + exact (Hcrawl _ H Hty).
    + exact (Hschema _ H Hty).
    + exact (Hgsc _ H Hty).
  - intros H. left. right. exact H.
Qed.

(** Two records at different positions of the crawl data whose titles,
    after stripping, are identical and longer than 10 characters each
    receive a 'Duplicate Title Tags' issue on their url; a record whose
    stripped title and whose url are those of no other record receives
    none. *)
Lemma duplicate_titles_stripped (audit_results : AuditResults.t)
    (n1 n2 : nat) (r1 r2 : CrawlMetrics.t) :
  let crawl := AuditResults.crawl_data audit_results in
  let issues := _analyze_issues audit_results in
  crawl !! n1 = Some r1 -> crawl !! n2 = Some r2 -> n1 <> n2 ->
  title_text r1 = title_text r2 ->
  10 < PyStr.len (title_text r1) ->
  receives "Duplicate Title Tags" (CrawlMetrics.url r1) issues
  /\ receives "Duplicate Title Tags" (CrawlMetrics.url r2) issues
  /\ forall (n3 : nat) (r3 : CrawlMetrics.t),
      crawl !! n3 = Some r3 ->
      (forall k c, k <> n3 -> crawl !! k = Some c ->
                   title_text c <> title_text r3
                   /\ CrawlMetrics.url c <> CrawlMetrics.url r3) ->
      ~ receives "Duplicate Title Tags" (CrawlMetrics.url r3) issues.
Proof.
  intros crawl issues H1 H2 Hne Ht Hlen.
  split; [| split].
  - exists (new_issue (CrawlMetrics.url r1) "Duplicate Title Tags" "High" "Content").
    split; [| split; reflexivity].
    apply duplicate_title_issues; [reflexivity |].
    exists n1, n2, r1, r2. tauto.
  - exists (new_issue (CrawlMetrics.url r2) "Duplicate Title Tags" "High" "Content").
    split; [| split; reflexivity].
    apply duplicate_title_issues; [reflexivity |].
    exists n2, n1, r2, r1. rewrite <- Ht. repeat split; auto.
  - intros n3 r3 H3 Huniq (issue & Hin & Hurl & Hty).
    apply (duplicate_title_issues audit_results issue Hty) in Hin.
    destruct Hin as (n & m & c & c' & Hnm & Hn & Hm & Htt & _ & ->).
    simpl in Hurl. fold crawl in Hn, Hm.
    destruct (decide (n = n3)) as [-> | Hn3].
    + rewrite H3 in Hn. injection Hn as <-.
      destruct (Huniq m c' ltac:(auto) Hm) as [Hdiff _]. congruence.
    + destruct (Huniq n c Hn3 Hn) as [_ Hdiff]. congruence.
Qed.


(** C7: in crawl data as [crawl_url] builds it, two records at different
    positions whose titles are identical and longer than 10 characters
    (so non-empty) each receive a 'Duplicate Title Tags' issue on their
    url, and a record whose title and whose url are those of no other
    record receives none. *)
Theorem C7_duplicate_titles (audit_results : AuditResults.t)
    (n1 n2 : nat) (r1 r2 : CrawlMetrics.t) :
  let crawl := AuditResults.crawl_data audit_results in
  let issues := _analyze_issues audit_results in
  Forall as_crawled crawl ->
  crawl !! n1 = Some r1 -> crawl !! n2 = Some r2 -> n1 <> n2 ->
  CrawlMetrics.title r1 = CrawlMetrics.title r2 ->
  10 < PyStr.len (CrawlMetrics.title r1) ->
  receives "Duplicate Title Tags" (CrawlMetrics.url r1) issues
  /\ receives "Duplicate Title Tags" (CrawlMetrics.url r2) issues
  /\ forall (n3 : nat) (r3 : CrawlMetrics.t),
      crawl !! n3 = Some r3 ->
      (forall k c, k <> n3 -> crawl !! k = Some c ->
                   CrawlMetrics.title c <> CrawlMetrics.title r3
                   /\ CrawlMetrics.url c <> CrawlMetrics.url r3) ->
      ~ receives "Duplicate Title Tags" (CrawlMetrics.url r3) issues.
Proof.
  intros crawl issues Hall H1 H2 Hne Ht Hlen.
  assert (Htt : forall k c, crawl !! k = Some c -> title_text c = CrawlMetrics.title c).
  { intros k c Hk. rewrite List.Forall_forall in Hall. apply Hall.
    apply list_elem_of_In. exact (list_elem_of_lookup_2 _ _ _ Hk). }
  destruct (duplicate_titles_stripped audit_results n1 n2 r1 r2 H1 H2 Hne)
    as (Ha & Hb & Hc).
  - rewrite (Htt n1 r1 H1), (Htt n2 r2 H2). exact Ht.
  - rewrite (Htt n1 r1 H1). exact Hlen.
  - split; [exact Ha | split; [exact Hb |]].
    intros n3 r3 H3 Huniq. apply (Hc n3 r3 H3).
    intros k c Hk Hl. destruct (Huniq k c Hk Hl) as [Htitle Hurl].
    fold crawl in Htt. rewrite (Htt k c Hl), (Htt n3 r3 H3). split; assumption.
Qed.

(** C7 on three records, the first and the last sharing their title. *)
Lemma C7_duplicate_titles_witness :
  let r1 := CrawlMetrics.mk "https://x.com/a" 200 (PyFloat.tenths 10) "A shared title" "" []
                            None "" 5 0 0 100 in
  let r2 := CrawlMetrics.mk "https://x.com/b" 200 (PyFloat.tenths 10) "A shared title" "" []
                            None "" 5 0 0 100 in
  let r3 := CrawlMetrics.mk "https://x.com/c" 200 (PyFloat.tenths 10) "Another title" "" []
                            None "" 5 0 0 100 in
  let issues := _analyze_issues (AuditResults.mk [] [r1; r3; r2] [] []) in
  receives "Duplicate Title Tags" "https://x.com/a" issues
  /\ receives "Duplicate Title Tags" "https://x.com/b" issues
  /\ (receives "Duplicate Title Tags" "https://x.com/c" issues -> False).
Proof.
  intros r1 r2 r3 issues.
  destruct (C7_duplicate_titles (AuditResults.mk [] [r1; r3; r2] [] []) 0 2 r1 r2)
    as (Ha & Hb & Hc);
    [repeat constructor | reflexivity | reflexivity | discriminate | reflexivity
    | vm_compute; reflexivity |].
  split; [exact Ha | split; [exact Hb |]].
  apply (Hc 1%nat r3); [reflexivity |].
  intros [| [| [| k]]] c Hk Hl; try congruence; try discriminate;
    injection Hl as <-; split; discriminate.
Defined.

(** ** The team router *)

Lemma team_of_cases (issue_type : string) :
  team_of issue_type
  = if team_matches issue_type tech_issue_types then "tech_team"
    else if team_matches issue_type marketing_issue_types then "marketing_team"
    else if team_matches issue_type design_issue_types then "design_team"
    else "tech_team".
Proof.
  unfold team_of, team_categories.
  cbn [List.find snd fst TeamData.issue_types new_team].
  destruct (team_matches issue_type tech_issue_types); [reflexivity |].
  destruct (team_matches issue_type marketing_issue_types); [reflexivity |].
  destruct (team_matches issue_type design_issue_types); reflexivity.
Qed.

Lemma append_issue_issue_types (l : list Issue.t) (data : TeamData.t) :
  TeamData.issue_types (fold_left append_issue l data) = TeamData.issue_types data.
Proof.
  revert data. induction l as [| i l IH]; intros data; simpl; [reflexivity |].
  rewrite IH. reflexivity.
Qed.

Lemma append_issue_issues (l : list Issue.t) (data : TeamData.t) :
  TeamData.issues (fold_left append_issue l data) = TeamData.issues data ++ l.
Proof.
  revert data. induction l as [| i l IH]; intros data; simpl.
  - symmetry. apply app_nil_r.
  - rewrite IH. simpl. rewrite <- app_assoc. reflexivity.
Qed.

Ltac eval_key_tests :=
  repeat match goal with
         | |- context [String.eqb ?a ?b] =>
             let v := eval vm_compute in (String.eqb a b) in
             change (String.eqb a b) with v
         end.

(** The buckets after the categorisation loop: each holds, in order, the
    issues routed to its key. *)
Lemma categorize_fold (issues : list Issue.t) :
  fold_left categorize_issue issues team_categories
  = map (fun entry => (fst entry, fold_left append_issue (routed (fst entry) issues) (snd entry)))
        team_categories.
Proof.
  induction issues as [| x l IH] using rev_ind.
  - reflexivity.
  - rewrite fold_left_app, IH. cbn [fold_left].
    unfold team_categories. cbn [map fst snd].
    unfold categorize_issue. cbn [append_to_first_match].
    rewrite !append_issue_issue_types. cbn [new_team TeamData.issue_types].
    unfold routed. rewrite !List.filter_app. cbn [List.filter].
    rewrite team_of_cases.
    destruct (team_matches (Issue.issue_type x) tech_issue_types);
      [| destruct (team_matches (Issue.issue_type x) marketing_issue_types);
         [| destruct (team_matches (Issue.issue_type x) design_issue_types)]];
      eval_key_tests; cbn [option_map append_to_team map fst snd];
      eval_key_tests; rewrite ?app_nil_r, ?fold_left_app; reflexivity.
Qed.

Lemma team_of_keys (issue_type : string) :
  In (team_of issue_type) ["tech_team"; "marketing_team"; "design_team"].
Proof.
  rewrite team_of_cases.
  destruct (team_matches issue_type tech_issue_types); [in_list |].
  destruct (team_matches issue_type marketing_issue_types); [in_list |].
  destruct (team_matches issue_type design_issue_types); in_list.
Qed.

(** The bucket a key names in the result holds the issues routed to it. *)
Lemma categorize_buckets (issues : list Issue.t) (key : string) :
  bucket key (_categorize_issues_by_team issues) = routed key issues.
Proof.
  unfold _categorize_issues_by_team. rewrite categorize_fold.
  unfold team_categories, bucket. cbn [map fst snd List.find].
  destruct (String.eqb "tech_team" key) eqn:E1;
    [| destruct (String.eqb "marketing_team" key) eqn:E2;
       [| destruct (String.eqb "design_team" key) eqn:E3]];
    cbn [fst snd team_metrics TeamData.issues].
  - apply String.eqb_eq in E1. subst key. rewrite append_issue_issues. reflexivity.
  - apply String.eqb_eq in E2. subst key. rewrite append_issue_issues. reflexivity.
  - apply String.eqb_eq in E3. subst key. rewrite append_issue_issues. reflexivity.
  - unfold routed. symmetry.
    induction issues as [| x l IH]; [reflexivity |]. cbn [List.filter]. rewrite IH.
    destruct (String.eqb (team_of (Issue.issue_type x)) key) eqn:E; [| reflexivity].
    apply String.eqb_eq in E. subst key.
    pose proof (team_of_keys (Issue.issue_type x)) as Hk. simpl in Hk.
    destruct Hk as [Hk | [Hk | [Hk | []]]]; rewrite <- Hk in *;
      rewrite String.eqb_refl in *; discriminate.
Qed.

Lemma routed_partition (issues : list Issue.t) :
  Permutation issues
    (routed "tech_team" issues ++ routed "marketing_team" issues
     ++ routed "design_team" issues).
Proof.
  unfold routed. induction issues as [| x l IH]; [constructor |].
  cbn [List.filter].
  pose proof (team_of_keys (Issue.issue_type x)) as Hk. simpl in Hk.
  destruct Hk as [Hk | [Hk | [Hk | []]]]; rewrite <- Hk; eval_key_tests; cbn [app].
  - apply perm_skip, IH.
  - apply Permutation_cons_app, IH.
  - rewrite app_assoc. apply Permutation_cons_app. rewrite <- app_assoc. exact IH.
Qed.

(** C4: the result has the three buckets tech, marketing and design; each
    bucket holds, in order, the issues routed to its key, so the buckets
    together are a rearrangement of the input (none dropped, none repeated)
    and no issue is in two buckets; an issue matching no keyword list is in
    the tech bucket. *)
Theorem C4_team_buckets_partition (issues : list Issue.t) :
  let teams := _categorize_issues_by_team issues in
  map fst teams = ["tech_team"; "marketing_team"; "design_team"]
  /\ (forall key, bucket key teams = routed key issues)
  /\ Permutation issues
       (bucket "tech_team" teams ++ bucket "marketing_team" teams
        ++ bucket "design_team" teams)
  /\ (forall issue key1 key2,
         In issue (bucket key1 teams) -> In issue (bucket key2 teams) -> key1 = key2)
  /\ (forall issue,
         In issue issues ->
         (forall entry, In entry team_categories ->
                        team_matches (Issue.issue_type issue)
                                     (TeamData.issue_types (snd entry)) = false) ->
         In issue (bucket "tech_team" teams)).
Proof.
  intros teams. split; [| split; [| split; [| split]]].
  - unfold teams, _categorize_issues_by_team. rewrite categorize_fold. reflexivity.
  - intros key. apply categorize_buckets.
  - unfold teams. rewrite !categorize_buckets. apply routed_partition.
  - intros issue key1 key2. unfold teams. rewrite !categorize_buckets. unfold routed.
    rewrite !filter_In. intros [_ H1] [_ H2].
    apply String.eqb_eq in H1. apply String.eqb_eq in H2. congruence.
  - intros issue Hin Hnone. unfold teams. rewrite categorize_buckets. unfold routed.
    apply filter_In. split; [exact Hin |].
    apply String.eqb_eq. rewrite team_of_cases.
    pose proof (Hnone _ (or_introl eq_refl)) as H1.
    pose proof (Hnone _ (or_intror (or_introl eq_refl))) as H2.
    pose proof (Hnone _ (or_intror (or_intror (or_introl eq_refl)))) as H3.
    cbn [snd new_team TeamData.issue_types] in H1, H2, H3.
    rewrite H1, H2, H3. reflexivity.
Qed.

(** * Further properties *)

(** ** Stable descending sort and slicing *)

Lemma insert_desc_perm {A : Type} (key : A -> Z) (x : A) (l : list A) :
  Permutation (insert_desc key x l) (x :: l).
Proof.
  induction l as [| y l IH]; simpl; [reflexivity |].
  destruct (key x <? key y); [| reflexivity].
  rewrite IH. apply perm_swap.
Qed.

Lemma sort_desc_perm {A : Type} (key : A -> Z) (l : list A) :
  Permutation (sort_desc key l) l.
Proof.
  induction l as [| x l IH]; simpl; [reflexivity |].
  rewrite insert_desc_perm. apply perm_skip, IH.
Qed.

Lemma insert_desc_sorted {A : Type} (key : A -> Z) (x : A) (l : list A) :
  StronglySorted (fun a b => key b <= key a) l ->
  StronglySorted (fun a b => key b <= key a) (insert_desc key x l).
Proof.
  induction l as [| y l IH]; simpl; intros Hs.
  - repeat constructor.
  - apply StronglySorted_inv in Hs. destruct Hs as [Hs Hy].
    destruct (key x <? key y) eqn:E.
    + apply Z.ltb_lt in E. constructor; [apply IH, Hs |].
      apply List.Forall_forall. intros z Hz.
      apply (Permutation_in _ (insert_desc_perm key x l)) in Hz.
      destruct Hz as [<- | Hz]; [lia |].
      rewrite List.Forall_forall in Hy. apply Hy, Hz.
    + apply Z.ltb_ge in E. constructor; [constructor; assumption |].
      constructor; [exact E |].
      rewrite List.Forall_forall in Hy |- *. intros z Hz. specialize (Hy z Hz). lia.
Qed.

Lemma sort_desc_sorted {A : Type} (key : A -> Z) (l : list A) :
  StronglySorted (fun a b => key b <= key a) (sort_desc key l).
Proof.
  induction l as [| x l IH]; simpl; [constructor | apply insert_desc_sorted, IH].
Qed.

Lemma insert_desc_stable {A : Type} (key : A -> Z) (k : Z) (x : A) (l : list A) :
  List.filter (fun a => key a =? k) (insert_desc key x l)
  = List.filter (fun a => key a =? k) (x :: l).
Proof.
  induction l as [| y l IH]; [reflexivity |].
  cbn [insert_desc]. destruct (key x <? key y) eqn:E; [| reflexivity].
  apply Z.ltb_lt in E. cbn [List.filter] in IH |- *. rewrite IH.
  destruct (key y =? k) eqn:Ey; destruct (key x =? k) eqn:Ex; try reflexivity.
  apply Z.eqb_eq in Ey. apply Z.eqb_eq in Ex. lia.
Qed.

Lemma sort_desc_stable {A : Type} (key : A -> Z) (k : Z) (l : list A) :
  List.filter (fun a => key a =? k) (sort_desc key l)
  = List.filter (fun a => key a =? k) l.
Proof.
  induction l as [| x l IH]; [reflexivity |].
  cbn [sort_desc fold_right]. rewrite insert_desc_stable.
  cbn [List.filter]. fold (sort_desc key l). rewrite IH. reflexivity.
Qed.

Lemma slice_to_firstn {A : Type} (n : Z) (l : list A) :
  exists k, slice_to n l = firstn k l.
Proof. unfold slice_to. destruct (n <? 0); eexists; reflexivity. Qed.

Lemma in_firstn {A : Type} (k : nat) (l : list A) (x : A) :
  In x (firstn k l) -> In x l.
Proof.
  intros H. rewrite <- (firstn_skipn k l). apply in_or_app. left. exact H.
Qed.

Lemma StronglySorted_firstn {A : Type} (R : A -> A -> Prop) (k : nat) (l : list A) :
  StronglySorted R l -> StronglySorted R (firstn k l).
Proof.
  revert k. induction l as [| x l IH]; intros k Hs; destruct k; simpl; try constructor.
  - apply StronglySorted_inv in Hs. apply IH, Hs.
  - apply StronglySorted_inv in Hs. destruct Hs as [_ Hx].
    rewrite List.Forall_forall in Hx |- *. intros z Hz. apply Hx.
    exact (in_firstn _ _ _ Hz).
Qed.

(** ** The Search Console collector *)

Import GoogleSearchConsoleAPI.

(** Every exit of [get_coverage_issues] is a prefix of the rows' metrics
    sorted by decreasing impressions. *)
Lemma get_coverage_issues_cases (response : api_result) (site_url : string) (limit : Z) :
  get_coverage_issues response site_url limit = []
  \/ exists rows coverage_metrics k,
      response = ApiResponse rows
      /\ collect_rows site_url (default [] rows) = Some coverage_metrics
      /\ get_coverage_issues response site_url limit
         = firstn k (sort_desc GSCMetrics.impressions coverage_metrics).
Proof.
  unfold get_coverage_issues. destruct response as [| rows]; [left; reflexivity |].
  destruct (collect_rows site_url (default [] rows)) as [ms |] eqn:E; [| left; reflexivity].
  right. destruct (slice_to_firstn limit (sort_desc GSCMetrics.impressions ms)) as [k Hk].
  exists rows, ms, k. auto.
Qed.

(** X1: The pages returned are in order of decreasing impressions. *)
Theorem get_coverage_issues_sorted (response : api_result) (site_url : string) (limit : Z) :
  StronglySorted (fun a b => GSCMetrics.impressions b <= GSCMetrics.impressions a)
                 (get_coverage_issues response site_url limit).
Proof.
  destruct (get_coverage_issues_cases response site_url limit)
    as [-> | (rows & ms & k & _ & _ & ->)]; [constructor |].
  apply StronglySorted_firstn, sort_desc_sorted.
Qed.

Lemma collect_rows_Forall2 (site_url : string) (rows : list GSCRow.t)
    (coverage_metrics : list GSCMetrics.t) :
  collect_rows site_url rows = Some coverage_metrics <->
  Forall2 (fun row m => metrics_of_row site_url row = Some m) rows coverage_metrics.
Proof.
  revert coverage_metrics. induction rows as [| row rows IH]; intros ms; simpl.
  - split.
    + intros [= <-]. constructor.
    + intros H. inversion H. reflexivity.
  - destruct (metrics_of_row site_url row) as [m |] eqn:Em.
    + destruct (collect_rows site_url rows) as [ms' |] eqn:Ec.
      * split.
        -- intros [= <-]. constructor; [exact Em | apply IH; reflexivity].
        -- intros H. inversion H as [| r m' rs ms'' Hm Hrest]; subst.
           apply IH in Hrest. congruence.
      * split; [discriminate |].
        intros H. inversion H as [| r m' rs ms'' Hm Hrest]; subst.
        apply IH in Hrest. discriminate.
    + split; [discriminate |].
      intros H. inversion H; subst. congruence.
Qed.

(** X2: The pages returned are the top pages: together with the pages left
    out they are the metrics of the rows, each page left out has at most
    the impressions of each page returned, and every page returned carries
    the site as its domain. *)
Theorem get_coverage_issues_top (rows : list GSCRow.t) (site_url : string) (limit : Z)
    (coverage_metrics : list GSCMetrics.t) :
  collect_rows site_url rows = Some coverage_metrics ->
  let top := get_coverage_issues (ApiResponse (Some rows)) site_url limit in
  exists rest,
    Permutation (top ++ rest) coverage_metrics
    /\ Forall2 (fun row m => metrics_of_row site_url row = Some m) rows coverage_metrics
    /\ (forall a b, In a top -> In b rest ->
                    GSCMetrics.impressions b <= GSCMetrics.impressions a)
    /\ Forall (fun m => GSCMetrics.domain m = site_url) top.
Proof.
  intros Hc top. unfold top, get_coverage_issues.
  change (default [] (Some rows)) with rows. rewrite Hc.
  destruct (slice_to_firstn limit (sort_desc GSCMetrics.impressions coverage_metrics))
    as [k ->].
  set (sorted := sort_desc GSCMetrics.impressions coverage_metrics).
  exists (skipn k sorted).
  pose proof (sort_desc_sorted GSCMetrics.impressions coverage_metrics) as Hs.
  fold sorted in Hs.
  split; [| split; [| split]].
  - rewrite firstn_skipn. apply sort_desc_perm.
  - apply collect_rows_Forall2, Hc.
  - rewrite <- (firstn_skipn k sorted) in Hs.
    clearbody sorted. revert Hs. generalize (skipn k sorted) as rest.
    induction (firstn k sorted) as [| x l IH]; intros rest Hs a b Ha Hb; [destruct Ha |].
    simpl in Hs. apply StronglySorted_inv in Hs. destruct Hs as [Hs Hx].
    destruct Ha as [<- | Ha].
    + rewrite List.Forall_forall in Hx. apply Hx. apply in_or_app. right. exact Hb.
    + exact (IH rest Hs a b Ha Hb).
  - apply List.Forall_forall. intros m Hm.
    apply in_firstn in Hm.
    apply (Permutation_in _ (sort_desc_perm _ _)) in Hm.
    apply collect_rows_Forall2 in Hc.
    clear -Hc Hm. induction Hc as [| row m' rows ms Hrow _ IH]; [destruct Hm |].
    destruct Hm as [<- | Hm]; [| exact (IH Hm)].
    unfold metrics_of_row in Hrow. destruct (page_url_of row); [| discriminate].
    injection Hrow as <-. reflexivity.
Qed.

(** [get_coverage_issues_top] on three rows and a limit of 2. *)
Lemma get_coverage_issues_top_witness :
  let row := fun (u : string) (i : Z) => GSCRow.mk (Some [u]) (Some 1) (Some i) None None in
  let rows := [row "https://x.com/a" 5; row "https://x.com/b" 9; row "https://x.com/c" 7] in
  map GSCMetrics.url (get_coverage_issues (ApiResponse (Some rows)) "sc-domain:x.com" 2)
  = ["https://x.com/b"; "https://x.com/c"]
  /\ exists coverage_metrics rest,
      Permutation
        (get_coverage_issues (ApiResponse (Some rows)) "sc-domain:x.com" 2 ++ rest)
        coverage_metrics
      /\ length rest = 1%nat.
Proof.
  intros row rows. split; [vm_compute; reflexivity |].
  destruct (collect_rows "sc-domain:x.com" rows) as [ms |] eqn:E; [| discriminate].
  destruct (get_coverage_issues_top rows "sc-domain:x.com" 2 ms E) as (rest & Hp & _).
  exists ms, rest. split; [exact Hp |].
  apply Permutation_length in Hp. rewrite length_app in Hp.
  injection E as <-. simpl in Hp. lia.
Defined.



Lemma collect_rows_abort (site_url : string) (rows : list GSCRow.t) (row : GSCRow.t) :
  In row rows -> metrics_of_row site_url row = None -> collect_rows site_url rows = None.
Proof.
  intros Hin Hrow. induction rows as [| r rows IH]; [destruct Hin |].
  simpl. destruct Hin as [-> | Hin].
  - rewrite Hrow. reflexivity.
  - destruct (metrics_of_row site_url r); [| reflexivity].
    rewrite (IH Hin). reflexivity.
Qed.

(** X4: One row whose ['keys'] list is empty makes the collector return no
    page at all: the [IndexError] leaves the loop and is swallowed by the
    handler, whatever the other rows hold. *)
Theorem get_coverage_issues_empty_keys (rows : option (list GSCRow.t)) (row : GSCRow.t)
    (site_url : string) (limit : Z) :
  In row (default [] rows) ->
  GSCRow.keys row = Some [] ->
  get_coverage_issues (ApiResponse rows) site_url limit = [].
Proof.
  intros Hin Hkeys. unfold get_coverage_issues.
  rewrite (collect_rows_abort site_url _ row Hin); [reflexivity |].
  unfold metrics_of_row, page_url_of. rewrite Hkeys. reflexivity.
Qed.

(** [get_coverage_issues_empty_keys] with a well-formed row before the
    broken one. *)
Lemma get_coverage_issues_empty_keys_witness :
  get_coverage_issues
    (ApiResponse (Some [ GSCRow.mk (Some ["https://x.com/a"]) (Some 3) (Some 900) None None;
                         GSCRow.mk (Some []) (Some 1) (Some 5) None None ]))
    "sc-domain:x.com" 10
  = [].
Proof.
  apply (get_coverage_issues_empty_keys _ (GSCRow.mk (Some []) (Some 1) (Some 5) None None));
    [right; left; reflexivity | reflexivity].
Defined.

Lemma filter_firstn_prefix {A : Type} (f : A -> bool) (k : nat) (l : list A) :
  exists tail, List.filter f l = List.filter f (firstn k l) ++ tail.
Proof.
  exists (List.filter f (skipn k l)).
  rewrite <- List.filter_app, firstn_skipn. reflexivity.
Qed.

(** X5: Pages with equal impressions are returned in the order of the
    response: among them only pages from the end of that order are left
    out. *)
Theorem get_coverage_issues_stable (response : api_result) (site_url : string) (limit : Z)
    (rows : option (list GSCRow.t)) (coverage_metrics : list GSCMetrics.t) (k : Z) :
  response = ApiResponse rows ->
  collect_rows site_url (default [] rows) = Some coverage_metrics ->
  exists tail,
    List.filter (fun m => GSCMetrics.impressions m =? k) coverage_metrics
    = List.filter (fun m => GSCMetrics.impressions m =? k)
                  (get_coverage_issues response site_url limit)
      ++ tail.
Proof.
  intros -> Hc. unfold get_coverage_issues. rewrite Hc.
  destruct (slice_to_firstn limit (sort_desc GSCMetrics.impressions coverage_metrics))
    as [n ->].
  rewrite <- (sort_desc_stable GSCMetrics.impressions k coverage_metrics).
  apply filter_firstn_prefix.
Qed.

(** [get_coverage_issues_stable] on a tie of three pages and a limit
    of 2. *)
Lemma get_coverage_issues_stable_witness :
  let row := fun (u : string) (i : Z) => GSCRow.mk (Some [u]) (Some 1) (Some i) None None in
  let rows := [row "https://x.com/a" 7; row "https://x.com/b" 7; row "https://x.com/c" 7] in
  map GSCMetrics.url (get_coverage_issues (ApiResponse (Some rows)) "sc-domain:x.com" 2)
  = ["https://x.com/a"; "https://x.com/b"]
  /\ exists coverage_metrics tail,
      List.filter (fun m => GSCMetrics.impressions m =? 7) coverage_metrics
      = List.filter (fun m => GSCMetrics.impressions m =? 7)
                    (get_coverage_issues (ApiResponse (Some rows)) "sc-domain:x.com" 2)
        ++ tail.
Proof.
  intros row rows. split; [vm_compute; reflexivity |].
  destruct (collect_rows "sc-domain:x.com" rows) as [ms |] eqn:E; [| discriminate].
  exists ms.
  exact (get_coverage_issues_stable (ApiResponse (Some rows)) "sc-domain:x.com" 2
           (Some rows) ms 7 eq_refl E).
Defined.

Lemma dict_set_keys {V : Type} (d : list (string * V)) (k : string) (v : V) :
  map fst (dict_set d k v)
  = if existsb (String.eqb k) (map fst d) then map fst d else map fst d ++ [k].
Proof.
  induction d as [| [k' v'] d IH]; simpl; [reflexivity |].
  rewrite (String.eqb_sym k k').
  destruct (String.eqb k' k) eqn:E; simpl; [reflexivity |].
  rewrite IH. destruct (existsb (String.eqb k) (map fst d)); reflexivity.
Qed.

Lemma dict_set_NoDup {V : Type} (d : list (string * V)) (k : string) (v : V) :
  NoDup (map fst d) -> NoDup (map fst (dict_set d k v)).
Proof.
  intros H. rewrite dict_set_keys.
  destruct (existsb (String.eqb k) (map fst d)) eqn:E; [exact H |].
  apply NoDup_app. split; [exact H |]. split; [| apply NoDup_singleton].
  intros x Hx Hk. apply list_elem_of_In in Hx, Hk. destruct Hk as [<- | []].
  assert (Hex : existsb (String.eqb k) (map fst d) = true).
  { apply existsb_exists. exists k. split; [exact Hx | apply String.eqb_refl]. }
  congruence.
Qed.

Lemma dict_set_In {V : Type} (d : list (string * V)) (k : string) (v : V)
    (k' : string) (v' : V) :
  In (k', v') (dict_set d k v) -> (k' = k /\ v' = v) \/ In (k', v') d.
Proof.
  induction d as [| [k0 v0] d IH]; simpl.
  - intros [[= <- <-] | []]. left. split; reflexivity.
  - destruct (String.eqb k0 k) eqn:E; simpl.
    + apply String.eqb_eq in E. subst k0.
      intros [[= <- <-] | H]; [left; split; reflexivity | right; right; exact H].
    + intros [H | H]; [right; left; exact H |].
      destruct (IH H) as [H' | H']; [left; exact H' | right; right; exact H'].
Qed.

(** X6: The coverage dictionary has one entry per requested site, and the
    entry of a site holds the pages [get_coverage_issues] returns for
    it. *)
Theorem get_multi_domain_coverage_entries (query : string -> api_result)
    (site_urls : list string) (limit : Z) :
  let all_coverage_data := get_multi_domain_coverage query site_urls limit in
  NoDup (map fst all_coverage_data)
  /\ (forall site_url, In site_url (map fst all_coverage_data) <-> In site_url site_urls)
  /\ (forall site_url coverage_data,
         In (site_url, coverage_data) all_coverage_data ->
         coverage_data = get_coverage_issues (query site_url) site_url limit).
Proof.
  cbv zeta. unfold get_multi_domain_coverage.
  assert (H : forall sites d,
             NoDup (map fst d) ->
             (forall s v, In (s, v) d -> v = get_coverage_issues (query s) s limit) ->
             let r := fold_left (fun all s =>
                                   dict_set all s (get_coverage_issues (query s) s limit))
                                sites d in
             NoDup (map fst r)
             /\ (forall s, In s (map fst r) <-> In s (map fst d) \/ In s sites)
             /\ (forall s v, In (s, v) r -> v = get_coverage_issues (query s) s limit)).
  { induction sites as [| site sites IH]; intros d Hnd Hd; simpl.
    - split; [exact Hnd |]. split; [intros s; tauto | exact Hd].
    - destruct (IH (dict_set d site (get_coverage_issues (query site) site limit)))
        as (H1 & H2 & H3).
      + apply dict_set_NoDup, Hnd.
      + intros s v Hin. apply dict_set_In in Hin.
        destruct Hin as [[-> ->] | Hin]; [reflexivity | exact (Hd s v Hin)].
      + split; [exact H1 |]. split; [| exact H3].
        intros s. rewrite H2, dict_set_keys.
        destruct (existsb (String.eqb site) (map fst d)) eqn:E.
        * apply existsb_exists in E. destruct E as (x & Hx & Ex).
          apply String.eqb_eq in Ex. subst x.
          split; [tauto |]. intros [H | [<- | H]]; tauto.
        * rewrite in_app_iff. simpl. split.
          -- intros [[H | [<- | []]] | H]; tauto.
          -- intros [H | [<- | H]]; tauto. }
  destruct (H site_urls [] ltac:(constructor) (fun s v (F : In (s, v) []) => match F with end))
    as (H1 & H2 & H3).
  split; [exact H1 |]. split; [| exact H3].
  intros s. rewrite (H2 s). simpl. tauto.
Qed.

(** ** The per-page rules *)

Import TechnicalSEOAuditor.

Ltac split_in H :=
  lazymatch type of H with
  | _ \/ _ => destruct H as [H | H]; [split_in H | split_in H]
  | In _ (_ ++ _) => apply in_app_or in H; split_in H
  | In _ (when ?b _) => unfold when in H; destruct b eqn:?; split_in H
  | In _ (if ?b then _ else _) => destruct b eqn:?; split_in H
  | In _ (match ?x with _ => _ end) => destruct x eqn:?; split_in H
  | In _ [] => destruct H
  | In _ (_ :: _) => destruct H as [H | H]; [| split_in H]
  | False => destruct H
  | _ => idtac
  end.

(** X7: For one record the rules fire in a fixed order and each at most once:
    the issue types appended are a subsequence of the list of crawl issue
    types, and every issue carries the url of the record. *)
Theorem analyze_crawl_record_in_rule_order (c : CrawlMetrics.t) :
  sublist (map Issue.issue_type (analyze_crawl_record c)) crawl_issue_types
  /\ Forall (fun issue => Issue.url issue = CrawlMetrics.url c) (analyze_crawl_record c).
Proof.
  split.
  - unfold analyze_crawl_record. cbv zeta. rewrite !map_app.
    change crawl_issue_types with
      (["HTTP Error"] ++ ["Slow Response Time"] ++ ["Missing Title Tag"]
       ++ ["Missing Meta Description"] ++ ["Missing H1 Tag"; "Multiple H1 Tags"]
       ++ ["Images Without Alt Text"] ++ ["Large Page Size"] ++ ["Thin Content"]
       ++ ["Short Title Tag"; "Long Title Tag"; "Generic Title Tag"]
       ++ ["Short Meta Description"; "Long Meta Description"]
       ++ ["Missing Canonical Tag"; "Invalid Canonical URL"]
       ++ ["Insufficient Internal Links"] ++ ["Excessive External Links"]
       ++ ["Blocked by Robots Meta"]).
    repeat (apply sublist_app);
      unfold when;
      repeat match goal with
             | |- context [if ?b then _ else _] => destruct b
             | |- context [match ?x with _ => _ end] => destruct x
             end;
      simpl; repeat first [apply sublist_nil | apply sublist_skip | apply sublist_cons].
  - apply analyze_crawl_record_Forall. intros t sev cat _ _. reflexivity.
Qed.

Ltac close_rules :=
  repeat match goal with
         | H : new_issue _ _ _ _ = ?i |- _ => subst i
         | H : Issue.issue_type (new_issue _ _ _ _) = _ |- _ =>
             cbn [Issue.issue_type new_issue] in H; try discriminate H; clear H
         | H : _ = Issue.issue_type (new_issue _ _ _ _) |- _ =>
             cbn [Issue.issue_type new_issue] in H; try discriminate H; clear H
         end;
  repeat match goal with
         | H : negb ?b = true |- _ => apply negb_true_iff in H
         | H : negb ?b = false |- _ => apply negb_false_iff in H
         | H : andb _ _ = true |- _ => apply andb_true_iff in H; destruct H
         end;
  try congruence.

Lemma exclusive_rules_never_both (c : CrawlMetrics.t) (i1 i2 : Issue.t) :
  In i1 (analyze_crawl_record c) -> In i2 (analyze_crawl_record c) ->
  In (Issue.issue_type i1, Issue.issue_type i2) exclusive_rules ->
  False.
Proof.
  intros H1 H2 Hpair. unfold exclusive_rules in Hpair. simpl in Hpair.
  unfold analyze_crawl_record in H1, H2. cbv zeta in H1, H2.
  repeat match type of Hpair with
         | _ \/ _ => destruct Hpair as [Hpair | Hpair]
         end;
    try (injection Hpair as Ht1 Ht2; split_in H1; close_rules; split_in H2; close_rules);
    try destruct Hpair.
Qed.

(** X8: For one record, rules on the same field exclude one another: a
    missing title excludes the three title-quality issues, a short title a
    long one, and likewise for the meta description, the H1 tags and the
    canonical url. *)
Theorem analyze_crawl_record_exclusive (c : CrawlMetrics.t) (i1 i2 : Issue.t) :
  In i1 (analyze_crawl_record c) -> In i2 (analyze_crawl_record c) ->
  existsb (fun pair => String.eqb (fst pair) (Issue.issue_type i1)
                       && String.eqb (snd pair) (Issue.issue_type i2))
          exclusive_rules
  = false.
Proof.
  intros H1 H2.
  destruct (existsb _ exclusive_rules) eqn:E; [exfalso | reflexivity].
  apply existsb_exists in E. destruct E as ([t1 t2] & Hin & Ht).
  apply andb_true_iff in Ht. destruct Ht as [Ht1 Ht2].
  apply String.eqb_eq in Ht1. apply String.eqb_eq in Ht2. simpl in Ht1, Ht2. subst t1 t2.
  exact (exclusive_rules_never_both c i1 i2 H1 H2 Hin).
Qed.

(** [analyze_crawl_record_exclusive] on a record without title: it gets
    'Missing Title Tag' and 'Thin Content', a pair that is not excluded. *)
Lemma analyze_crawl_record_exclusive_witness :
  let c := CrawlMetrics.mk "https://x.com/" 200 (PyFloat.tenths 10) "" "" [] None ""
                           5 0 0 100 in
  existsb (fun pair => String.eqb (fst pair) "Missing Title Tag"
                       && String.eqb (snd pair) "Thin Content")
          exclusive_rules
  = false.
Proof.
  intros c.
  apply (analyze_crawl_record_exclusive c
           (new_issue "https://x.com/" "Missing Title Tag" "High" "Content")
           (new_issue "https://x.com/" "Thin Content" "High" "Content"));
    vm_compute; auto 10.
Defined.

(** An issue of a crawl issue type is in the result exactly when the
    first loop appended it for some crawl record. *)
Lemma crawl_issue_origin (audit_results : AuditResults.t) (issue : Issue.t) :
  In (Issue.issue_type issue) crawl_issue_types ->
  In issue (_analyze_issues audit_results)
  <-> exists c, In c (AuditResults.crawl_data audit_results)
                /\ In issue (analyze_crawl_record c).
Proof.
  intros Hty.
  set (other := fun j : Issue.t => ~ In (Issue.issue_type j) crawl_issue_types).
  assert (Hother : forall t, In t (duplicate_issue_types ++ schema_issue_types
                                   ++ gsc_issue_types) ->
                             ~ In t crawl_issue_types).
  { intros t Ht Hc. simpl in Ht, Hc.
    repeat match type of Ht with
           | _ \/ _ => destruct Ht as [<- | Ht]
           end; try destruct Ht; intuition discriminate. }
  destruct (analyze_issues_structure audit_results) as (gsc_added & -> & Hg).
  destruct (duplicate_pass_appends (AuditResults.crawl_data audit_results)
              (crawl_pass (AuditResults.crawl_data audit_results) []))
    as (dups & -> & Hd).
  assert (Hdups : Forall other dups).
  { apply Hd. intros c t sev _ Ht. unfold other. simpl Issue.issue_type.
    apply Hother. apply in_or_app. left. exact Ht. }
  assert (Hschema : Forall other
                      (flat_map analyze_schema_data (AuditResults.schema_data audit_results))).
  { apply Forall_flat_map, List.Forall_forall. intros s _.
    apply analyze_schema_data_Forall. intros u t sev _ Ht. unfold other.
    simpl Issue.issue_type. apply Hother. apply in_or_app. right.
    apply in_or_app. left. exact Ht. }
  assert (Hgsc : Forall other gsc_added).
  { apply Hg. intros entry g t sev _ _ Ht. unfold other. simpl Issue.issue_type.
    apply Hother. do 2 (apply in_or_app; right). exact Ht. }
  rewrite List.Forall_forall in Hdups, Hschema, Hgsc.
  rewrite crawl_pass_eq, !in_app_iff, in_flat_map. simpl. split.
  - intros [[[[] | H] | H] | [H | H]]; [exact H | | |]; exfalso.
    + exact (Hdups _ H Hty).
    + exact (Hschema _ H Hty).
    + exact (Hgsc _ H Hty).
  - intros H. left. left. right. exact H.
Qed.

(** X9: A url receives 'Missing Title Tag' exactly when a crawl record of it
    has an empty title, and 'Missing Meta Description' exactly when a crawl
    record of it has an empty meta description; the former issues are of
    severity 'High', the latter 'Medium'. *)
Theorem missing_title_and_meta (audit_results : AuditResults.t) (url : string) :
  let issues := _analyze_issues audit_results in
  let crawl := AuditResults.crawl_data audit_results in
  (In (new_issue url "Missing Title Tag" "High" "Content") issues
   <-> exists c, In c crawl /\ CrawlMetrics.url c = url /\ CrawlMetrics.title c = "")
  /\ (In (new_issue url "Missing Meta Description" "Medium" "Content") issues
      <-> exists c, In c crawl /\ CrawlMetrics.url c = url
                    /\ CrawlMetrics.meta_description c = "")
  /\ (forall issue, In issue issues ->
        (Issue.issue_type issue = "Missing Title Tag" -> Issue.severity issue = "High")
        /\ (Issue.issue_type issue = "Missing Meta Description" ->
            Issue.severity issue = "Medium")).
Proof.
  intros issues crawl. unfold issues. split; [| split].
  - rewrite crawl_issue_origin by in_list. split.
    + intros (c & Hc & H). exists c. split; [exact Hc |].
      unfold analyze_crawl_record in H. cbv zeta in H. split_in H;
        try (injection H as Hu; try discriminate).
      destruct (CrawlMetrics.title c); [auto | discriminate].
    + intros (c & Hc & <- & Ht). exists c. split; [exact Hc |].
      unfold analyze_crawl_record. cbv zeta. rewrite Ht.
      apply in_or_app. right. apply in_or_app. right. apply in_or_app. left.
      left. reflexivity.
  - rewrite crawl_issue_origin by in_list. split.
    + intros (c & Hc & H). exists c. split; [exact Hc |].
      unfold analyze_crawl_record in H. cbv zeta in H. split_in H;
        try (injection H as Hu; try discriminate).
      destruct (CrawlMetrics.meta_description c); [auto | discriminate].
    + intros (c & Hc & <- & Ht). exists c. split; [exact Hc |].
      unfold analyze_crawl_record. cbv zeta. rewrite Ht.
      do 3 (apply in_or_app; right). apply in_or_app. left.
      left. reflexivity.
  - intros issue Hin. split; intros Hty.
    + apply crawl_issue_origin in Hin; [| rewrite Hty; in_list].
      destruct Hin as (c & _ & H).
      unfold analyze_crawl_record in H. cbv zeta in H. split_in H;
        subst issue; try discriminate Hty; reflexivity.
    + apply crawl_issue_origin in Hin; [| rewrite Hty; in_list].
      destruct Hin as (c & _ & H).
      unfold analyze_crawl_record in H. cbv zeta in H. split_in H;
        subst issue; try discriminate Hty; reflexivity.
Qed.

(** ** Well-formed issues *)

Lemma new_issue_well_formed (url t sev cat : string) :
  In t detector_issue_types -> In sev severities -> In cat categories ->
  (cat = "GSC Performance" <-> In t gsc_issue_types) ->
  well_formed (new_issue url t sev cat).
Proof.
  intros Ht Hs Hc Hg. unfold well_formed, new_issue.
  cbn [Issue.issue_type Issue.severity Issue.category Issue.status Issue.impact_score
       Issue.url].
  repeat split; try assumption; apply Hg.
Qed.

Ltac not_gsc :=
  split; [discriminate | simpl; intuition discriminate].

Ltac wf_leaf :=
  apply new_issue_well_formed;
  [ in_list
  | repeat match goal with
           | |- context [if ?b then _ else _] => destruct b
           end; in_list
  | in_list
  | first [not_gsc | split; [intros _; in_list | reflexivity]] ].

Lemma analyze_crawl_record_well_formed (c : CrawlMetrics.t) :
  Forall well_formed (analyze_crawl_record c).
Proof.
  unfold analyze_crawl_record. cbv zeta. forall_pieces; wf_leaf.
Qed.

Lemma analyze_schema_data_well_formed (s : SchemaData.t) :
  Forall well_formed (analyze_schema_data s).
Proof.
  unfold analyze_schema_data.
  destruct (SchemaData.url s) as [u |]; [| constructor].
  cbv zeta. forall_pieces; wf_leaf.
Qed.

Lemma duplicate_pass_well_formed (crawl : list CrawlMetrics.t) (issues : list Issue.t) :
  Forall well_formed issues -> Forall well_formed (duplicate_pass crawl issues).
Proof.
  unfold duplicate_pass.
  assert (Hall : forall m : gmap string string, map_Forall (fun _ _ => True) m)
    by (intros m k v _; exact I).
  assert (H : forall l (ts ms : gmap string string) iss,
             Forall well_formed iss ->
             Forall well_formed (snd (fold_left duplicate_step l (ts, ms, iss)))).
  { induction l as [| c l IH]; intros ts ms iss Hiss; [exact Hiss |].
    cbn [fold_left]. unfold duplicate_step at 2.
    destruct (track_duplicate_appends (fun _ => True) "Duplicate Title Tags" "High" 10
                (CrawlMetrics.url c) (PyStr.strip (CrawlMetrics.title c)) ts iss I (Hall ts))
      as (ts' & a1 & -> & _ & Ha1).
    destruct (track_duplicate_appends (fun _ => True) "Duplicate Meta Descriptions" "Medium"
                20 (CrawlMetrics.url c) (PyStr.strip (CrawlMetrics.meta_description c))
                ms (iss ++ a1) I (Hall ms))
      as (ms' & a2 & -> & _ & Ha2).
    apply IH. repeat (apply Forall_app; split); [exact Hiss | apply Ha1 | apply Ha2];
      intros u _; wf_leaf. }
  apply H.
Qed.

Lemma analyze_gsc_metric_well_formed (issues : list Issue.t) (g : GSCMetrics.t) :
  Forall well_formed issues -> Forall well_formed (analyze_gsc_metric issues g).
Proof.
  intros H. unfold analyze_gsc_metric. cbv zeta.
  repeat (apply Forall_app; split); try exact H; apply Forall_when; wf_leaf.
Qed.

(** The four passes keep the issue list well formed. *)
Lemma analyze_issues_Forall_well_formed (audit_results : AuditResults.t) :
  Forall well_formed (_analyze_issues audit_results).
Proof.
  unfold _analyze_issues. cbv zeta.
  assert (Hgsc : forall gsc issues,
             Forall well_formed issues -> Forall well_formed (gsc_pass gsc issues)).
  { unfold gsc_pass. induction gsc as [| entry gsc IH]; intros issues H; [exact H |].
    simpl. apply IH. generalize dependent issues.
    induction (snd entry) as [| g metrics IHm]; intros issues H; [exact H |].
    simpl. apply IHm, analyze_gsc_metric_well_formed, H. }
  apply Hgsc. rewrite schema_pass_eq. apply Forall_app. split.
  - apply duplicate_pass_well_formed. rewrite crawl_pass_eq. simpl.
    apply Forall_flat_map, List.Forall_forall. intros c _.
    apply analyze_crawl_record_well_formed.
  - apply Forall_flat_map, List.Forall_forall. intros s _.
    apply analyze_schema_data_well_formed.
Qed.

(** X10: Every issue of the analysis is well formed: severity, category and
    status hold values of their enumerations, the type is of the rule set,
    the category 'GSC Performance' goes with the search-performance types
    and only with them, and the impact is the scorer's value for the type
    and the url. *)
Theorem analyze_issues_well_formed (audit_results : AuditResults.t) :
  Forall well_formed (_analyze_issues audit_results).
Proof. exact (analyze_issues_Forall_well_formed audit_results). Qed.

(** X11: The impact of an issue is at least 20: the lowest base severity, 25,
    on the lightest page weight, 2.0. *)
Theorem score_at_least_20 (issue_type url : string) :
  20 <= get_strategic_impact_score issue_type url.
Proof.
  rewrite get_strategic_impact_score_eq. apply Z.leb_le.
  apply (score_for_all (fun base page_type => 20 <=? score_for base page_type)).
  vm_compute. reflexivity.
Qed.

(** X12: On a page classified [about], whose weight is the divisor 2.5, the
    score of an issue type is its base severity. *)
Theorem score_on_about_page (issue_type url : string) :
  classify_page_type url = "about" ->
  get_strategic_impact_score issue_type url = dict_get issue_severity issue_type 50.
Proof.
  intros Hc. rewrite get_strategic_impact_score_eq, Hc.
  pose proof (dict_get_severity_value issue_type) as Hb.
  revert Hb. generalize (dict_get issue_severity issue_type 50). intros base Hb.
  simpl in Hb.
  repeat match type of Hb with
         | _ \/ _ => destruct Hb as [<- | Hb]
         end; try destruct Hb; vm_compute; reflexivity.
Qed.

(** [score_on_about_page] for 'Thin Content' (base 85). *)
Lemma score_on_about_page_witness :
  get_strategic_impact_score "Thin Content" "https://x.com/en/about/team" = 85.
Proof.
  rewrite (score_on_about_page "Thin Content" "https://x.com/en/about/team");
    vm_compute; reflexivity.
Defined.

(** X13: On a homepage every issue type of base severity 50 or more, and
    every issue type unknown to the table, scores 100. *)
Theorem score_saturates_on_homepage (issue_type url : string) :
  classify_page_type url = "homepage" ->
  50 <= dict_get issue_severity issue_type 50 ->
  get_strategic_impact_score issue_type url = 100.
Proof.
  intros Hc. rewrite get_strategic_impact_score_eq, Hc.
  pose proof (dict_get_severity_value issue_type) as Hb.
  revert Hb. generalize (dict_get issue_severity issue_type 50). intros base Hb Hge.
  simpl in Hb.
  repeat match type of Hb with
         | _ \/ _ => destruct Hb as [<- | Hb]
         end; try destruct Hb; try lia; vm_compute; reflexivity.
Qed.

(** [score_saturates_on_homepage] for a type missing from the table. *)
Lemma score_saturates_on_homepage_witness :
  get_strategic_impact_score "Redirect Loop" "https://x.com/" = 100.
Proof.
  apply score_saturates_on_homepage; vm_compute; [reflexivity | discriminate].
Defined.

(** ** Counts of the summary *)

Lemma length_filter_app {A : Type} (f : A -> bool) (l1 l2 : list A) :
  length (List.filter f (l1 ++ l2))
  = (length (List.filter f l1) + length (List.filter f l2))%nat.
Proof. rewrite List.filter_app, length_app. reflexivity. Qed.

Lemma length_filter_perm {A : Type} (f : A -> bool) (l1 l2 : list A) :
  Permutation l1 l2 -> length (List.filter f l1) = length (List.filter f l2).
Proof.
  induction 1 as [| x l l' _ IH | x y l | l l' l'' _ IH1 _ IH2]; simpl.
  - reflexivity.
  - destruct (f x); simpl; rewrite IH; reflexivity.
  - destruct (f x), (f y); reflexivity.
  - rewrite IH1. exact IH2.
Qed.

Lemma severity_counts_add_up (issues : list Issue.t) :
  Forall (fun issue => In (Issue.severity issue) severities) issues ->
  Z.of_nat (length issues)
  = count_severity "Critical" issues + count_severity "High" issues
    + count_severity "Medium" issues + count_severity "Low" issues.
Proof.
  unfold count_severity. induction 1 as [| i l Hi _ IH]; [reflexivity |].
  cbn [List.filter length]. simpl in Hi.
  destruct Hi as [<- | [<- | [<- | [<- | []]]]]; cbn [String.eqb Ascii.eqb Bool.eqb];
    cbn [length]; lia.
Qed.

(** X14: In the summary of an audit run the four severity counts add up to
    [total_issues]: every issue of the analysis has one of the four
    severities. *)
Theorem summary_severity_counts (audit_results : AuditResults.t) :
  let summary := snd (analyze_and_summarize audit_results) in
  Summary.total_issues summary
  = Summary.critical_issues summary + Summary.high_issues summary
    + Summary.medium_issues summary + Summary.low_issues summary.
Proof.
  cbv zeta. unfold analyze_and_summarize. cbv zeta.
  cbn [snd _generate_audit_summary Summary.total_issues Summary.critical_issues
       Summary.high_issues Summary.medium_issues Summary.low_issues AuditResults.issues].
  apply severity_counts_add_up.
  apply List.Forall_impl with (P := well_formed);
    [intros i Hi; apply Hi | apply analyze_issues_Forall_well_formed].
Qed.

Lemma count_category_lookup (issues : list Issue.t) (categories0 : gmap string Z)
    (category : string) :
  fold_left count_category issues categories0 !! category
  = let n := Z.of_nat (length (List.filter
                                 (fun issue => String.eqb (Issue.category issue) category)
                                 issues)) in
    match categories0 !! category with
    | Some k => Some (k + n)
    | None => if n =? 0 then None else Some n
    end.
Proof.
  revert categories0. induction issues as [| i l IH]; intros m; cbv zeta.
  - simpl. destruct (m !! category); [f_equal; lia | reflexivity].
  - cbn [fold_left List.filter]. rewrite IH. cbv zeta. unfold count_category.
    set (n := Z.of_nat (length (List.filter
                                  (fun issue => String.eqb (Issue.category issue) category) l))).
    destruct (String.eqb (Issue.category i) category) eqn:E.
    + apply String.eqb_eq in E. rewrite E, lookup_insert_eq.
      cbn [length]. fold n.
      destruct (m !! category) as [k |]; simpl.
      * f_equal. lia.
      * replace (Z.of_nat (S (length (List.filter
                  (fun issue => String.eqb (Issue.category issue) category) l))))
          with (n + 1) by (unfold n; lia).
        destruct (n + 1 =? 0) eqn:E0; [apply Z.eqb_eq in E0; unfold n in E0; lia |].
        f_equal. lia.
    + apply String.eqb_neq in E. rewrite lookup_insert_ne by exact E. reflexivity.
Qed.

(** X15: The category histogram of the summary is exact: a category carried by
    [n > 0] issues has the count [n], and a category no issue carries has
    no key. *)
Theorem summary_issue_categories (audit_results : AuditResults.t) (category : string) :
  let n := Z.of_nat (length (List.filter
                               (fun issue => String.eqb (Issue.category issue) category)
                               (AuditResults.issues audit_results))) in
  Summary.issue_categories (_generate_audit_summary audit_results) !! category
  = if n =? 0 then None else Some n.
Proof.
  cbv zeta. cbn [_generate_audit_summary Summary.issue_categories].
  rewrite count_category_lookup. cbv zeta. rewrite lookup_empty. reflexivity.
Qed.

(** X16: Without issues the score is 100, whatever pages were crawled, and
    the report grades it 'A+'. *)
Theorem seo_score_without_issues (gsc_data : list (string * list GSCMetrics.t))
    (crawl_data : list CrawlMetrics.t) (schema_data : list SchemaData.t) :
  let summary :=
    _generate_audit_summary (AuditResults.mk gsc_data crawl_data schema_data []) in
  Summary.seo_score summary = PyFloat.of_Z 100
  /\ Report.grade (Summary.seo_score summary) = "A+".
Proof.
  cbv zeta.
  assert (H : Summary.seo_score
                (_generate_audit_summary (AuditResults.mk gsc_data crawl_data schema_data []))
              = PyFloat.of_Z 100).
  { cbn [_generate_audit_summary Summary.seo_score AuditResults.issues
         AuditResults.crawl_data].
    unfold seo_score_of.
    change (total_weighted_impact []) with PyFloat.zero.
    destruct (total_weight [] crawl_data) as [s | [] | | [] m e]; reflexivity. }
  rewrite H. split; reflexivity.
Qed.

(** ** Grouping by url *)

Lemma dict_get_group_issue (page_issues : list (string * list Issue.t)) (issue : Issue.t)
    (url : string) :
  dict_get (group_issue page_issues issue) url []
  = dict_get page_issues url []
    ++ (if String.eqb (Issue.url issue) url then [issue] else []).
Proof.
  induction page_issues as [| [k l] rest IH]; simpl.
  - rewrite (String.eqb_sym url). destruct (String.eqb (Issue.url issue) url); reflexivity.
  - destruct (String.eqb k (Issue.url issue)) eqn:E; simpl.
    + apply String.eqb_eq in E. subst k. rewrite (String.eqb_sym url).
      destruct (String.eqb (Issue.url issue) url); [reflexivity |].
      symmetry. apply app_nil_r.
    + destruct (String.eqb url k) eqn:E'; [| exact IH].
      apply String.eqb_eq in E'. subst k. rewrite String.eqb_sym, E.
      symmetry. apply app_nil_r.
Qed.

Lemma dict_get_group_by_url (issues : list Issue.t) (url : string) :
  dict_get (group_by_url issues) url []
  = List.filter (fun issue => String.eqb (Issue.url issue) url) issues.
Proof.
  unfold group_by_url.
  assert (H : forall acc,
             dict_get (fold_left group_issue issues acc) url []
             = dict_get acc url []
               ++ List.filter (fun issue => String.eqb (Issue.url issue) url) issues).
  { induction issues as [| i l IH]; intros acc; simpl.
    - symmetry. apply app_nil_r.
    - rewrite IH, dict_get_group_issue, <- app_assoc.
      destruct (String.eqb (Issue.url i) url); reflexivity. }
  apply H.
Qed.

Lemma group_issue_keys (page_issues : list (string * list Issue.t)) (issue : Issue.t) :
  map fst (group_issue page_issues issue)
  = if has_issues page_issues (Issue.url issue) then map fst page_issues
    else map fst page_issues ++ [Issue.url issue].
Proof.
  unfold has_issues. induction page_issues as [| [k l] rest IH]; simpl; [reflexivity |].
  destruct (String.eqb k (Issue.url issue)); simpl; [reflexivity |].
  rewrite IH. destruct (existsb _ rest); reflexivity.
Qed.

Lemma has_issues_In (page_issues : list (string * list Issue.t)) (url : string) :
  has_issues page_issues url = true <-> In url (map fst page_issues).
Proof.
  unfold has_issues. rewrite existsb_exists, in_map_iff. split.
  - intros (e & He & Hu). apply String.eqb_eq in Hu. exists e. auto.
  - intros (e & Hu & He). exists e. split; [exact He | apply String.eqb_eq, Hu].
Qed.

Lemma group_by_url_NoDup (issues : list Issue.t) :
  List.NoDup (map fst (group_by_url issues)).
Proof.
  unfold group_by_url.
  assert (H : forall acc, List.NoDup (map fst acc) ->
                          List.NoDup (map fst (fold_left group_issue issues acc))).
  { induction issues as [| i l IH]; intros acc Hacc; [exact Hacc |].
    simpl. apply IH. rewrite group_issue_keys.
    destruct (has_issues acc (Issue.url i)) eqn:E; [exact Hacc |].
    apply List.NoDup_app; [exact Hacc | repeat constructor; simpl; tauto |].
    intros x Hx [<- | []]. apply has_issues_In in Hx. congruence. }
  apply H. constructor.
Qed.

Lemma dict_get_NoDup_In {V : Type} (d : list (string * V)) (k : string) (v dflt : V) :
  List.NoDup (map fst d) -> In (k, v) d -> dict_get d k dflt = v.
Proof.
  induction d as [| [k' v'] d IH]; simpl; intros Hnd Hin; [destruct Hin |].
  inversion Hnd as [| ? ? Hk' Hnd']; subst.
  destruct Hin as [[= -> ->] | Hin].
  - rewrite String.eqb_refl. reflexivity.
  - destruct (String.eqb k k') eqn:E; [| exact (IH Hnd' Hin)].
    apply String.eqb_eq in E. subst k'. exfalso. apply Hk'.
    apply in_map_iff. exists (k, v). auto.
Qed.

(** Keys and entries of [page_issues]. *)
Lemma group_by_url_entries (issues : list Issue.t) :
  List.NoDup (map fst (group_by_url issues))
  /\ forall url url_issues,
      In (url, url_issues) (group_by_url issues)
      <-> url_issues = List.filter (fun issue => String.eqb (Issue.url issue) url) issues
          /\ url_issues <> [].
Proof.
  split; [apply group_by_url_NoDup |].
  intros url url_issues. split.
  - intros Hin.
    pose proof (dict_get_NoDup_In _ _ _ [] (group_by_url_NoDup issues) Hin) as Hget.
    rewrite dict_get_group_by_url in Hget. split; [symmetry; exact Hget |].
    intros ->.
    assert (Hkey : has_issues (group_by_url issues) url = true).
    { apply has_issues_In. apply in_map_iff. exists (url, []). auto. }
    rewrite has_issues_group_by_url in Hkey. apply existsb_exists in Hkey.
    destruct Hkey as (i & Hi & Hu).
    assert (Hf : In i (List.filter (fun issue => String.eqb (Issue.url issue) url) issues))
      by (apply filter_In; auto).
    rewrite Hget in Hf. destruct Hf.
  - intros [-> Hne].
    destruct (List.filter (fun issue => String.eqb (Issue.url issue) url) issues)
      as [| i l] eqn:Ef; [congruence |].
    assert (Hi : In i (List.filter (fun issue => String.eqb (Issue.url issue) url) issues))
      by (rewrite Ef; left; reflexivity).
    apply filter_In in Hi. destruct Hi as [Hi Hu].
    assert (Hkey : has_issues (group_by_url issues) url = true).
    { rewrite has_issues_group_by_url. apply existsb_exists. exists i. auto. }
    apply has_issues_In, in_map_iff in Hkey. destruct Hkey as ([u l'] & Hu' & Hin).
    simpl in Hu'. subst u.
    pose proof (dict_get_NoDup_In _ _ _ [] (group_by_url_NoDup issues) Hin) as Hget.
    rewrite dict_get_group_by_url, Ef in Hget. rewrite Hget. exact Hin.
Qed.

(** X17: [page_issues] partitions the issues by url: its keys are distinct,
    and its entries are exactly the non-empty lists of the issues of one
    url, in the order of the issues. *)
Theorem group_by_url_partition (issues : list Issue.t) :
  List.NoDup (map fst (group_by_url issues))
  /\ forall url url_issues,
      In (url, url_issues) (group_by_url issues)
      <-> url_issues = List.filter (fun issue => String.eqb (Issue.url issue) url) issues
          /\ url_issues <> [].
Proof. exact (group_by_url_entries issues). Qed.

(** ** Strategic insights *)

Lemma high_priority_page_types (url : string) :
  PyFloat.leb (PyFloat.tenths 40) (page_weight url)
  = PyStr.mem (classify_page_type url) ["homepage"; "product"; "category"; "checkout"].
Proof.
  unfold page_weight.
  pose proof (classify_page_type_cases url) as H. simpl in H.
  repeat match type of H with
         | _ \/ _ => destruct H as [<- | H]
         end; try destruct H; vm_compute; reflexivity.
Qed.

Lemma insights_fold (page_issues : list (string * list Issue.t)) (insights : Insights.t) :
  let high_priority := fun entry : string * list Issue.t =>
    PyFloat.leb (PyFloat.tenths 40) (page_weight (fst entry)) in
  let critical := fun entry : string * list Issue.t =>
    existsb (fun issue => String.eqb (Issue.severity issue) "Critical") (snd entry) in
  let result := fold_left insights_step page_issues insights in
  Insights.high_priority_pages_with_issues result
  = Insights.high_priority_pages_with_issues insights
    + Z.of_nat (length (List.filter high_priority page_issues))
  /\ map BusinessImpact.url (Insights.critical_business_impact result)
     = map BusinessImpact.url (Insights.critical_business_impact insights)
       ++ map fst (List.filter (fun entry => high_priority entry && critical entry)
                               page_issues).
Proof.
  cbv zeta. revert insights.
  induction page_issues as [| [u l] rest IH]; intros insights.
  - simpl. split; [lia | symmetry; apply app_nil_r].
  - cbn [fold_left List.filter]. destruct (IH (insights_step insights (u, l))) as [IH1 IH2].
    rewrite IH1, IH2. clear IH IH1 IH2.
    unfold insights_step.
    cbn [fst snd Insights.high_priority_pages_with_issues Insights.critical_business_impact].
    fold (page_weight u).
    assert (Hcrit : existsb (fun issue => String.eqb (Issue.severity issue) "Critical") l
                    = match List.filter
                              (fun issue => String.eqb (Issue.severity issue) "Critical") l with
                      | [] => false
                      | _ => true
                      end).
    { induction l as [| i l IHl]; [reflexivity |]. simpl.
      destruct (String.eqb (Issue.severity i) "Critical"); [reflexivity | exact IHl]. }
    rewrite Hcrit.
    destruct (PyFloat.leb (PyFloat.tenths 40) (page_weight u));
      destruct (List.filter (fun issue => String.eqb (Issue.severity issue) "Critical") l);
      cbn [andb length map app]; rewrite ?map_app, ?app_nil_r, <- ?app_assoc;
      split; try reflexivity; lia.
Qed.

(** X18: A url is listed in [critical_business_impact] exactly when it is
    classified homepage, product, category or checkout and carries an
    issue of severity 'Critical'; [high_priority_pages_with_issues] counts
    the urls with issues that are classified so. *)
Theorem strategic_insights_of_summary (audit_results : AuditResults.t) :
  let issues := AuditResults.issues audit_results in
  let insights := Summary.strategic_insights (_generate_audit_summary audit_results) in
  let high_priority := fun url =>
    PyStr.mem (classify_page_type url) ["homepage"; "product"; "category"; "checkout"] in
  (forall url,
      In url (map BusinessImpact.url (Insights.critical_business_impact insights))
      <-> high_priority url = true
          /\ exists issue, In issue issues /\ Issue.url issue = url
                           /\ Issue.severity issue = "Critical")
  /\ Insights.high_priority_pages_with_issues insights
     = Z.of_nat (length (List.filter high_priority (map fst (group_by_url issues)))).
Proof.
  intros issues insights high_priority. unfold insights.
  cbn [_generate_audit_summary Summary.strategic_insights]. fold issues.
  unfold _get_strategic_insights.
  destruct (insights_fold (group_by_url issues) (Insights.mk 0 ∅ [])) as [Hhp Hcbi].
  cbv zeta in Hhp, Hcbi. rewrite Hhp, Hcbi. clear Hhp Hcbi.
  cbn [Insights.high_priority_pages_with_issues Insights.critical_business_impact map app].
  split.
  - intros url. rewrite in_map_iff. split.
    + intros ([u l] & <- & Hin). apply filter_In in Hin. destruct Hin as [Hin Hcond].
      cbn [fst snd] in *. apply andb_true_iff in Hcond. destruct Hcond as [Hw Hc].
      unfold high_priority. rewrite <- high_priority_page_types. split; [exact Hw |].
      apply existsb_exists in Hc. destruct Hc as (i & Hi & Hs).
      apply (proj2 (group_by_url_entries issues)) in Hin. destruct Hin as [-> _].
      apply filter_In in Hi. destruct Hi as [Hi Hu].
      exists i. split; [exact Hi |]. split; apply String.eqb_eq; assumption.
    + intros (Hw & i & Hi & Hu & Hs).
      exists (url, List.filter (fun issue => String.eqb (Issue.url issue) url) issues).
      split; [reflexivity |].
      assert (Hf : In i (List.filter (fun issue => String.eqb (Issue.url issue) url) issues)).
      { apply filter_In. split; [exact Hi | apply String.eqb_eq, Hu]. }
      apply filter_In. split.
      * apply (proj2 (group_by_url_entries issues)). split; [reflexivity |].
        intros E. rewrite E in Hf. destruct Hf.
      * cbn [fst snd]. apply andb_true_iff. split.
        -- rewrite high_priority_page_types. exact Hw.
        -- apply existsb_exists. exists i. split; [exact Hf | apply String.eqb_eq, Hs].
  - assert (Hlen : forall g : list (string * list Issue.t),
               length (List.filter
                         (fun entry => PyFloat.leb (PyFloat.tenths 40) (page_weight (fst entry)))
                         g)
               = length (List.filter high_priority (map fst g))).
    { induction g as [| [u l] g IH]; [reflexivity |].
      cbn [List.filter map fst]. unfold high_priority at 1.
      rewrite <- high_priority_page_types.
      destruct (PyFloat.leb (PyFloat.tenths 40) (page_weight u)); cbn [length];
        rewrite IH; reflexivity. }
    rewrite Hlen. lia.
Qed.

(** ** Routing the issues of the detector *)

(** The [issue_types] list of the team stored under [key]. *)
Lemma team_lists_of_detector_types (t : string) :
  In t detector_issue_types ->
  forallb (fun entry =>
             Bool.eqb (team_matches t (TeamData.issue_types (snd entry)))
                      (String.eqb (fst entry) (team_of t))
             && Bool.eqb (PyStr.mem t (TeamData.issue_types (snd entry)))
                         (String.eqb (fst entry) (team_of t)))
          team_categories
  = true.
Proof.
  intros Ht. simpl in Ht.
  repeat match type of Ht with
         | _ \/ _ => destruct Ht as [<- | Ht]
         end; try destruct Ht; vm_compute; reflexivity.
Qed.

(** X19: An issue of the analysis is routed by a verbatim listing: its type is
    in the [issue_types] list of exactly one team, that team's bucket
    receives it, and neither the keyword match nor the default to the tech
    team decides. *)
Theorem detector_issues_routed_verbatim (audit_results : AuditResults.t) (issue : Issue.t) :
  In issue (_analyze_issues audit_results) ->
  In issue (bucket (team_of (Issue.issue_type issue))
                   (_categorize_issues_by_team (_analyze_issues audit_results)))
  /\ forall entry,
      In entry team_categories ->
      PyStr.mem (Issue.issue_type issue) (TeamData.issue_types (snd entry))
      = String.eqb (fst entry) (team_of (Issue.issue_type issue))
      /\ team_matches (Issue.issue_type issue) (TeamData.issue_types (snd entry))
         = String.eqb (fst entry) (team_of (Issue.issue_type issue)).
Proof.
  intros Hin. split.
  - rewrite categorize_buckets. unfold routed. apply filter_In.
    split; [exact Hin | apply String.eqb_refl].
  - intros entry He.
    pose proof (analyze_issues_Forall_well_formed audit_results) as Hwf.
    rewrite List.Forall_forall in Hwf. destruct (Hwf issue Hin) as [Hty _].
    pose proof (team_lists_of_detector_types _ Hty) as Hall.
    rewrite forallb_forall in Hall. specialize (Hall entry He).
    apply andb_true_iff in Hall. destruct Hall as [H1 H2].
    apply Bool.eqb_prop in H1. apply Bool.eqb_prop in H2. auto.
Qed.

(** [detector_issues_routed_verbatim] on the issues of a page answering
    503. *)
Lemma detector_issues_routed_verbatim_witness :
  let c := CrawlMetrics.mk "https://x.com/" 503 (PyFloat.tenths 10) "Home" "" [] None ""
                           0 0 0 0 in
  let audit_results := AuditResults.mk [] [c] [] [] in
  let issue := Issue.mk "https://x.com/" "HTTP Error" "Critical" "Crawlability" "New" 100 in
  In issue (bucket "tech_team" (_categorize_issues_by_team (_analyze_issues audit_results))).
Proof.
  intros c audit_results issue.
  apply (proj1 (detector_issues_routed_verbatim audit_results issue
                  ltac:(vm_compute; auto))).
Defined.

Lemma count_severity_app (sev : string) (l1 l2 : list Issue.t) :
  count_severity sev (l1 ++ l2) = count_severity sev l1 + count_severity sev l2.
Proof. unfold count_severity. rewrite length_filter_app. lia. Qed.

Lemma count_severity_perm (sev : string) (l1 l2 : list Issue.t) :
  Permutation l1 l2 -> count_severity sev l1 = count_severity sev l2.
Proof.
  intros H. unfold count_severity. rewrite (length_filter_perm _ _ _ H). reflexivity.
Qed.

(** X20: The metrics of the teams: each bucket's counts are those of its
    issues, its priority score is [critical * 10 + high * 5 + total], and
    over the three teams the totals, the critical counts and the high
    counts add up to those of the whole list. *)
Theorem team_metrics_add_up (issues : list Issue.t) :
  let teams := map snd (_categorize_issues_by_team issues) in
  Forall (fun data =>
            TeamData.total_issues data = Z.of_nat (length (TeamData.issues data))
            /\ TeamData.critical_issues data = count_severity "Critical" (TeamData.issues data)
            /\ TeamData.high_issues data = count_severity "High" (TeamData.issues data)
            /\ TeamData.priority_score data
               = TeamData.critical_issues data * 10 + TeamData.high_issues data * 5
                 + TeamData.total_issues data)
         teams
  /\ fold_right Z.add 0 (map TeamData.total_issues teams) = Z.of_nat (length issues)
  /\ fold_right Z.add 0 (map TeamData.critical_issues teams)
     = count_severity "Critical" issues
  /\ fold_right Z.add 0 (map TeamData.high_issues teams) = count_severity "High" issues.
Proof.
  cbv zeta. unfold _categorize_issues_by_team. rewrite categorize_fold.
  unfold team_categories. cbn [map fst snd].
  cbn [team_metrics TeamData.total_issues TeamData.critical_issues TeamData.high_issues
       TeamData.priority_score TeamData.issues fold_right].
  rewrite !append_issue_issues. cbn [new_team TeamData.issues app].
  pose proof (routed_partition issues) as Hp.
  split; [repeat constructor |].
  split; [| split].
  - rewrite (Permutation_length Hp), !length_app. lia.
  - rewrite (count_severity_perm "Critical" _ _ Hp), !count_severity_app. lia.
  - rewrite (count_severity_perm "High" _ _ Hp), !count_severity_app. lia.
Qed.

(** X21: A team gets an entry in [team_exports] exactly when an issue was
    routed to it, and the issues of the exported teams together are a
    rearrangement of all the issues. *)
Theorem team_exports_cover (issues : list Issue.t) :
  let exports := Report.team_exports (_categorize_issues_by_team issues) in
  (forall key, In key (map fst exports) <-> routed key issues <> [])
  /\ Permutation issues (flat_map (fun entry => TeamData.issues (snd entry)) exports).
Proof.
  cbv zeta. unfold Report.team_exports, _categorize_issues_by_team.
  rewrite categorize_fold. unfold team_categories. cbn [map fst snd].
  cbn [List.filter team_metrics TeamData.total_issues snd].
  rewrite !append_issue_issues. cbn [new_team TeamData.issues app].
  pose proof (routed_partition issues) as Hp.
  assert (Hkeys : forall key, routed key issues <> [] ->
                              key = "tech_team" \/ key = "marketing_team"
                              \/ key = "design_team").
  { intros key Hne. destruct (routed key issues) as [| i l] eqn:E; [congruence |].
    assert (Hi : In i (routed key issues)) by (rewrite E; left; reflexivity).
    unfold routed in Hi. apply filter_In in Hi. destruct Hi as [_ Hk].
    apply String.eqb_eq in Hk. subst key.
    pose proof (team_of_keys (Issue.issue_type i)) as H. simpl in H. intuition auto. }
  assert (Hpos : forall l : list Issue.t,
             (0 <? Z.of_nat (length l)) = match l with [] => false | _ => true end).
  { intros [| i l]; [reflexivity |]. apply Z.ltb_lt. simpl. lia. }
  rewrite !Hpos.
  destruct (routed "tech_team" issues) as [| i1 l1] eqn:E1;
    destruct (routed "marketing_team" issues) as [| i2 l2] eqn:E2;
    destruct (routed "design_team" issues) as [| i3 l3] eqn:E3;
    cbn [map fst snd flat_map team_metrics TeamData.issues];
    rewrite ?append_issue_issues; cbn [new_team TeamData.issues app] in *;
    rewrite ?app_nil_r in *;
    (split; [| exact Hp]);
    intros key; (split;
      [ intros Hk; simpl in Hk;
        repeat match type of Hk with
               | _ \/ _ => destruct Hk as [<- | Hk]
               end; try destruct Hk; congruence
      | intros Hne; destruct (Hkeys key Hne) as [-> | [-> | ->]];
        simpl; solve [auto | congruence] ]).
Qed.

(** ** The search-performance pass *)

Lemma gsc_pass_flat (gsc : list (string * list GSCMetrics.t)) (issues : list Issue.t) :
  gsc_pass gsc issues = fold_left analyze_gsc_metric (flat_map snd gsc) issues.
Proof.
  unfold gsc_pass. revert issues.
  induction gsc as [| entry gsc IH]; intros issues; simpl; [reflexivity |].
  rewrite fold_left_app. apply IH.
Qed.

Lemma filter_when_gsc (url : string) (b : bool) (u t sev : string) :
  List.filter (fun issue => String.eqb (Issue.url issue) url
                            && negb (String.eqb (Issue.category issue) "GSC Performance"))
              (when b (new_issue u t sev "GSC Performance"))
  = [].
Proof.
  destruct b; [| reflexivity]. cbn [when List.filter new_issue Issue.url Issue.category].
  rewrite String.eqb_refl, andb_false_r. reflexivity.
Qed.

Lemma filter_nonempty {A : Type} (f : A -> bool) (l : list A) :
  negb (Nat.eqb (length (List.filter f l)) 0) = existsb f l.
Proof.
  induction l as [| x l IH]; [reflexivity |]. simpl.
  destruct (f x); [reflexivity | exact IH].
Qed.

(** What the loop body appends for one Search Console record. *)
Lemma analyze_gsc_metric_added (issues : list Issue.t) (g : GSCMetrics.t) :
  exists added,
    analyze_gsc_metric issues g = issues ++ added
    /\ (forall i, In i added ->
                  Issue.url i = GSCMetrics.url g
                  /\ Issue.category i = "GSC Performance"
                  /\ 500 < GSCMetrics.impressions g
                  /\ (Issue.issue_type i = "High Traffic Page with Technical Issues" ->
                      1000 < GSCMetrics.impressions g
                      /\ existsb (fun issue =>
                                    String.eqb (Issue.url issue) (GSCMetrics.url g)
                                    && negb (String.eqb (Issue.category issue)
                                                        "GSC Performance"))
                                 issues = true))
    /\ (1000 < GSCMetrics.impressions g ->
        existsb (fun issue =>
                   String.eqb (Issue.url issue) (GSCMetrics.url g)
                   && negb (String.eqb (Issue.category issue) "GSC Performance"))
                issues = true ->
        In (new_issue (GSCMetrics.url g) "High Traffic Page with Technical Issues"
                      "Critical" "GSC Performance")
           added).
Proof.
  unfold analyze_gsc_metric. cbv zeta.
  rewrite !List.filter_app, !filter_when_gsc, !app_nil_r, filter_nonempty.
  set (crossed := existsb _ issues).
  eexists. split; [rewrite <- !app_assoc; reflexivity |].
  split.
  - intros i Hi. split_in Hi; subst i;
      cbn [new_issue Issue.url Issue.category Issue.issue_type];
      repeat match goal with
             | H : andb _ _ = true |- _ => apply andb_true_iff in H; destruct H
             | H : (_ <? _) = true |- _ => apply Z.ltb_lt in H
             end;
      (split; [reflexivity |]); (split; [reflexivity |]); (split; [lia |]);
      intros Ht; try discriminate Ht; split; [lia | assumption].
  - intros Hi Hc. repeat (apply in_or_app; right).
    apply Z.ltb_lt in Hi. rewrite Hc, Hi. left. reflexivity.
Qed.

Lemma existsb_app_gsc (url : string) (base added : list Issue.t) :
  Forall (fun i => Issue.category i = "GSC Performance") added ->
  existsb (fun issue => String.eqb (Issue.url issue) url
                        && negb (String.eqb (Issue.category issue) "GSC Performance"))
          (base ++ added)
  = existsb (fun issue => String.eqb (Issue.url issue) url
                          && negb (String.eqb (Issue.category issue) "GSC Performance"))
            base.
Proof.
  intros H. rewrite existsb_app.
  replace (existsb _ added) with false; [apply orb_false_r |].
  symmetry. induction H as [| i l Hi _ IH]; [reflexivity |].
  simpl. rewrite Hi, String.eqb_refl, andb_false_r. exact IH.
Qed.

(** The search-performance loop over the records [metrics], started on a
    list [base] without search-performance issues. *)
Lemma gsc_fold_char (metrics : list GSCMetrics.t) (base : list Issue.t) :
  let crossed := fun url =>
    existsb (fun issue => String.eqb (Issue.url issue) url
                          && negb (String.eqb (Issue.category issue) "GSC Performance"))
            base in
  exists added,
    fold_left analyze_gsc_metric metrics base = base ++ added
    /\ (forall i, In i added ->
          Issue.category i = "GSC Performance"
          /\ exists g, In g metrics /\ Issue.url i = GSCMetrics.url g
                       /\ 500 < GSCMetrics.impressions g
                       /\ (Issue.issue_type i = "High Traffic Page with Technical Issues" ->
                           1000 < GSCMetrics.impressions g
                           /\ crossed (GSCMetrics.url g) = true))
    /\ (forall g, In g metrics -> 1000 < GSCMetrics.impressions g ->
                  crossed (GSCMetrics.url g) = true ->
                  In (new_issue (GSCMetrics.url g) "High Traffic Page with Technical Issues"
                                "Critical" "GSC Performance")
                     added).
Proof.
  intros crossed.
  assert (H : forall ms added0,
             Forall (fun i => Issue.category i = "GSC Performance") added0 ->
             exists added,
               fold_left analyze_gsc_metric ms (base ++ added0) = base ++ added0 ++ added
               /\ (forall i, In i added ->
                     Issue.category i = "GSC Performance"
                     /\ exists g, In g ms /\ Issue.url i = GSCMetrics.url g
                                  /\ 500 < GSCMetrics.impressions g
                                  /\ (Issue.issue_type i
                                      = "High Traffic Page with Technical Issues" ->
                                      1000 < GSCMetrics.impressions g
                                      /\ crossed (GSCMetrics.url g) = true))
               /\ (forall g, In g ms -> 1000 < GSCMetrics.impressions g ->
                             crossed (GSCMetrics.url g) = true ->
                             In (new_issue (GSCMetrics.url g)
                                           "High Traffic Page with Technical Issues"
                                           "Critical" "GSC Performance")
                                added)).
  { induction ms as [| g ms IH]; intros added0 H0.
    - exists []. rewrite app_nil_r. split; [reflexivity |].
      split; [intros i [] | intros g []].
    - cbn [fold_left].
      destruct (analyze_gsc_metric_added (base ++ added0) g) as (a & -> & Ha & Hht).
      rewrite (existsb_app_gsc _ _ _ H0) in Ha, Hht. fold (crossed (GSCMetrics.url g)) in Ha, Hht.
      destruct (IH (added0 ++ a)) as (a' & E & Ha' & Hht').
      { apply Forall_app. split; [exact H0 |].
        apply List.Forall_forall. intros i Hi. apply (Ha i Hi). }
      exists (a ++ a'). split; [rewrite <- !app_assoc in *; exact E |].
      split.
      + intros i Hi. apply in_app_or in Hi. destruct Hi as [Hi | Hi].
        * destruct (Ha i Hi) as (Hu & Hc & Himp & Hcross).
          split; [exact Hc |]. exists g. split; [left; reflexivity | auto].
        * destruct (Ha' i Hi) as (Hc & g' & Hg' & Hrest).
          split; [exact Hc |]. exists g'. split; [right; exact Hg' | exact Hrest].
      + intros g' [<- | Hg'] Himp Hcross; apply in_or_app.
        * left. exact (Hht Himp Hcross).
        * right. exact (Hht' g' Hg' Himp Hcross). }
  destruct (H metrics [] ltac:(constructor)) as (added & E & H1 & H2).
  rewrite app_nil_r in E. exists added. auto.
Qed.

(** The list the search-performance loop starts from holds no issue of
    the category 'GSC Performance' and no issue of a search-performance
    type. *)
Lemma crawl_side_issues (audit_results : AuditResults.t) :
  let crawl := AuditResults.crawl_data audit_results in
  Forall (fun i => Issue.category i <> "GSC Performance"
                   /\ ~ In (Issue.issue_type i) gsc_issue_types)
         (schema_pass (AuditResults.schema_data audit_results)
                      (duplicate_pass crawl (crawl_pass crawl []))).
Proof.
  intros crawl.
  assert (Hnew : forall u t sev cat,
             In t (crawl_issue_types ++ duplicate_issue_types ++ schema_issue_types) ->
             In cat crawl_categories ->
             Issue.category (new_issue u t sev cat) <> "GSC Performance"
             /\ ~ In (Issue.issue_type (new_issue u t sev cat)) gsc_issue_types).
  { intros u t sev cat Ht Hc. cbn [new_issue Issue.category Issue.issue_type]. split.
    - intros ->. simpl in Hc. intuition discriminate.
    - intros Hg. simpl in Ht, Hg.
      repeat match type of Ht with
             | _ \/ _ => destruct Ht as [<- | Ht]
             end; try destruct Ht; intuition discriminate. }
  apply schema_pass_Forall.
  - destruct (duplicate_pass_appends crawl (crawl_pass crawl [])) as (dups & -> & Hd).
    apply Forall_app. split.
    + apply crawl_pass_Forall; [constructor |].
      intros c t sev cat _ Ht Hc. apply Hnew; [| exact Hc].
      apply in_or_app. left. exact Ht.
    + apply Hd. intros c t sev _ Ht. apply Hnew; [| in_list].
      apply in_or_app. right. apply in_or_app. left. exact Ht.
  - intros s u t sev _ _ Ht. apply Hnew; [| in_list].
    do 2 (apply in_or_app; right). exact Ht.
Qed.

(** X22: A url receives 'High Traffic Page with Technical Issues' exactly when
    Search Console reports more than 1000 impressions for it and the other
    passes raised an issue for it. *)
Theorem gsc_cross_reference (audit_results : AuditResults.t) (url : string) :
  let issues := _analyze_issues audit_results in
  receives "High Traffic Page with Technical Issues" url issues
  <-> (exists g, In g (flat_map snd (AuditResults.gsc_data audit_results))
                 /\ GSCMetrics.url g = url /\ 1000 < GSCMetrics.impressions g)
      /\ (exists issue, In issue issues /\ Issue.url issue = url
                        /\ Issue.category issue <> "GSC Performance").
Proof.
  cbv zeta. unfold _analyze_issues. cbv zeta. rewrite gsc_pass_flat.
  pose proof (crawl_side_issues audit_results) as Hbase. cbv zeta in Hbase.
  set (base := schema_pass _ _) in *.
  destruct (gsc_fold_char (flat_map snd (AuditResults.gsc_data audit_results)) base)
    as (added & -> & Hadded & Hht).
  cbv zeta in Hadded, Hht.
  rewrite List.Forall_forall in Hbase.
  assert (Hcross : forall u,
             existsb (fun issue => String.eqb (Issue.url issue) u
                                   && negb (String.eqb (Issue.category issue)
                                                       "GSC Performance")) base = true
             <-> exists issue, In issue (base ++ added) /\ Issue.url issue = u
                               /\ Issue.category issue <> "GSC Performance").
  { intros u. rewrite existsb_exists. split.
    - intros (i & Hi & Hc). apply andb_true_iff in Hc. destruct Hc as [Hu Hc].
      apply String.eqb_eq in Hu. apply negb_true_iff, String.eqb_neq in Hc.
      exists i. split; [apply in_or_app; left; exact Hi | auto].
    - intros (i & Hi & Hu & Hc). apply in_app_or in Hi. destruct Hi as [Hi | Hi].
      + exists i. split; [exact Hi |]. apply andb_true_iff. split.
        * apply String.eqb_eq, Hu.
        * apply negb_true_iff, String.eqb_neq, Hc.
      + destruct (Hadded i Hi) as [Hg _]. congruence. }
  unfold receives. split.
  - intros (i & Hi & Hu & Ht). apply in_app_or in Hi. destruct Hi as [Hi | Hi].
    + exfalso. apply (proj2 (Hbase i Hi)). rewrite Ht. in_list.
    + destruct (Hadded i Hi) as (_ & g & Hg & Hug & _ & Hrule).
      destruct (Hrule Ht) as [Himp Hc]. split.
      * exists g. split; [exact Hg |]. split; [congruence | exact Himp].
      * apply Hcross. rewrite <- Hu, Hug. exact Hc.
  - intros [(g & Hg & Hu & Himp) Hc]. apply Hcross in Hc. subst url.
    exists (new_issue (GSCMetrics.url g) "High Traffic Page with Technical Issues"
                      "Critical" "GSC Performance").
    split; [| split; reflexivity].
    apply in_or_app. right. exact (Hht g Hg Himp Hc).
Qed.

(** X23: A search-performance issue is only raised for a url for which Search
    Console reports more than 500 impressions. *)
Theorem gsc_issue_needs_impressions (audit_results : AuditResults.t) (issue : Issue.t) :
  In issue (_analyze_issues audit_results) ->
  Issue.category issue = "GSC Performance" ->
  exists g, In g (flat_map snd (AuditResults.gsc_data audit_results))
            /\ GSCMetrics.url g = Issue.url issue
            /\ 500 < GSCMetrics.impressions g.
Proof.
  unfold _analyze_issues. cbv zeta. rewrite gsc_pass_flat.
  pose proof (crawl_side_issues audit_results) as Hbase. cbv zeta in Hbase.
  set (base := schema_pass _ _) in *.
  destruct (gsc_fold_char (flat_map snd (AuditResults.gsc_data audit_results)) base)
    as (added & -> & Hadded & _).
  rewrite List.Forall_forall in Hbase.
  intros Hin Hcat. apply in_app_or in Hin. destruct Hin as [Hin | Hin].
  - exfalso. exact (proj1 (Hbase issue Hin) Hcat).
  - destruct (Hadded issue Hin) as (_ & g & Hg & Hu & Himp & _).
    exists g. auto.
Qed.

(** [gsc_issue_needs_impressions] on a record of 20000 impressions. *)
Lemma gsc_issue_needs_impressions_witness :
  let g := GSCMetrics.mk "https://x.com/landing/a/b" 0 20000 PyFloat.zero (PyFloat.of_Z 3)
                         "sc-domain:x.com" in
  exists g', In g' [g] /\ GSCMetrics.url g' = "https://x.com/landing/a/b"
             /\ 500 < GSCMetrics.impressions g'.
Proof.
  intros g.
  apply (gsc_issue_needs_impressions
           (AuditResults.mk [("sc-domain:x.com", [g])] [] [] [])
           (Issue.mk "https://x.com/landing/a/b" "High Value Page Opportunity" "Medium"
                     "GSC Performance" "New" 40));
    [vm_compute; auto 10 | reflexivity].
Defined.

(** ** The number of duplicate issues *)







(** The guard counts characters, not bytes: a shared title of ten
    characters, two of them accented, is ignored, and one of twelve is
    reported for both pages. *)
Example accented_duplicate_titles :
  let page := fun url title =>
    CrawlMetrics.mk url 200 (PyFloat.tenths 10) title "" [] None "" 5 0 0 100 in
  let count := fun title =>
    count_issue_type "Duplicate Title Tags"
      (_analyze_issues (AuditResults.mk [] [page "https://x.com/a" title;
                                            page "https://x.com/b" title] [] [])) in
  count "Crème brûl" = 0%nat /\ count "Crème brûlée" = 2%nat.
Proof. vm_compute. split; reflexivity. Qed.

(** ** The printed report *)

(** X25: The teams are printed by decreasing priority score, each team once,
    and teams of equal score keep the order of the team dictionary. *)
Theorem sorted_teams_order (team_breakdown : list (string * TeamData.t)) :
  let teams := Report.sorted_teams team_breakdown in
  Permutation teams team_breakdown
  /\ StronglySorted (fun a b => TeamData.priority_score (snd b)
                                <= TeamData.priority_score (snd a)) teams
  /\ forall k, List.filter (fun e => TeamData.priority_score (snd e) =? k) teams
               = List.filter (fun e => TeamData.priority_score (snd e) =? k) team_breakdown.
Proof.
  cbv zeta. unfold Report.sorted_teams. split; [apply sort_desc_perm |].
  split.
  - apply (sort_desc_sorted (fun entry => TeamData.priority_score (snd entry))).
  - intros k. apply (sort_desc_stable (fun entry => TeamData.priority_score (snd entry))).
Qed.
